(** * auto/backup/uploader.go: the periodic upload service

    A shallow embedding of [src/auto/backup/uploader.go] and the properties
    of its upload cycle, compression step, scheduler tick and counting
    reader.

    Go values are modelled as follows.
    - [int64] (the expvar counters, [countingReader.count]) is a [Z] reduced
      with [wrap64], the two's complement wrap-around of Go's arithmetic.
    - [[]byte] and file contents are [list byte]; a nil slice is [[]].
    - [error] is [option error], [None] being Go's [nil].
    - The expvar map [stats] is a [gmap string Z].
    - The file system is a [gmap string (list byte)] from path to content.
    - Interfaces ([io.Reader], [StorageClient], [DataProvider]) are type
      classes; a method gets the receiver's state and returns the new one.
    - The outside world (which system call fails, which name
      [os.CreateTemp] picks, what the wall clock shows) is an oracle [Env]
      indexed by the number of calls made so far.
    - A Go [panic] is the [Panic] result; deferred calls run on it too.
    - A system call may fail wherever the oracle says so, [os.Remove]
      included, whose error both callers discard.
    Logging is not modelled. *)

From Stdlib Require Import ZArith Lia List Bool.
From stdpp Require Import base gmap strings list fin_maps.
From Stdlib Require Import Strings.Byte.

Local Open Scope Z_scope.
Local Open Scope string_scope.

(** ** Machine integers *)

Definition min_int64 : Z := - 2 ^ 63.
Definition max_int64 : Z := 2 ^ 63 - 1.

(** Two's complement reduction of an integer to [int64]. *)
Definition wrap64 (z : Z) : Z := (z + 2 ^ 63) mod 2 ^ 64 - 2 ^ 63.

Definition in_int64 (z : Z) : Prop := min_int64 <= z <= max_int64.

(** ** Errors, results and the reader interface *)

Definition error := string.

Definition EOF : error := "EOF".
Definition ErrExist : error := "file already exists".
Definition ErrNotExist : error := "file does not exist".

(** [context.Context]: only whether it has been cancelled matters to a
    callee. *)
Variant context := ctx_live | ctx_done.

(** [io.Reader]: [Read r len] is [r.Read(p)] with [len(p) = len]; it gives
    the reader's next state, the bytes stored in [p], and the results
    [n] and [err]. *)
Class Reader (R : Type) := Read : R -> nat -> R * (list byte * Z * option error).

(** What a callee does with an [io.Reader] it was handed: a finite tree of
    [Read] calls, each continuing on what the call returned. *)
Inductive client_prog (A : Type) : Type :=
| Done (a : A)
| DoRead (len : nat) (k : list byte * Z * option error -> client_prog A).
Arguments Done {A} a.
Arguments DoRead {A} len k.

Fixpoint run_client {A R} `{Reader R} (p : client_prog A) (r : R) : A * R :=
  match p with
  | Done a => (a, r)
  | DoRead len k => let (r', out) := Read r len in run_client (k out) r'
  end.

(** A fixed sequence of [Read] calls with the given buffer lengths. *)
Fixpoint read_seq {R} `{Reader R} (r : R) (lens : list nat)
  : list (list byte * Z * option error) * R :=
  match lens with
  | [] => ([], r)
  | len :: lens' =>
      let (r', out) := Read r len in
      let (outs, r'') := read_seq r' lens' in
      (out :: outs, r'')
  end.

(** The results of the [Read] calls a callee makes, in order. *)
Fixpoint client_reads {A R} `{Reader R} (p : client_prog A) (r : R)
  : list (list byte * Z * option error) :=
  match p with
  | Done _ => []
  | DoRead len k => let (r', out) := Read r len in out :: client_reads (k out) r'
  end.

(** The byte counts [n] returned by a sequence of calls, added up. *)
Definition sum_counts (outs : list (list byte * Z * option error)) : Z :=
  foldr (fun out acc => snd (fst out) + acc) 0 outs.

(** ** countingReader (uploader.go, lines 217-226) *)

Record countingReader (R : Type) := mkCountingReader {
  reader : R;
  count : Z
}.
Arguments mkCountingReader {R} reader count.
Arguments reader {R} c.
Arguments count {R} c.

(** [func (c *countingReader) Read(p []byte) (int, error)] *)
Definition countingReader_Read {R} `{Reader R} (c : countingReader R) (len : nat)
  : countingReader R * (list byte * Z * option error) :=
  let (r', out) := Read (reader c) len in
  let '(_, n, _) := out in
  (mkCountingReader r' (wrap64 (count c + n)), out).

#[export] Instance countingReader_Reader {R} `{Reader R} : Reader (countingReader R) :=
  countingReader_Read.

(** An open [*os.File] read from its start: the bytes not yet read. At the
    end of the file [Read] returns [0, io.EOF]; with an empty buffer it
    returns [0, nil]. *)
Record fileReader := mkFileReader { unread : list byte }.

Definition fileReader_Read (f : fileReader) (len : nat)
  : fileReader * (list byte * Z * option error) :=
  match len, unread f with
  | O, _ => (f, ([], 0, None))
  | _, [] => (f, ([], 0, Some EOF))
  | _, bs =>
      (mkFileReader (drop len bs),
       (take len bs, Z.of_nat (length (take len bs)), None))
  end.

#[export] Instance fileReader_Reader : Reader fileReader := fileReader_Read.

(** ** expvar (standard library): a map of named [int64] variables *)

(** [expvar.Map.Add(key, delta)]: a missing key is created at zero
    first; the addition is [atomic.AddInt64], which wraps around. *)
Definition expvar_Add (key : string) (delta : Z) (m : gmap string Z) : gmap string Z :=
  <[key := wrap64 (default 0 (m !! key) + delta)]> m.

(** [Get(key)] asserted to be an [expvar.Int], then [Set(v)]: [Get] gives
    nil for a missing key and the type assertion on nil panics, hence
    [None]. *)
Definition expvar_Get_Set (key : string) (v : Z) (m : gmap string Z)
  : option (gmap string Z) :=
  match m !! key with
  | Some _ => Some (<[key := v]> m)
  | None => None
  end.

(** [expvar.Map.Init()] *)
Definition expvar_Init : gmap string Z := ∅.

(** The names of the counters (uploader.go, lines 30-36). *)
Definition numUploadsOK : string := "num_uploads_ok".
Definition numUploadsFail : string := "num_uploads_fail".
Definition numUploadsSkipped : string := "num_uploads_skipped".
Definition totalUploadBytes : string := "total_upload_bytes".
Definition lastUploadBytes : string := "last_upload_bytes".

Definition UploadCompress : bool := true.
Definition UploadNoCompress : bool := false.

(** [func ResetStats()] (lines 47-54), as a function of the map; [init]
    (lines 41-44) creates the map and calls it. *)
Definition ResetStats_map : gmap string Z :=
  expvar_Add lastUploadBytes 0
    (expvar_Add totalUploadBytes 0
       (expvar_Add numUploadsSkipped 0
          (expvar_Add numUploadsFail 0
             (expvar_Add numUploadsOK 0 expvar_Init)))).

(** The value of a counter as a reader of the map sees it. *)
Definition counter (key : string) (m : gmap string Z) : Z := default 0 (m !! key).

(** The byte counts of the transmissions that succeeded, oldest first, and
    their sum. *)
Definition sent (log : list (Z * option error)) : list Z :=
  omap (fun t => match snd t with None => Some (fst t) | Some _ => None end) log.
Definition total_sent (log : list (Z * option error)) : Z :=
  foldr Z.add 0 (sent log).

(** The errors of the transmissions that failed, oldest first. *)
Definition failed (log : list (Z * option error)) : list error :=
  omap (fun t => snd t) log.

(** What was added to the success, failure and skipped counters between
    two states of the map, in [int64] arithmetic. *)
Definition increments (m m' : gmap string Z) : Z :=
  wrap64 ((counter numUploadsOK m' - counter numUploadsOK m)
          + (counter numUploadsFail m' - counter numUploadsFail m)
          + (counter numUploadsSkipped m' - counter numUploadsSkipped m)).

(** ** The digest *)

#[export] Instance byte_eq_decision : EqDecision byte := Byte.byte_eq_dec.

Definition SHA256Sum := list byte.

(** Modelled from the spec: [SHA256Sum.Equals] is declared in a file of the
    package that is not among the sources; per the data model "two digests
    compare equal iff their bytes are identical". *)
Definition Equals (s other : list byte) : bool := bool_decide (s = other).

(** ** The outside world *)

(** Every call that leaves the program consumes one index of the oracle:
    [fault i] is the error the [i]-th call meets, if any; [temp_name i] the
    name [os.CreateTemp] would pick; [junk i] what is left in a file whose
    writing is under way or was cut short; [clock i] the wall clock in
    nanoseconds. *)
Record Env := mkEnv {
  fault : nat -> option error;
  temp_name : nat -> string;
  junk : nat -> list byte;
  clock : nat -> Z
}.

(** The result of running a piece of code: it returns, or it panics. *)
Inductive result (A : Type) : Type :=
| Ok (a : A)
| Panic (msg : string).
Arguments Ok {A} a.
Arguments Panic {A} msg.

(** ** The two capabilities (uploader.go, lines 14-25) *)

(** [StorageClient.Upload(ctx, reader)]: the client reads from the reader
    as it pleases and answers with its next state and an error. *)
Class StorageClient (SC : Type) :=
  Upload : SC -> context -> client_prog (SC * option error).

(** [DataProvider.Provide(path)]: the provider acts on the file system. *)
Class DataProvider (DP : Type) :=
  Provide : DP -> string -> gmap string (list byte)
            -> DP * gmap string (list byte) * option error.

(** An [*os.File]. *)
Record File := mkFile { Name : string }.

(** [gzip.Writer]: the file it writes to and the input it was given. *)
Record gzipWriter := mkGzipWriter { gw_dst : File; gw_in : list byte }.

Section Service.

Context {SC DP : Type} `{StorageClient SC} `{DataProvider DP}.

(** [type Uploader struct] (lines 57-72); times are in nanoseconds. *)
Record Uploader := mkUploader {
  storageClient : SC;
  dataProvider : DP;
  interval : Z;
  compress : bool;
  lastUploadTime : Z;
  lastUploadDuration : Z;
  lastSum : SHA256Sum;
  disableSumCheck : bool
}.

(** [func NewUploader] (lines 75-83) *)
Definition NewUploader (storageClient : SC) (dataProvider : DP)
    (interval : Z) (compress : bool) : Uploader :=
  mkUploader storageClient dataProvider interval compress 0 0 [] false.

(** The state a cycle runs in: the receiver [u], the package variable
    [stats], the file system, the position in the oracle, and a record of
    the calls made to [storageClient.Upload] (bytes counted, result), the
    oldest first. The last is an observation, no code reads it. *)
Record State := mkState {
  self : Uploader;
  stats : gmap string Z;
  files : gmap string (list byte);
  steps : nat;
  transmissions : list (Z * option error)
}.

Definition with_self (f : Uploader -> Uploader) (w : State) : State :=
  mkState (f (self w)) (stats w) (files w) (steps w) (transmissions w).
Definition with_stats (f : gmap string Z -> gmap string Z) (w : State) : State :=
  mkState (self w) (f (stats w)) (files w) (steps w) (transmissions w).
Definition with_files (f : gmap string (list byte) -> gmap string (list byte))
    (w : State) : State :=
  mkState (self w) (stats w) (f (files w)) (steps w) (transmissions w).
Definition with_steps (f : nat -> nat) (w : State) : State :=
  mkState (self w) (stats w) (files w) (f (steps w)) (transmissions w).
Definition with_transmissions
    (f : list (Z * option error) -> list (Z * option error)) (w : State) : State :=
  mkState (self w) (stats w) (files w) (steps w) (f (transmissions w)).

Definition set_storageClient (c : SC) (u : Uploader) : Uploader :=
  mkUploader c (dataProvider u) (interval u) (compress u)
    (lastUploadTime u) (lastUploadDuration u) (lastSum u) (disableSumCheck u).
Definition set_dataProvider (d : DP) (u : Uploader) : Uploader :=
  mkUploader (storageClient u) d (interval u) (compress u)
    (lastUploadTime u) (lastUploadDuration u) (lastSum u) (disableSumCheck u).
Definition set_lastUploadTime (t : Z) (u : Uploader) : Uploader :=
  mkUploader (storageClient u) (dataProvider u) (interval u) (compress u)
    t (lastUploadDuration u) (lastSum u) (disableSumCheck u).
Definition set_lastUploadDuration (d : Z) (u : Uploader) : Uploader :=
  mkUploader (storageClient u) (dataProvider u) (interval u) (compress u)
    (lastUploadTime u) d (lastSum u) (disableSumCheck u).
Definition set_lastSum (s : SHA256Sum) (u : Uploader) : Uploader :=
  mkUploader (storageClient u) (dataProvider u) (interval u) (compress u)
    (lastUploadTime u) (lastUploadDuration u) s (disableSumCheck u).

(** *** The monad of the code: state, and a result that may be a panic *)

Definition M (A : Type) : Type := State -> result A * State.

Definition ret {A} (a : A) : M A := fun w => (Ok a, w).

Definition bind {A B} (m : M A) (k : A -> M B) : M B :=
  fun w =>
    match m w with
    | (Ok a, w1) => k a w1
    | (Panic msg, w1) => (Panic msg, w1)
    end.

(** [defer cleanup; body]: the cleanup runs when the body is left, by a
    return or by a panic; what the cleanup returns is dropped. *)
Definition defer {A B} (cleanup : M B) (body : M A) : M A :=
  fun w =>
    let (r, w1) := body w in
    let (_, w2) := cleanup w1 in
    (r, w2).

Definition panic {A} (msg : string) : M A := fun w => (Panic msg, w).
Definition get {A} (f : State -> A) : M A := fun w => (Ok (f w), w).
Definition modify (f : State -> State) : M unit := fun w => (Ok tt, f w).

Notation "x <- c1 ;; c2" := (bind c1 (fun x => c2))
  (at level 20, c1 at level 99, c2 at level 200, only parsing).

Variable env : Env.

(** The compressor and the hash function of the standard library. *)
Variable gzip : list byte -> list byte.
Variable sha256 : list byte -> list byte.

(** The index of the next call into the outside world. *)
Definition oracle : M nat := fun w => (Ok (steps w), with_steps S w).

(** *** The operating system *)

(** [os.CreateTemp]: the file is created exclusively, so the call never
    returns the name of a file that was there; it is created empty. *)
Definition os_CreateTemp : M (File * option error) :=
  i <- oracle ;;
  match fault env i with
  | Some e => ret (mkFile "", Some e)
  | None =>
      fs <- get files ;;
      match fs !! temp_name env i with
      | Some _ => ret (mkFile "", Some ErrExist)
      | None =>
          _ <- modify (with_files <[temp_name env i := []]>) ;;
          ret (mkFile (temp_name env i), None)
      end
  end.

(** [os.Open]: for reading; the file must exist. *)
Definition os_Open (path : string) : M (File * option error) :=
  i <- oracle ;;
  match fault env i with
  | Some e => ret (mkFile "", Some e)
  | None =>
      fs <- get files ;;
      match fs !! path with
      | None => ret (mkFile "", Some ErrNotExist)
      | Some _ => ret (mkFile path, None)
      end
  end.

(** [os.Create]: creates the file or truncates it. *)
Definition os_Create (path : string) : M (File * option error) :=
  i <- oracle ;;
  match fault env i with
  | Some e => ret (mkFile "", Some e)
  | None => _ <- modify (with_files <[path := []]>) ;; ret (mkFile path, None)
  end.

(** [os.Rename]: atomic; a failed call changes nothing. *)
Definition os_Rename (oldpath newpath : string) : M (option error) :=
  i <- oracle ;;
  match fault env i with
  | Some e => ret (Some e)
  | None =>
      fs <- get files ;;
      match fs !! oldpath with
      | None => ret (Some ErrNotExist)
      | Some data =>
          _ <- modify (with_files (fun fs => <[newpath := data]> (delete oldpath fs))) ;;
          ret None
      end
  end.

(** [os.Remove]: a failed call changes nothing; a file that is not there
    is an error. *)
Definition os_Remove (path : string) : M (option error) :=
  i <- oracle ;;
  match fault env i with
  | Some e => ret (Some e)
  | None =>
      fs <- get files ;;
      match fs !! path with
      | None => ret (Some ErrNotExist)
      | Some _ => _ <- modify (with_files (delete path)) ;; ret None
      end
  end.

(** The state a call of [os.Remove(path)] made in [w] leaves, whatever it
    returns: one index of the oracle is used, and the path is gone unless
    the call met a fault. *)
Definition after_Remove (path : string) (w : State) : State :=
  with_files
    (fun fs => match fault env (steps w) with
               | Some _ => fs
               | None => delete path fs
               end)
    (with_steps S w).

(** [f.Close()] *)
Definition File_Close (f : File) : M unit := ret tt.

(** The bytes of an open file, as a reader positioned at its start. *)
Definition File_reader (f : File) : M fileReader :=
  fs <- get files ;; ret (mkFileReader (default [] (fs !! Name f))).

(** [time.Now()] and [time.Since(t)] *)
Definition time_Now : M Z := i <- oracle ;; ret (clock env i).
Definition time_Since (t : Z) : M Z := now <- time_Now ;; ret (now - t).

(** [time.NewTicker(d)] panics unless [d] is positive; [ticker.Stop()]
    ends the ticks. The ticks themselves are the signals given to
    [Start]. *)
Definition time_NewTicker (d : Z) : M unit :=
  if (d <=? 0)%Z then panic "non-positive interval for NewTicker" else ret tt.
Definition Ticker_Stop : M unit := ret tt.

(** *** gzip *)

Definition gzip_NewWriter (f : File) : gzipWriter := mkGzipWriter f [].

(** [io.Copy(gw, src)]: the whole of [src] is handed to the writer, which
    may already flush some output; a failure leaves a partial file. *)
Definition io_Copy (gw : gzipWriter) (src : File) : M (gzipWriter * option error) :=
  i <- oracle ;;
  _ <- modify (with_files <[Name (gw_dst gw) := junk env i]>) ;;
  match fault env i with
  | Some e => ret (gw, Some e)
  | None =>
      r <- File_reader src ;;
      ret (mkGzipWriter (gw_dst gw) (gw_in gw ++ unread r)%list, None)
  end.

(** [gw.Close()]: flushes; on success the file holds the compressed input. *)
Definition gzip_Close (gw : gzipWriter) : M (option error) :=
  i <- oracle ;;
  match fault env i with
  | Some e =>
      _ <- modify (with_files <[Name (gw_dst gw) := junk env i]>) ;; ret (Some e)
  | None =>
      _ <- modify (with_files <[Name (gw_dst gw) := gzip (gw_in gw)]>) ;; ret None
  end.

(** Modelled from the spec: [FileSHA256] is declared in a file of the
    package that is not among the sources; per the checksum utility's
    contract it is a digest "deterministic in the file's byte content" that
    "fails with an I/O error kind if the path cannot be read". *)
Definition FileSHA256 (filePath : string) : M (SHA256Sum * option error) :=
  i <- oracle ;;
  match fault env i with
  | Some e => ret ([], Some e)
  | None =>
      fs <- get files ;;
      match fs !! filePath with
      | None => ret ([], Some ErrNotExist)
      | Some data => ret (sha256 data, None)
      end
  end.

(** *** The package variable [stats] *)

Definition stats_Add (key : string) (delta : Z) : M unit :=
  modify (with_stats (expvar_Add key delta)).

Definition stats_Get_Set (key : string) (v : Z) : M unit :=
  m <- get stats ;;
  match expvar_Get_Set key v m with
  | Some m' => modify (with_stats (fun _ => m'))
  | None => panic "interface conversion: interface is nil, not *expvar.Int"
  end.

(** [func ResetStats()] (lines 47-54) *)
Definition ResetStats : M unit := modify (with_stats (fun _ => ResetStats_map)).

(** *** Calls of the two capabilities held by the receiver *)

(** [u.dataProvider.Provide(path)] *)
Definition dataProvider_Provide (path : string) : M (option error) :=
  fun w =>
    let '(d, fs, err) := Provide (dataProvider (self w)) path (files w) in
    (Ok err, with_files (fun _ => fs) (with_self (set_dataProvider d) w)).

(** [u.storageClient.Upload(ctx, cr)]; the reader is returned as the call
    left it. *)
Definition storageClient_Upload (ctx : context) (cr : countingReader fileReader)
  : M (countingReader fileReader * option error) :=
  fun w =>
    let '(c, err, cr') := run_client (Upload (storageClient (self w)) ctx) cr in
    (Ok (cr', err),
     with_transmissions (fun l => (l ++ [(count cr', err)])%list)
       (with_self (set_storageClient c) w)).

(** *** The functions of uploader.go *)

(** [func tempFilename() (string, error)] (lines 228-235) *)
Definition tempFilename : M (string * option error) :=
  r <- os_CreateTemp ;;
  let '(f, err) := r in
  match err with
  | Some e => ret ("", Some e)
  | None => _ <- File_Close f ;; ret (Name f, None)
  end.

(** [func compressFromTo(from, to string) error] (lines 192-215) *)
Definition compressFromTo (from to : string) : M (option error) :=
  r <- os_Open from ;;
  let '(uncompressedFd, err) := r in
  match err with
  | Some e => ret (Some e)
  | None =>
      defer (File_Close uncompressedFd)
        (r <- os_Create to ;;
         let '(compressedFd, err) := r in
         match err with
         | Some e => ret (Some e)
         | None =>
             defer (File_Close compressedFd)
               (let gw := gzip_NewWriter compressedFd in
                r <- io_Copy gw uncompressedFd ;;
                let '(gw, err) := r in
                match err with
                | Some e => ret (Some e)
                | None =>
                    err <- gzip_Close gw ;;
                    match err with
                    | Some e => ret (Some e)
                    | None => ret None
                    end
                end)
         end)
  end.

(** [func (u *Uploader) compressIfNeeded(path string) error] (lines 174-190) *)
Definition compressIfNeeded (path : string) : M (option error) :=
  c <- get (fun w => compress (self w)) ;;
  if negb c then ret None
  else
    r <- tempFilename ;;
    let '(compressedFile, err) := r in
    match err with
    | Some e => ret (Some e)
    | None =>
        defer (os_Remove compressedFile)
          (err <- compressFromTo path compressedFile ;;
           match err with
           | Some e => ret (Some e)
           | None => os_Rename compressedFile path
           end)
    end.

(** [upload], lines 136-146: the provider fills the staged file, it is
    compressed if need be, and its digest is taken. The result is the
    digest and the error on which [upload] would return. *)
Definition stage_and_digest (filetoUpload : string) : M (SHA256Sum * option error) :=
  err <- dataProvider_Provide filetoUpload ;;
  match err with
  | Some e => ret ([], Some e)
  | None =>
      err <- compressIfNeeded filetoUpload ;;
      match err with
      | Some e => ret ([], Some e)
      | None => FileSHA256 filetoUpload
      end
  end.

(** [upload], lines 152-171: the staged file is opened and handed to the
    storage client through a counting reader; the counters and the
    receiver are updated on the outcome. *)
Definition transmit (ctx : context) (filetoUpload : string) (sum : SHA256Sum)
  : M (option error) :=
  r <- os_Open filetoUpload ;;
  let '(fd, err) := r in
  match err with
  | Some e => ret (Some e)
  | None =>
      defer (File_Close fd)
        (r <- File_reader fd ;;
         let cr := mkCountingReader r 0 in
         startTime <- time_Now ;;
         r <- storageClient_Upload ctx cr ;;
         let '(cr, err) := r in
         match err with
         | Some e =>
             _ <- stats_Add numUploadsFail 1 ;;
             ret (Some e)
         | None =>
             _ <- modify (with_self (set_lastSum sum)) ;;
             _ <- stats_Add numUploadsOK 1 ;;
             _ <- stats_Add totalUploadBytes (count cr) ;;
             _ <- stats_Get_Set lastUploadBytes (count cr) ;;
             now <- time_Now ;;
             _ <- modify (with_self (set_lastUploadTime now)) ;;
             d <- time_Since startTime ;;
             _ <- modify (with_self (set_lastUploadDuration d)) ;;
             ret None
         end)
  end.

(** [upload], lines 136-171: all that runs under the deferred removal of
    the staged file. *)
Definition upload_staged (ctx : context) (filetoUpload : string) : M (option error) :=
  r <- stage_and_digest filetoUpload ;;
  let '(sum, err) := r in
  match err with
  | Some e => ret (Some e)
  | None =>
      u <- get self ;;
      if negb (disableSumCheck u) && Equals sum (lastSum u) then
        _ <- stats_Add numUploadsSkipped 1 ;;
        ret None
      else transmit ctx filetoUpload sum
  end.

(** [func (u *Uploader) upload(ctx context.Context) error] (lines 128-172) *)
Definition upload (ctx : context) : M (option error) :=
  r <- tempFilename ;;
  let '(filetoUpload, err) := r in
  match err with
  | Some e => ret (Some e)
  | None => defer (os_Remove filetoUpload) (upload_staged ctx filetoUpload)
  end.

(** What the [select] of [Start] receives. *)
Variant signal := ctx_Done | ticker_C.

(** [Start], lines 101-110: the case of a tick. The gate's answer is its
    value at the oracle's index. *)
Definition Start_tick (ctx : context) (isUploadEnabled : nat -> bool) : M unit :=
  i <- oracle ;;
  if negb (isUploadEnabled i) then modify (with_self (set_lastSum []))
  else
    _ <- upload ctx ;;
    ret tt.

(** [Start], lines 95-112: the loop, on the signals that arrive; when they
    run out the loop is waiting in its [select]. *)
Fixpoint Start_loop (ctx : context) (isUploadEnabled : nat -> bool)
    (signals : list signal) : M unit :=
  match signals with
  | [] => ret tt
  | ctx_Done :: _ => ret tt
  | ticker_C :: rest =>
      _ <- Start_tick ctx isUploadEnabled ;;
      Start_loop ctx isUploadEnabled rest
  end.

(** [func (u *Uploader) Start(ctx, isUploadEnabled func() bool)] (lines 86-113) *)
Definition Start (ctx : context) (isUploadEnabled : option (nat -> bool))
    (signals : list signal) : M unit :=
  let isUploadEnabled :=
    match isUploadEnabled with
    | None => fun _ => true
    | Some f => f
    end in
  u <- get self ;;
  _ <- time_NewTicker (interval u) ;;
  defer Ticker_Stop (Start_loop ctx isUploadEnabled signals).

(** A run of [n] upload cycles, one after the other. *)
Fixpoint cycles (ctx : context) (n : nat) : M unit :=
  match n with
  | O => ret tt
  | S n' => _ <- upload ctx ;; cycles ctx n'
  end.

(** The ticks that [Start] gets to see: those before the first
    cancellation. *)
Fixpoint ticks (signals : list signal) : nat :=
  match signals with
  | [] => O
  | ctx_Done :: _ => O
  | ticker_C :: rest => S (ticks rest)
  end.

(** The compression step started in [w] is undisturbed: the name picked for
    its temporary file is free, and none of its first six calls meets a
    fault ([os.CreateTemp], [os.Open], [os.Create], [io.Copy], [gw.Close]
    and [os.Rename], in this order). The seventh and last call is the
    deferred [os.Remove] of the temporary file, whose result is dropped. *)
Definition compression_undisturbed (w : State) : Prop :=
  files w !! temp_name env (steps w) = None /\
  forall k, (k < 6)%nat -> fault env (steps w + k) = None.

End Service.

Arguments Uploader : clear implicits.
Arguments State : clear implicits.
Arguments M : clear implicits.

(** ** Fakes for the capabilities and the outside world

    Concrete instances on which the definitions above are run. *)
Module Fake.

(** A provider that follows a script: at each call it writes the next
    content to the path, or fails where the script has [None]. *)
Record provider := mkProvider { script : list (option (list byte)) }.

Definition provider_Provide (d : provider) (path : string)
    (fs : gmap string (list byte))
  : provider * gmap string (list byte) * option error :=
  match script d with
  | Some data :: rest => (mkProvider rest, <[path := data]> fs, None)
  | None :: rest => (mkProvider rest, fs, Some "provider failed")
  | [] => (d, fs, Some "provider exhausted")
  end.

#[global] Instance provider_DataProvider : DataProvider provider := provider_Provide.

(** A client that reads the stream to its end, in buffers of [chunk]
    bytes and at most [fuel] calls, keeps what it read, and then succeeds
    or fails as [failing] says. *)
Record client := mkClient { failing : bool; stored : list (list byte) }.

Fixpoint read_all {A} (chunk fuel : nat) (acc : list byte)
    (k : list byte -> client_prog A) : client_prog A :=
  match fuel with
  | O => k acc
  | S fuel' =>
      DoRead chunk (fun out =>
        let '(data, _, err) := out in
        match err with
        | Some _ => k (acc ++ data)%list
        | None => read_all chunk fuel' (acc ++ data)%list k
        end)
  end.

Definition client_Upload (c : client) (ctx : context)
  : client_prog (client * option error) :=
  read_all 4 64 [] (fun data =>
    if failing c then Done (c, Some "upload failed")
    else Done (mkClient (failing c) (stored c ++ [data])%list, None)).

#[global] Instance client_StorageClient : StorageClient client := client_Upload.

(** Stand-ins for the compressor and the hash function: a two-byte header
    before the data, and the data cut or padded to 32 bytes. *)
Definition gzip (data : list byte) : list byte := (x1f :: x8b :: data)%list.
Definition sha256 (data : list byte) : list byte :=
  take 32 (data ++ replicate 32 x00)%list.

(** The name of the [i]-th temporary file. *)
Definition name (i : nat) : string :=
  String.append "rqlite-upload" (String (Ascii.ascii_of_nat (48 + i)) "").

(** A world without faults, and one whose [k]-th call fails. *)
Definition calm : Env :=
  mkEnv (fun _ => None) name (fun _ => []) (fun i => 1000 * Z.of_nat i).
Definition faulty (k : nat) : Env :=
  mkEnv (fun i => if Nat.eqb i k then Some "i/o error" else None)
    name (fun _ => []) (fun i => 1000 * Z.of_nat i).

Definition v1 : list byte := ["v"; "1"]%byte.
Definition v2 : list byte := ["v"; "2"]%byte.

(** A service right after [init] and [NewUploader], on an empty disk. *)
Definition fresh (failing compress : bool) (script : list (option (list byte)))
  : State client provider :=
  mkState (NewUploader (mkClient failing []) (mkProvider script) 100 compress)
    ResetStats_map ∅ 0 [].

(** The state one cycle leaves behind. *)
Definition after_cycle (w : State client provider) : State client provider :=
  snd (upload calm gzip sha256 ctx_live w).

(** After one upload of [v1], with [v1] to come again. *)
Definition uploaded : State client provider :=
  after_cycle (fresh false false [Some v1; Some v1]).

(** After one upload of [v1], with a provider that fails next. *)
Definition uploaded_then_broken : State client provider :=
  after_cycle (fresh false false [Some v1; None]).

(** [uploaded], with the skipped counter at the largest [int64]. *)
Definition saturated : State client provider :=
  with_stats <[numUploadsSkipped := max_int64]> uploaded.

(** A service that compresses, with a snapshot on disk. *)
Definition compressing : State client provider :=
  mkState (NewUploader (mkClient false []) (mkProvider []) 100 UploadCompress)
    ResetStats_map {["snapshot" := v1]} 0 [].

(** A gate that is closed at the oracle index [k] and open otherwise. *)
Definition closed_at (k : nat) : nat -> bool := fun i => negb (Nat.eqb i k).

(** A service made with an interval of zero. *)
Definition unticked : State client provider :=
  mkState (NewUploader (mkClient false []) (mkProvider [Some v1]) 0 false)
    ResetStats_map ∅ 0 [].

End Fake.

(** * Properties *)

(** ** int64 arithmetic *)

Lemma wrap64_id (z : Z) : in_int64 z -> wrap64 z = z.
Proof.
  unfold in_int64, min_int64, max_int64, wrap64. intros Hz.
  rewrite Z.mod_small; lia.
Qed.

Lemma wrap64_range (z : Z) : in_int64 (wrap64 z).
Proof.
  unfold in_int64, min_int64, max_int64, wrap64.
  pose proof (Z.mod_pos_bound (z + 2 ^ 63) (2 ^ 64)). lia.
Qed.

Lemma wrap64_add_l (a b : Z) : wrap64 (wrap64 a + b) = wrap64 (a + b).
Proof.
  unfold wrap64. f_equal.
  replace ((a + 2 ^ 63) mod 2 ^ 64 - 2 ^ 63 + b + 2 ^ 63)
    with ((a + 2 ^ 63) mod 2 ^ 64 + b) by lia.
  replace (a + b + 2 ^ 63) with ((a + 2 ^ 63) + b) by lia.
  rewrite Zplus_mod_idemp_l. reflexivity.
Qed.

(** ** The counting reader *)

Section CountingReader.

Context {R : Type} `{Reader R}.

(** One call: the wrapper hands on what the wrapped reader returned and
    adds [n] to its count. *)
Lemma countingReader_Read_spec (c : countingReader R) (len : nat) :
  Read c len =
    (mkCountingReader (fst (Read (reader c) len))
       (wrap64 (count c + snd (fst (snd (Read (reader c) len))))),
     snd (Read (reader c) len)).
Proof.
  unfold Read at 1, countingReader_Reader, countingReader_Read.
  destruct (Read (reader c) len) as [r' [[data n] err]]. reflexivity.
Qed.

Lemma read_seq_counting (lens : list nat) : forall c : countingReader R,
  in_int64 (count c) ->
  fst (read_seq c lens) = fst (read_seq (reader c) lens) /\
  reader (snd (read_seq c lens)) = snd (read_seq (reader c) lens) /\
  count (snd (read_seq c lens)) =
    wrap64 (count c + sum_counts (fst (read_seq (reader c) lens))).
Proof.
  induction lens as [|len lens IH]; intros c Hc; simpl.
  - repeat split. unfold sum_counts; simpl.
    rewrite Z.add_0_r, wrap64_id; auto.
  - rewrite countingReader_Read_spec.
    destruct (Read (reader c) len) as [r' [[data n] err]] eqn:Hread; simpl.
    specialize (IH (mkCountingReader r' (wrap64 (count c + n))) (wrap64_range _)).
    simpl in IH. destruct IH as (IH1 & IH2 & IH3).
    destruct (read_seq (mkCountingReader r' (wrap64 (count c + n))) lens)
      as [outs' c'] eqn:Hc'.
    destruct (read_seq r' lens) as [outs r''] eqn:Hr'.
    simpl in *. subst. repeat split; auto.
    rewrite IH3, wrap64_add_l. f_equal. unfold sum_counts; simpl. lia.
Qed.

Lemma run_client_counting {A} (p : client_prog A) : forall c : countingReader R,
  in_int64 (count c) ->
  fst (run_client p c) = fst (run_client p (reader c)) /\
  reader (snd (run_client p c)) = snd (run_client p (reader c)) /\
  count (snd (run_client p c)) =
    wrap64 (count c + sum_counts (client_reads p (reader c))).
Proof.
  induction p as [a|len k IH]; intros c Hc; simpl.
  - repeat split. unfold sum_counts; simpl.
    rewrite Z.add_0_r, wrap64_id; auto.
  - rewrite countingReader_Read_spec.
    destruct (Read (reader c) len) as [r' [[data n] err]] eqn:Hread; simpl.
    specialize (IH (data, n, err) (mkCountingReader r' (wrap64 (count c + n)))
                  (wrap64_range _)).
    simpl in IH. destruct IH as (IH1 & IH2 & IH3).
    repeat split; auto.
    rewrite IH3, wrap64_add_l. f_equal. unfold sum_counts; simpl. lia.
Qed.

(** C8. Whatever the wrapped reader and whatever the sequence of [Read]
    calls made on a counting reader fresh from its construction: every
    call returns the very bytes, [n] and [err] that the wrapped reader
    produced and leaves the wrapped reader as a direct call would, and
    afterwards the count is the sum of the [n] returned, as an [int64]
    (so it is that sum itself whenever the sum fits into an [int64]). *)
Theorem countingReader_transparent (r : R) (lens : list nat) :
  fst (read_seq (mkCountingReader r 0) lens) = fst (read_seq r lens) /\
  reader (snd (read_seq (mkCountingReader r 0) lens)) = snd (read_seq r lens) /\
  count (snd (read_seq (mkCountingReader r 0) lens)) =
    wrap64 (sum_counts (fst (read_seq r lens))) /\
  (in_int64 (sum_counts (fst (read_seq r lens))) ->
   count (snd (read_seq (mkCountingReader r 0) lens)) =
     sum_counts (fst (read_seq r lens))).
Proof.
  destruct (read_seq_counting lens (mkCountingReader r 0)) as (Houts & Hr & Hc).
  { simpl. unfold in_int64, min_int64, max_int64. lia. }
  simpl in *. repeat split; auto.
  intros Hin. rewrite Hc. apply wrap64_id, Hin.
Qed.

End CountingReader.

(** A file hands out no more bytes than it holds. *)
Lemma fileReader_reads_bound {A} (p : client_prog A) : forall f : fileReader,
  0 <= sum_counts (client_reads p f) <= Z.of_nat (length (unread f)).
Proof.
  induction p as [a|len k IH]; intros f; simpl.
  - unfold sum_counts; simpl. lia.
  - change (Read f len) with (fileReader_Read f len). unfold fileReader_Read.
    destruct len as [|len].
    + specialize (IH ([], 0, None) f). unfold sum_counts in *; simpl in *. lia.
    + destruct (unread f) as [|b bs] eqn:Hf.
      * specialize (IH ([], 0, Some EOF) f). rewrite Hf in IH.
        unfold sum_counts in *; simpl in *. lia.
      * specialize (IH (take (S len) (b :: bs),
                        Z.of_nat (length (take (S len) (b :: bs))), None)
                       (mkFileReader (drop (S len) (b :: bs)))).
        pose proof (take_drop (S len) (b :: bs)) as Htd.
        apply (f_equal length) in Htd. rewrite length_app in Htd.
        unfold sum_counts in *. simpl in *. lia.
Qed.

(** The count of a fresh counting reader over a file, after a callee is
    done with it. *)
Lemma counted_bytes_bound {A} (p : client_prog A) (data : list byte) a cr :
  run_client p (mkCountingReader (mkFileReader data) 0) = (a, cr) ->
  Z.of_nat (length data) <= max_int64 ->
  0 <= count cr <= Z.of_nat (length data).
Proof.
  intros Hrun Hlen.
  destruct (run_client_counting p (mkCountingReader (mkFileReader data) 0))
    as (_ & _ & Hcount).
  { simpl. unfold in_int64, min_int64, max_int64. lia. }
  rewrite Hrun in Hcount. simpl in Hcount.
  pose proof (fileReader_reads_bound p (mkFileReader data)) as Hb. simpl in Hb.
  rewrite Hcount, wrap64_id; [lia|].
  unfold in_int64, min_int64, max_int64 in *. lia.
Qed.

Lemma wrap64_succ_ge (c : Z) : c < max_int64 -> c <= wrap64 (c + 1).
Proof.
  intros Hc. destruct (Z_le_gt_dec min_int64 (c + 1)) as [Hlo|Hlo].
  - rewrite wrap64_id; [lia|]. unfold in_int64. lia.
  - pose proof (wrap64_range (c + 1)) as [Hmin _]. lia.
Qed.

(** ** The counters *)

Lemma counter_Add_eq (key : string) (d : Z) (m : gmap string Z) :
  counter key (expvar_Add key d m) = wrap64 (counter key m + d).
Proof. unfold counter, expvar_Add. rewrite lookup_insert_eq. reflexivity. Qed.

Lemma lookup_Add_ne (key key' : string) (d : Z) (m : gmap string Z) :
  key <> key' -> expvar_Add key d m !! key' = m !! key'.
Proof. intros Hne. unfold expvar_Add. apply lookup_insert_ne, Hne. Qed.

Lemma counter_Add_ne (key key' : string) (d : Z) (m : gmap string Z) :
  key <> key' -> counter key' (expvar_Add key d m) = counter key' m.
Proof. intros Hne. unfold counter. rewrite lookup_Add_ne; auto. Qed.

Lemma Add_is_Some (key key' : string) (d : Z) (m : gmap string Z) :
  is_Some (m !! key') -> is_Some (expvar_Add key d m !! key').
Proof.
  intros Hs. unfold expvar_Add. rewrite lookup_insert.
  case_decide; eauto.
Qed.

Lemma Get_Set_Some (key : string) (v : Z) (m : gmap string Z) :
  is_Some (m !! key) -> expvar_Get_Set key v m = Some (<[key := v]> m).
Proof. intros [x Hx]. unfold expvar_Get_Set. rewrite Hx. reflexivity. Qed.

Lemma Get_Set_inv (key : string) (v : Z) (m m' : gmap string Z) :
  expvar_Get_Set key v m = Some m' -> m' = <[key := v]> m /\ is_Some (m !! key).
Proof.
  unfold expvar_Get_Set. destruct (m !! key) eqn:Hk; intros Heq; simplify_eq.
  eauto.
Qed.

Lemma sent_app (l1 l2 : list (Z * option error)) :
  sent (l1 ++ l2) = (sent l1 ++ sent l2)%list.
Proof. unfold sent. apply omap_app. Qed.

Lemma total_sent_app (l1 l2 : list (Z * option error)) :
  total_sent (l1 ++ l2) = total_sent l1 + total_sent l2.
Proof.
  unfold total_sent. rewrite sent_app.
  induction (sent l1) as [|x xs IH]; simpl; lia.
Qed.

Lemma last_app_default {A} (l1 l2 : list A) (d : A) :
  List.last (l1 ++ l2) d = List.last l2 (List.last l1 d).
Proof.
  revert l1. induction l2 as [|y l2 IH] using rev_ind; intros l1.
  - rewrite app_nil_r. reflexivity.
  - rewrite app_assoc, !List.last_last. reflexivity.
Qed.

Lemma wrap64_succ_diff (a : Z) : wrap64 (wrap64 (a + 1) - a) = 1.
Proof.
  replace (wrap64 (a + 1) - a) with (wrap64 (a + 1) + - a) by lia.
  rewrite wrap64_add_l. replace (a + 1 + - a) with 1 by lia. reflexivity.
Qed.

Lemma increments_same (m : gmap string Z) : increments m m = 0.
Proof.
  unfold increments.
  replace (counter numUploadsOK m - counter numUploadsOK m
           + (counter numUploadsFail m - counter numUploadsFail m)
           + (counter numUploadsSkipped m - counter numUploadsSkipped m))
    with 0 by lia.
  reflexivity.
Qed.

(** One of the three counters went up by one and the other two stayed. *)
Lemma increments_one (m m' : gmap string Z) (key : string) :
  key ∈ [numUploadsOK; numUploadsFail; numUploadsSkipped] ->
  counter key m' = wrap64 (counter key m + 1) ->
  (forall key', key' ∈ [numUploadsOK; numUploadsFail; numUploadsSkipped] ->
                key' <> key -> counter key' m' = counter key' m) ->
  increments m m' = 1.
Proof.
  intros Hin Hkey Hother. unfold increments.
  rewrite !elem_of_cons in Hin.
  destruct Hin as [->|[->|[->|Hin]]]; [| | |inversion Hin].
  - rewrite Hkey, (Hother numUploadsFail), (Hother numUploadsSkipped);
      [|set_solver|discriminate|set_solver|discriminate].
    etransitivity; [|apply (wrap64_succ_diff (counter numUploadsOK m))]. f_equal. lia.
  - rewrite Hkey, (Hother numUploadsOK), (Hother numUploadsSkipped);
      [|set_solver|discriminate|set_solver|discriminate].
    etransitivity; [|apply (wrap64_succ_diff (counter numUploadsFail m))]. f_equal. lia.
  - rewrite Hkey, (Hother numUploadsOK), (Hother numUploadsFail);
      [|set_solver|discriminate|set_solver|discriminate].
    etransitivity; [|apply (wrap64_succ_diff (counter numUploadsSkipped m))]. f_equal. lia.
Qed.

(** [init] leaves all five counters in the map. *)
Lemma ResetStats_map_keys (key : string) :
  key ∈ [numUploadsOK; numUploadsFail; numUploadsSkipped;
         totalUploadBytes; lastUploadBytes] ->
  ResetStats_map !! key = Some 0.
Proof.
  rewrite !elem_of_cons.
  intros [->|[->|[->|[->|[->|Hin]]]]]; [reflexivity ..|inversion Hin].
Qed.

(** The five names are distinct. *)
Lemma counter_names_distinct :
  NoDup [numUploadsOK; numUploadsFail; numUploadsSkipped;
         totalUploadBytes; lastUploadBytes].
Proof. apply (bool_decide_unpack _). vm_compute. exact I. Qed.

(** ** The service *)

Section Cycle.

Context {SC DP : Type} `{StorageClient SC} `{DataProvider DP}.
Variable env : Env.
Variable gzip : list byte -> list byte.
Variable sha256 : list byte -> list byte.

(** Unfolds the monad and the calls into the outside world. *)
Ltac run :=
  unfold tempFilename, os_CreateTemp, os_Open, os_Create, os_Rename,
    os_Remove, File_Close, File_reader, time_Now, time_Since, io_Copy,
    gzip_Close, gzip_NewWriter, FileSHA256, stats_Add, stats_Get_Set,
    bind, ret, get, modify, defer, panic, oracle in *;
  simpl in *.

Lemma tempFilename_cases (w : State SC DP) :
  (exists e, tempFilename env w = (Ok ("", Some e), with_steps S w)) \/
  (fault env (steps w) = None /\
   files w !! temp_name env (steps w) = None /\
   tempFilename env w =
     (Ok (temp_name env (steps w), None),
      with_files <[temp_name env (steps w) := []]> (with_steps S w))).
Proof.
  run. destruct (fault env (steps w)) as [e|] eqn:Hf; simpl.
  - left; eauto.
  - destruct (files w !! temp_name env (steps w)) eqn:Hn; simpl.
    + left; eauto.
    + right; auto.
Qed.

(** Equalities between file systems, by comparing their lookups. *)
Ltac same_files :=
  simpl; apply map_eq; intros ?;
  repeat (rewrite lookup_delete || rewrite lookup_insert);
  repeat (case_decide; simplify_eq/=); try congruence.

(** [os.Remove] returns, and leaves the state [after_Remove]. *)
Lemma os_Remove_spec (path : string) (w : State SC DP) :
  exists err, os_Remove env path w = (Ok err, after_Remove env path w).
Proof.
  unfold after_Remove. run. destruct (fault env (steps w)); simpl; [eauto|].
  destruct (files w !! path) eqn:Hp; simpl; [eauto|].
  eexists. f_equal. unfold with_files, with_steps. simpl.
  rewrite delete_id by exact Hp. reflexivity.
Qed.

(** A body run under a deferred [os.Remove]. *)
Lemma defer_Remove {A} (path : string) (body : M SC DP A) (w : State SC DP) :
  defer (os_Remove env path) body w =
    let (r, w1) := body w in (r, after_Remove env path w1).
Proof.
  unfold defer. destruct (body w) as [r w1].
  destruct (os_Remove_spec path w1) as [err ->]. reflexivity.
Qed.

(** What [os.Remove] does to the disk. *)
Lemma after_Remove_files (path : string) (w : State SC DP) :
  (forall p, p <> path -> files (after_Remove env path w) !! p = files w !! p) /\
  (fault env (steps w) = None -> files (after_Remove env path w) !! path = None) /\
  (fault env (steps w) <> None -> files (after_Remove env path w) = files w).
Proof.
  unfold after_Remove. simpl. destruct (fault env (steps w)) as [e|].
  - split; [auto|]. split; [discriminate|auto].
  - split; [intros p Hp; apply lookup_delete_ne; congruence|].
    split; [intros _; apply lookup_delete_eq|congruence].
Qed.

Lemma not_undisturbed (w : State SC DP) (k : nat) (e : error) :
  (k < 6)%nat -> fault env (steps w + k) = Some e ->
  ~ compression_undisturbed env w.
Proof. intros Hk Hf [_ Hall]. rewrite (Hall k Hk) in Hf. discriminate. Qed.

(** [compressIfNeeded] with compression on, as an equation on its parts. *)
Lemma compressIfNeeded_unfold (path : string) (w : State SC DP) :
  compress (self w) = true ->
  compressIfNeeded env gzip path w =
    match tempFilename env w with
    | (Ok (tmp, None), w1) =>
        let (r, wb) :=
          bind (compressFromTo env gzip path tmp)
            (fun err => match err with
                        | Some e => ret (Some e)
                        | None => os_Rename env tmp path
                        end) w1 in
        (r, after_Remove env tmp wb)
    | (Ok (_, Some e), w1) => (Ok (Some e), w1)
    | (Panic msg, w1) => (Panic msg, w1)
    end.
Proof.
  intros Hc. unfold compressIfNeeded. unfold bind at 1, get. rewrite Hc. simpl.
  unfold bind at 1.
  destruct (tempFilename env w) as [[[tmp [e|]]|msg] w1]; try reflexivity.
  apply defer_Remove.
Qed.

(** The compression step on a file that is there: it returns, touches
    nothing but the disk and the oracle, and either all went well and the
    path holds the compressed data, or it reports an error, the file at
    the path is as it was, and so is the rest of the disk but for the
    temporary file of the step, which stays behind if its removal
    fails. *)
Lemma compressIfNeeded_enabled (path : string) (w : State SC DP) (data : list byte) :
  compress (self w) = true ->
  files w !! path = Some data ->
  exists err w',
    compressIfNeeded env gzip path w = (Ok err, w') /\
    self w' = self w /\ stats w' = stats w /\
    transmissions w' = transmissions w /\
    ((compression_undisturbed env w /\ err = None /\
      steps w' = (steps w + 7)%nat /\
      files w' = <[path := gzip data]> (files w)) \/
     (~ compression_undisturbed env w /\ is_Some err /\
      files w' !! path = Some data /\
      (forall p, p <> temp_name env (steps w) -> files w' !! p = files w !! p) /\
      (fault env (steps w' - 1) = None -> files w' = files w))).
Proof.
  intros Hc Hdata. rewrite (compressIfNeeded_unfold _ _ Hc).
  destruct (tempFilename_cases w) as [[e0 He]|(F0 & Hfresh & Ht)].
  { rewrite He. do 2 eexists; split; [reflexivity|]. repeat split; auto. right.
    split.
    { revert He. run. destruct (fault env (steps w)) as [e|] eqn:F; simpl.
      - intros _. apply (not_undisturbed w 0 e); [lia|]. rewrite Nat.add_0_r; auto.
      - destruct (files w !! temp_name env (steps w)) eqn:Hn; simpl.
        + intros _ [Hfree _]. congruence.
        + intros Heq. simplify_eq. }
    simpl. eauto. }
  rewrite Ht. clear Ht.
  assert (Hne : temp_name env (steps w) <> path) by congruence.
  set (tmp := temp_name env (steps w)) in *.
  assert (Hleft : forall (k : nat) (e : error) (fs : gmap string (list byte)) (i : nat),
            (k < 6)%nat -> fault env (steps w + k) = Some e ->
            (forall p, p <> tmp -> fs !! p = files w !! p) ->
            let fs' := match fault env i with
                       | Some _ => fs
                       | None => delete tmp fs
                       end in
            ~ compression_undisturbed env w /\ is_Some (Some e) /\
            fs' !! path = Some data /\
            (forall p, p <> tmp -> fs' !! p = files w !! p) /\
            (fault env i = None -> fs' = files w)).
  { intros k e fs i Hk Hf Hfs fs'.
    split; [exact (not_undisturbed w k e Hk Hf)|]. split; [eauto|].
    assert (Hrest : forall p, p <> tmp -> fs' !! p = files w !! p).
    { intros p Hp. subst fs'. destruct (fault env i).
      - apply Hfs, Hp.
      - rewrite lookup_delete_ne by congruence. apply Hfs, Hp. }
    split; [rewrite Hrest by congruence; exact Hdata|]. split; [exact Hrest|].
    intros Fi. subst fs'. rewrite Fi. apply map_eq. intros p.
    destruct (decide (p = tmp)) as [->|Hp].
    - rewrite lookup_delete_eq. symmetry. exact Hfresh.
    - rewrite lookup_delete_ne by congruence. apply Hfs, Hp. }
  unfold compressFromTo. run.
  destruct (fault env (S (steps w))) as [e1|] eqn:F1; simpl.
  { do 2 eexists; split; [reflexivity|]. repeat split; auto. right.
    apply (Hleft 1%nat e1); [lia|rewrite <- F1; f_equal; lia|].
    intros p Hp. simpl. apply lookup_insert_ne. congruence. }
  rewrite lookup_insert_ne, Hdata by auto; simpl.
  destruct (fault env (S (S (steps w)))) as [e2|] eqn:F2; simpl.
  { do 2 eexists; split; [reflexivity|]. repeat split; auto. right.
    apply (Hleft 2%nat e2); [lia|rewrite <- F2; f_equal; lia|].
    intros p Hp. simpl. apply lookup_insert_ne. congruence. }
  destruct (fault env (S (S (S (steps w))))) as [e3|] eqn:F3; simpl.
  { do 2 eexists; split; [reflexivity|]. repeat split; auto. right.
    apply (Hleft 3%nat e3); [lia|rewrite <- F3; f_equal; lia|].
    intros p Hp. simpl. rewrite !lookup_insert_ne by congruence. reflexivity. }
  destruct (fault env (S (S (S (S (steps w)))))) as [e4|] eqn:F4; simpl.
  { do 2 eexists; split; [reflexivity|]. repeat split; auto. right.
    apply (Hleft 4%nat e4); [lia|rewrite <- F4; f_equal; lia|].
    intros p Hp. simpl. rewrite !lookup_insert_ne by congruence. reflexivity. }
  destruct (fault env (S (S (S (S (S (steps w))))))) as [e5|] eqn:F5; simpl.
  { do 2 eexists; split; [reflexivity|]. repeat split; auto. right.
    apply (Hleft 5%nat e5); [lia|rewrite <- F5; f_equal; lia|].
    intros p Hp. simpl. rewrite !lookup_insert_ne by congruence. reflexivity. }
  rewrite lookup_insert_eq; simpl.
  do 2 eexists; split; [reflexivity|]. repeat split; auto. left.
  split; [|split; [reflexivity|split; [simpl; lia|]]].
  - split; [exact Hfresh|]. intros k Hk.
    destruct k as [|[|[|[|[|[|k]]]]]]; try lia;
      rewrite ?Nat.add_0_r;
      repeat (rewrite Nat.add_succ_r; rewrite ?Nat.add_0_r); assumption.
  - simpl. rewrite !lookup_insert_ne, Hdata by auto. clear Hleft.
    destruct (fault env (S (S (S (S (S (S (steps w)))))))); same_files.
Qed.

(** The compression step in general: it returns and touches nothing but
    the disk and the oracle. *)
Lemma compressIfNeeded_frame (path : string) (w : State SC DP) r w' :
  compressIfNeeded env gzip path w = (r, w') ->
  (exists err, r = Ok err) /\
  self w' = self w /\ stats w' = stats w /\ transmissions w' = transmissions w.
Proof.
  unfold compressIfNeeded, compressFromTo. run. intros Hrun.
  repeat (case_match; simplify_eq/=); eauto 10.
Qed.

(** Staging and digesting: they return, and touch only the disk, the
    oracle and the provider. *)
Lemma stage_and_digest_frame (path : string) (w : State SC DP) r w' :
  stage_and_digest env gzip sha256 path w = (r, w') ->
  (exists sum err, r = Ok (sum, err)) /\
  stats w' = stats w /\ transmissions w' = transmissions w /\
  self w' = set_dataProvider (dataProvider (self w')) (self w).
Proof.
  unfold stage_and_digest, dataProvider_Provide. unfold bind at 1. intros Hrun.
  destruct (Provide (dataProvider (self w)) path (files w)) as [[d fs] [e|]] eqn:Hp.
  - simpl in Hrun. unfold ret in Hrun. simplify_eq/=. destruct (self w); eauto 10.
  - unfold bind at 1 in Hrun.
    destruct (compressIfNeeded env gzip path _) as [rc wc] eqn:Hcomp.
    apply compressIfNeeded_frame in Hcomp as ([errc ->] & Hs & Hst & Ht).
    simpl in *. destruct errc as [e|].
    + unfold ret in Hrun. simplify_eq/=. rewrite Hs, Hst, Ht. simpl.
      destruct (self w); eauto 10.
    + revert Hrun. run. intros Hrun.
      repeat (case_match; simplify_eq/=); rewrite Hs, Hst, Ht; simpl;
        destruct (self w); eauto 10.
Qed.

(** A digest that was computed is the hash of the staged file as it is on
    disk at that moment. *)
Lemma stage_and_digest_ok (path : string) (w : State SC DP) sum w' :
  stage_and_digest env gzip sha256 path w = (Ok (sum, None), w') ->
  exists data, files w' !! path = Some data /\ sum = sha256 data.
Proof.
  unfold stage_and_digest, dataProvider_Provide. unfold bind at 1. intros Hrun.
  destruct (Provide (dataProvider (self w)) path (files w)) as [[d fs] [e|]] eqn:Hp.
  - simpl in Hrun. unfold ret in Hrun. simplify_eq/=.
  - unfold bind at 1 in Hrun.
    destruct (compressIfNeeded env gzip path _) as [rc wc] eqn:Hcomp.
    apply compressIfNeeded_frame in Hcomp as ([errc ->] & Hs & Hst & Ht).
    simpl in *. destruct errc as [e|].
    + unfold ret in Hrun. simplify_eq/=.
    + revert Hrun. run. intros Hrun.
      repeat (case_match; simplify_eq/=). eauto.
Qed.

(** What the transmit step does, case by case: the file does not open; or
    it opens, the client is called once, and the counters and the receiver
    are updated on its answer. The disk is never touched. *)
Lemma transmit_spec (ctx : context) (path : string) (sum : SHA256Sum)
    (w : State SC DP) r w' :
  transmit env ctx path sum w = (r, w') ->
  files w' = files w /\
  ((exists e, (fault env (steps w) = Some e \/ files w !! path = None) /\
      r = Ok (Some e) /\ self w' = self w /\ stats w' = stats w /\
      transmissions w' = transmissions w)
   \/
   (exists data c err cr,
      fault env (steps w) = None /\ files w !! path = Some data /\
      run_client (Upload (storageClient (self w)) ctx)
        (mkCountingReader (mkFileReader data) 0) = (c, err, cr) /\
      transmissions w' = (transmissions w ++ [(count cr, err)])%list /\
      match err with
      | Some e =>
          r = Ok (Some e) /\ self w' = set_storageClient c (self w) /\
          stats w' = expvar_Add numUploadsFail 1 (stats w)
      | None =>
          let m := expvar_Add totalUploadBytes (count cr)
                     (expvar_Add numUploadsOK 1 (stats w)) in
          match expvar_Get_Set lastUploadBytes (count cr) m with
          | Some m' =>
              r = Ok None /\ stats w' = m' /\
              self w' =
                set_lastUploadDuration
                  (clock env (steps w + 3) - clock env (steps w + 1))
                  (set_lastUploadTime (clock env (steps w + 2))
                     (set_lastSum sum (set_storageClient c (self w))))
          | None =>
              (exists msg, r = Panic msg) /\ stats w' = m /\
              self w' = set_lastSum sum (set_storageClient c (self w))
          end
      end)).
Proof.
  unfold transmit, storageClient_Upload. run. intros Hrun.
  destruct (fault env (steps w)) as [e|] eqn:F0; simpl in *.
  { simplify_eq/=. split; [reflexivity|]. left. eauto 10. }
  destruct (files w !! path) as [data|] eqn:Hdata; simpl in *.
  2:{ rewrite ?Hdata in Hrun. simplify_eq/=. split; [reflexivity|]. left. eauto 10. }
  rewrite ?Hdata in Hrun; simpl in Hrun.
  destruct (run_client (Upload (storageClient (self w)) ctx)
              (mkCountingReader (mkFileReader data) 0)) as [[c err] cr] eqn:Hcall.
  simpl in *. destruct err as [e|]; simpl in *.
  { simplify_eq/=. split; [reflexivity|]. right.
    exists data, c, (Some e), cr. repeat split; auto. }
  destruct (expvar_Get_Set lastUploadBytes (count cr) _) as [m'|] eqn:Hset;
    simpl in *; simplify_eq/=.
  - split; [reflexivity|]. right. exists data, c, None, cr.
    split; [auto|]. split; [auto|]. split; [auto|]. split; [reflexivity|].
    simpl. rewrite Hset. repeat split.
    repeat f_equal; lia.
  - split; [reflexivity|]. right. exists data, c, None, cr.
    split; [auto|]. split; [auto|]. split; [auto|]. split; [reflexivity|].
    simpl. rewrite Hset. repeat split. eauto.
Qed.

(** [upload] and [upload_staged] as equations on their parts. *)
Lemma upload_staged_unfold (ctx : context) (path : string) (w : State SC DP) :
  upload_staged env gzip sha256 ctx path w =
    match stage_and_digest env gzip sha256 path w with
    | (Ok (sum, None), w2) =>
        if negb (disableSumCheck (self w2)) && Equals sum (lastSum (self w2))
        then (Ok None, with_stats (expvar_Add numUploadsSkipped 1) w2)
        else transmit env ctx path sum w2
    | (Ok (_, Some e), w2) => (Ok (Some e), w2)
    | (Panic msg, w2) => (Panic msg, w2)
    end.
Proof.
  unfold upload_staged. unfold bind at 1.
  destruct (stage_and_digest env gzip sha256 path w) as [[[sum [e|]]|msg] w2];
    try reflexivity.
  unfold bind, get, ret, stats_Add, modify; simpl.
  destruct (negb (disableSumCheck (self w2)) && Equals sum (lastSum (self w2)));
    reflexivity.
Qed.

Lemma upload_unfold (ctx : context) (w : State SC DP) :
  upload env gzip sha256 ctx w =
    match tempFilename env w with
    | (Ok (path, None), w1) =>
        let (r, w2) := upload_staged env gzip sha256 ctx path w1 in
        (r, after_Remove env path w2)
    | (Ok (_, Some e), w1) => (Ok (Some e), w1)
    | (Panic msg, w1) => (Panic msg, w1)
    end.
Proof.
  unfold upload. unfold bind at 1.
  destruct (tempFilename env w) as [[[path [e|]]|msg] w1]; try reflexivity.
  apply defer_Remove.
Qed.

(** Every run of a cycle is of one of four kinds: no temporary file; the
    staging or the digest failed; the dedup check hit; the transmit step
    ran. In the last three the staged file was made, and its removal is
    the last call of the cycle. *)
Lemma upload_outcomes (ctx : context) (w : State SC DP) r w' :
  upload env gzip sha256 ctx w = (r, w') ->
  (exists e, tempFilename env w = (Ok ("", Some e), w') /\ r = Ok (Some e) /\
     self w' = self w /\ stats w' = stats w /\ files w' = files w /\
     transmissions w' = transmissions w)
  \/
  (exists path w1 w2 sum,
     tempFilename env w = (Ok (path, None), w1) /\
     files w1 !! path = Some [] /\
     stats w2 = stats w /\ transmissions w2 = transmissions w /\
     self w2 = set_dataProvider (dataProvider (self w2)) (self w) /\
     ((exists e, stage_and_digest env gzip sha256 path w1 = (Ok (sum, Some e), w2) /\
         r = Ok (Some e) /\ w' = after_Remove env path w2)
      \/
      (stage_and_digest env gzip sha256 path w1 = (Ok (sum, None), w2) /\
       negb (disableSumCheck (self w)) && Equals sum (lastSum (self w)) = true /\
       r = Ok None /\
       w' = after_Remove env path
              (with_stats (expvar_Add numUploadsSkipped 1) w2))
      \/
      (exists w3,
         stage_and_digest env gzip sha256 path w1 = (Ok (sum, None), w2) /\
         negb (disableSumCheck (self w)) && Equals sum (lastSum (self w)) = false /\
         transmit env ctx path sum w2 = (r, w3) /\
         w' = after_Remove env path w3))).
Proof.
  rewrite upload_unfold. intros Hrun.
  destruct (tempFilename_cases w) as [[e He]|(F0 & Hfree & Ht)].
  { rewrite He in Hrun. simplify_eq. left. exists e. repeat split; auto. }
  rewrite Ht in Hrun. right.
  set (path := temp_name env (steps w)) in *.
  set (w1 := with_files <[path:=[]]> (with_steps S w)) in *.
  rewrite upload_staged_unfold in Hrun.
  destruct (stage_and_digest env gzip sha256 path w1) as [rs w2] eqn:Hstage.
  destruct (stage_and_digest_frame _ _ _ _ Hstage) as ((sum & err & ->) & Hst & Htr & Hself).
  assert (Hd : disableSumCheck (self w2) = disableSumCheck (self w))
    by (rewrite Hself; reflexivity).
  assert (Hl : lastSum (self w2) = lastSum (self w))
    by (rewrite Hself; reflexivity).
  exists path, w1, w2, sum. split; [exact Ht|].
  destruct err as [e|].
  { simplify_eq. split; [apply lookup_insert_eq|].
    split; [auto|]. split; [auto|]. split; [auto|]. left. eauto. }
  rewrite Hd, Hl in Hrun.
  destruct (negb (disableSumCheck (self w)) && Equals sum (lastSum (self w))) eqn:Hhit.
  { simplify_eq. split; [apply lookup_insert_eq|].
    split; [auto|]. split; [auto|]. split; [auto|]. right. left. auto. }
  destruct (transmit env ctx path sum w2) as [r3 w3] eqn:Htx.
  simplify_eq. split; [apply lookup_insert_eq|].
  split; [auto|]. split; [auto|]. split; [auto|]. right. right. eauto.
Qed.

(** The dedup check hit: what the cycle returns and the state it leaves. *)
Lemma upload_hit (ctx : context) (w w1 w2 : State SC DP) (path : string)
    (sum : SHA256Sum) :
  tempFilename env w = (Ok (path, None), w1) ->
  stage_and_digest env gzip sha256 path w1 = (Ok (sum, None), w2) ->
  disableSumCheck (self w) = false ->
  Equals sum (lastSum (self w)) = true ->
  upload env gzip sha256 ctx w =
    (Ok None,
     after_Remove env path (with_stats (expvar_Add numUploadsSkipped 1) w2)) /\
  stats w2 = stats w /\ transmissions w2 = transmissions w /\
  self w2 = set_dataProvider (dataProvider (self w2)) (self w).
Proof.
  intros Ht Hs Hd He.
  destruct (stage_and_digest_frame _ _ _ _ Hs) as (_ & Hst & Htr & Hself).
  destruct (tempFilename_cases w) as [[e He']|(_ & _ & Ht')]; [congruence|].
  rewrite Ht in Ht'. injection Ht' as -> ->. simpl in *.
  rewrite upload_unfold, Ht, upload_staged_unfold, Hs.
  replace (disableSumCheck (self w2)) with (disableSumCheck (self w))
    by (rewrite Hself; reflexivity).
  replace (lastSum (self w2)) with (lastSum (self w))
    by (rewrite Hself; reflexivity).
  rewrite Hd, He. simpl. auto.
Qed.

(** C1. A cycle in which dedup checking is on and the digest computed for
    the staged (possibly compressed) file equals [lastSum] returns nil,
    adds exactly 1 to the skipped counter (the map of counters afterwards
    is the one before with [Add(numUploadsSkipped, 1)] applied) and makes
    no call to the storage client's [Upload]. *)
Theorem dedup_hit_skips_upload (ctx : context) (w w1 w2 : State SC DP)
    (path : string) (sum : SHA256Sum) :
  tempFilename env w = (Ok (path, None), w1) ->
  stage_and_digest env gzip sha256 path w1 = (Ok (sum, None), w2) ->
  disableSumCheck (self w) = false ->
  Equals sum (lastSum (self w)) = true ->
  exists w',
    upload env gzip sha256 ctx w = (Ok None, w') /\
    stats w' = expvar_Add numUploadsSkipped 1 (stats w) /\
    counter numUploadsSkipped (stats w') =
      wrap64 (counter numUploadsSkipped (stats w) + 1) /\
    transmissions w' = transmissions w.
Proof.
  intros Ht Hs Hd He.
  destruct (upload_hit ctx _ _ _ _ _ Ht Hs Hd He) as (Hup & Hst & Htr & _).
  eexists. split; [exact Hup|]. simpl. rewrite Hst, Htr.
  split; [reflexivity|]. split; [apply counter_Add_eq|reflexivity].
Qed.

(** C9. A cycle skipped by the dedup check changes nothing of the service
    but the skipped counter: [lastSum], [lastUploadTime],
    [lastUploadDuration] and the storage client are as before, and so is
    every entry of the counter map other than [numUploadsSkipped], among
    them the success, failure and cumulative-bytes counters and the
    most-recent-bytes gauge. *)
Theorem skipped_cycle_frame (ctx : context) (w w1 w2 : State SC DP)
    (path : string) (sum : SHA256Sum) :
  tempFilename env w = (Ok (path, None), w1) ->
  stage_and_digest env gzip sha256 path w1 = (Ok (sum, None), w2) ->
  disableSumCheck (self w) = false ->
  Equals sum (lastSum (self w)) = true ->
  exists w',
    upload env gzip sha256 ctx w = (Ok None, w') /\
    lastSum (self w') = lastSum (self w) /\
    lastUploadTime (self w') = lastUploadTime (self w) /\
    lastUploadDuration (self w') = lastUploadDuration (self w) /\
    storageClient (self w') = storageClient (self w) /\
    (forall key, key <> numUploadsSkipped -> stats w' !! key = stats w !! key) /\
    counter numUploadsOK (stats w') = counter numUploadsOK (stats w) /\
    counter numUploadsFail (stats w') = counter numUploadsFail (stats w) /\
    counter totalUploadBytes (stats w') = counter totalUploadBytes (stats w) /\
    counter lastUploadBytes (stats w') = counter lastUploadBytes (stats w).
Proof.
  intros Ht Hs Hd He.
  destruct (upload_hit ctx _ _ _ _ _ Ht Hs Hd He) as (Hup & Hst & Htr & Hself).
  eexists. split; [exact Hup|]. simpl. rewrite Hst, Hself. simpl.
  repeat split; auto.
  - intros key Hkey. apply lookup_Add_ne. congruence.
  - apply counter_Add_ne. discriminate.
  - apply counter_Add_ne. discriminate.
  - apply counter_Add_ne. discriminate.
  - apply counter_Add_ne. discriminate.
Qed.

Lemma os_Open_ok (path : string) (w : State SC DP) fd w3 :
  os_Open env path w = (Ok (fd, None), w3) ->
  fault env (steps w) = None /\ is_Some (files w !! path).
Proof.
  run. intros Hrun.
  destruct (fault env (steps w)); simpl in *; [simplify_eq|].
  destruct (files w !! path); simpl in *; simplify_eq. eauto.
Qed.

Lemma app_one_neq {A} (l : list A) (x : A) : (l ++ [x])%list <> l.
Proof.
  intros Heq. apply (f_equal length) in Heq.
  rewrite length_app in Heq. simpl in Heq. lia.
Qed.

(** A cycle that added an entry to the record of transmissions ran the
    transmit step on a digest it had computed, and the dedup check had
    not hit. *)
Lemma upload_transmitted (ctx : context) (w : State SC DP) r w' n err :
  upload env gzip sha256 ctx w = (r, w') ->
  transmissions w' = (transmissions w ++ [(n, err)])%list ->
  exists path w1 w2 sum w3,
    tempFilename env w = (Ok (path, None), w1) /\
    stage_and_digest env gzip sha256 path w1 = (Ok (sum, None), w2) /\
    stats w2 = stats w /\ transmissions w2 = transmissions w /\
    self w2 = set_dataProvider (dataProvider (self w2)) (self w) /\
    negb (disableSumCheck (self w)) && Equals sum (lastSum (self w)) = false /\
    transmit env ctx path sum w2 = (r, w3) /\
    w' = after_Remove env path w3.
Proof.
  intros Hrun Hlog.
  destruct (upload_outcomes _ _ _ _ Hrun)
    as [(e & _ & _ & _ & _ & _ & Htr)
       |(path & w1 & w2 & sum & Ht & _ & Hst & Htr & Hself & Hcase)].
  { rewrite Htr in Hlog. symmetry in Hlog. destruct (app_one_neq _ _ Hlog). }
  destruct Hcase as [(e & _ & _ & ->)|[(_ & _ & _ & ->)|(w3 & Hs & Hhit & Htx & ->)]].
  - simpl in Hlog. rewrite Htr in Hlog. symmetry in Hlog.
    destruct (app_one_neq _ _ Hlog).
  - simpl in Hlog. rewrite Htr in Hlog. symmetry in Hlog.
    destruct (app_one_neq _ _ Hlog).
  - exists path, w1, w2, sum, w3. repeat split; auto.
Qed.

(** The transmit step of a cycle whose call to [Upload] was recorded. *)
Lemma transmit_recorded (ctx : context) (path : string) (sum : SHA256Sum)
    (w2 : State SC DP) r w3 n err :
  transmit env ctx path sum w2 = (r, w3) ->
  transmissions w3 = (transmissions w2 ++ [(n, err)])%list ->
  exists data c cr,
    fault env (steps w2) = None /\ files w2 !! path = Some data /\
    run_client (Upload (storageClient (self w2)) ctx)
      (mkCountingReader (mkFileReader data) 0) = (c, err, cr) /\
    n = count cr /\
    match err with
    | Some e =>
        r = Ok (Some e) /\ self w3 = set_storageClient c (self w2) /\
        stats w3 = expvar_Add numUploadsFail 1 (stats w2)
    | None =>
        let m := expvar_Add totalUploadBytes n
                   (expvar_Add numUploadsOK 1 (stats w2)) in
        match expvar_Get_Set lastUploadBytes n m with
        | Some m' =>
            r = Ok None /\ stats w3 = m' /\
            self w3 =
              set_lastUploadDuration
                (clock env (steps w2 + 3) - clock env (steps w2 + 1))
                (set_lastUploadTime (clock env (steps w2 + 2))
                   (set_lastSum sum (set_storageClient c (self w2))))
        | None =>
            (exists msg, r = Panic msg) /\ stats w3 = m /\
            self w3 = set_lastSum sum (set_storageClient c (self w2))
        end
    end.
Proof.
  intros Htx Hlog.
  destruct (transmit_spec _ _ _ _ _ _ Htx)
    as (_ & [(e' & _ & _ & _ & _ & Htr)
            |(data & c & err' & cr & F & Hd & Hcall & Htr & Hres)]).
  { rewrite Htr in Hlog. symmetry in Hlog. destruct (app_one_neq _ _ Hlog). }
  rewrite Htr in Hlog. apply app_inv_head in Hlog. injection Hlog as <- <-.
  exists data, c, cr. repeat split; auto.
Qed.

(** The transmit step leaves the skipped counter alone. *)
Lemma transmit_keeps_skipped (ctx : context) (path : string) (sum : SHA256Sum)
    (w2 : State SC DP) r w3 :
  transmit env ctx path sum w2 = (r, w3) ->
  counter numUploadsSkipped (stats w3) = counter numUploadsSkipped (stats w2).
Proof.
  intros Htx.
  destruct (transmit_spec _ _ _ _ _ _ Htx)
    as (_ & [(e & _ & _ & _ & -> & _)
            |(data & c & err & cr & _ & _ & _ & _ & Hres)]); [reflexivity|].
  destruct err as [e|].
  - destruct Hres as (_ & _ & ->). apply counter_Add_ne. discriminate.
  - simpl in Hres.
    destruct (expvar_Get_Set lastUploadBytes (count cr) _) as [m'|] eqn:Hset.
    + destruct Hres as (_ & -> & _). apply Get_Set_inv in Hset as [-> _].
      unfold counter. rewrite lookup_insert_ne by discriminate.
      rewrite !lookup_Add_ne by discriminate. reflexivity.
    + destruct Hres as (_ & -> & _).
      unfold counter. rewrite !lookup_Add_ne by discriminate. reflexivity.
Qed.

(** The staged file does not open: the transmit step returns the error of
    [os.Open] and does nothing else. *)
Lemma transmit_open_err (ctx : context) (path : string) (sum : SHA256Sum)
    (w : State SC DP) fd e w3 :
  os_Open env path w = (Ok (fd, Some e), w3) ->
  transmit env ctx path sum w = (Ok (Some e), w3).
Proof. intros Hopen. unfold transmit. unfold bind at 1. rewrite Hopen. reflexivity. Qed.

(** C2, as amended. A cycle whose call to the storage client's [Upload]
    returned an error returns that error, adds exactly 1 to the failure
    counter and leaves [lastSum], [lastUploadTime] and [lastUploadDuration]
    as they were. Hence a cycle that follows at once and stages the same
    bytes is not skipped, the skipped counter stays put; it calls [Upload]
    once more if its staged file opens, and if the file does not open it
    returns the error of [os.Open] without calling [Upload]. *)
Theorem failed_transmission_keeps_baseline (ctx : context) (w : State SC DP)
    r w' n e :
  upload env gzip sha256 ctx w = (r, w') ->
  transmissions w' = (transmissions w ++ [(n, Some e)])%list ->
  r = Ok (Some e) /\
  stats w' = expvar_Add numUploadsFail 1 (stats w) /\
  counter numUploadsFail (stats w') = wrap64 (counter numUploadsFail (stats w) + 1) /\
  lastSum (self w') = lastSum (self w) /\
  lastUploadTime (self w') = lastUploadTime (self w) /\
  lastUploadDuration (self w') = lastUploadDuration (self w) /\
  forall ctx' path w1 sum w2 path' w1' sum' w2',
    tempFilename env w = (Ok (path, None), w1) ->
    stage_and_digest env gzip sha256 path w1 = (Ok (sum, None), w2) ->
    tempFilename env w' = (Ok (path', None), w1') ->
    stage_and_digest env gzip sha256 path' w1' = (Ok (sum', None), w2') ->
    files w2' !! path' = files w2 !! path ->
    exists r'' w'',
      upload env gzip sha256 ctx' w' = (r'', w'') /\
      counter numUploadsSkipped (stats w'') = counter numUploadsSkipped (stats w') /\
      (forall fd w3',
         os_Open env path' w2' = (Ok (fd, None), w3') ->
         exists n' err',
           transmissions w'' = (transmissions w' ++ [(n', err')])%list) /\
      (forall fd e' w3',
         os_Open env path' w2' = (Ok (fd, Some e'), w3') ->
         r'' = Ok (Some e') /\ transmissions w'' = transmissions w').
Proof.
  intros Hrun Hlog.
  destruct (upload_transmitted _ _ _ _ _ _ Hrun Hlog)
    as (path0 & w10 & w20 & sum0 & w3 & Ht0 & Hs0 & Hst & Htr & Hself & Hhit & Htx & ->).
  simpl in Hlog. rewrite <- Htr in Hlog.
  destruct (transmit_recorded _ _ _ _ _ _ _ _ Htx Hlog)
    as (data & c & cr & F & Hd & Hcall & -> & -> & Hself3 & Hst3).
  simpl.
  split; [reflexivity|]. split; [rewrite Hst3, Hst; reflexivity|].
  split; [rewrite Hst3, Hst; apply counter_Add_eq|].
  do 3 (split; [rewrite Hself3, Hself; reflexivity|]).
  intros ctx' path w1 sum w2 path' w1' sum' w2' Ht Hs Ht' Hs' Hsame.
  rewrite Ht in Ht0. injection Ht0 as <- <-.
  rewrite Hs in Hs0. injection Hs0 as <- <-.
  destruct (stage_and_digest_ok _ _ _ _ Hs) as (d1 & Hd1 & ->).
  destruct (stage_and_digest_ok _ _ _ _ Hs') as (d2 & Hd2 & ->).
  assert (d2 = d1) as -> by congruence.
  destruct (stage_and_digest_frame _ _ _ _ Hs') as (_ & Hst' & Htr' & Hself').
  assert (Hw1' : self w1' = self w3 /\ stats w1' = stats w3 /\
                 transmissions w1' = transmissions w3).
  { destruct (tempFilename_cases (after_Remove env path w3))
      as [[e' He']|(_ & _ & Ht'')]; [congruence|].
    rewrite Ht' in Ht''. injection Ht'' as _ ->. auto. }
  destruct Hw1' as (Hself1 & Hst1 & Htr1).
  rewrite upload_unfold, Ht', upload_staged_unfold, Hs'.
  replace (disableSumCheck (self w2')) with (disableSumCheck (self w))
    by (rewrite Hself'; simpl; rewrite Hself1, Hself3; simpl;
        rewrite Hself; reflexivity).
  replace (lastSum (self w2')) with (lastSum (self w))
    by (rewrite Hself'; simpl; rewrite Hself1, Hself3; simpl;
        rewrite Hself; reflexivity).
  rewrite Hhit.
  destruct (transmit env ctx' path' (sha256 d1) w2') as [r'' w''] eqn:Htx'.
  pose proof (transmit_keeps_skipped _ _ _ _ _ _ Htx') as Hskip.
  exists r'', (after_Remove env path' w''). split; [reflexivity|]. simpl.
  split; [rewrite Hskip, Hst', Hst1; reflexivity|].
  split.
  - intros fd w3' Hopen.
    destruct (os_Open_ok _ _ _ _ Hopen) as (F' & Hsome).
    destruct (transmit_spec _ _ _ _ _ _ Htx')
      as (_ & [(e' & [Hf|Hn] & _)
              |(data' & c' & err' & cr' & _ & _ & _ & Hlog' & Hres)]).
    { congruence. }
    { rewrite Hn in Hsome. destruct Hsome; discriminate. }
    exists (count cr'), err'. rewrite Hlog', Htr', Htr1. reflexivity.
  - intros fd e' w3' Hopen.
    rewrite (transmit_open_err _ _ _ _ _ _ _ Hopen) in Htx'.
    injection Htx' as <- <-. split; [reflexivity|].
    assert (Hw3 : transmissions w3' = transmissions w2').
    { revert Hopen. clear. run. intros Hopen.
      repeat (case_match; simplify_eq/=); reflexivity. }
    rewrite Hw3, Htr', Htr1. reflexivity.
Qed.

(** The effects of a cycle whose call to [Upload] returned nil. *)
Lemma upload_success (ctx : context) (w w1 w2 : State SC DP) (path : string)
    (sum : SHA256Sum) r w' n :
  tempFilename env w = (Ok (path, None), w1) ->
  stage_and_digest env gzip sha256 path w1 = (Ok (sum, None), w2) ->
  upload env gzip sha256 ctx w = (r, w') ->
  transmissions w' = (transmissions w ++ [(n, None)])%list ->
  is_Some (stats w !! lastUploadBytes) ->
  r = Ok None /\
  (exists data c cr,
     files w2 !! path = Some data /\
     run_client (Upload (storageClient (self w2)) ctx)
       (mkCountingReader (mkFileReader data) 0) = (c, None, cr) /\
     n = count cr) /\
  lastSum (self w') = sum /\
  stats w' =
    <[lastUploadBytes := n]>
      (expvar_Add totalUploadBytes n (expvar_Add numUploadsOK 1 (stats w))) /\
  counter numUploadsOK (stats w') = wrap64 (counter numUploadsOK (stats w) + 1) /\
  counter totalUploadBytes (stats w') =
    wrap64 (counter totalUploadBytes (stats w) + n) /\
  counter lastUploadBytes (stats w') = n /\
  lastUploadTime (self w') = clock env (steps w2 + 2) /\
  lastUploadDuration (self w') =
    clock env (steps w2 + 3) - clock env (steps w2 + 1).
Proof.
  intros Ht Hs Hrun Hlog Hgauge.
  destruct (upload_transmitted _ _ _ _ _ _ Hrun Hlog)
    as (path0 & w10 & w20 & sum0 & w3 & Ht0 & Hs0 & Hst & Htr & Hself & Hhit & Htx & ->).
  rewrite Ht in Ht0. injection Ht0 as <- <-.
  rewrite Hs in Hs0. injection Hs0 as <- <-.
  simpl in Hlog. rewrite <- Htr in Hlog.
  destruct (transmit_recorded _ _ _ _ _ _ _ _ Htx Hlog)
    as (data & c & cr & F & Hd & Hcall & -> & Hres).
  simpl in Hres. rewrite Get_Set_Some in Hres
    by (rewrite Hst; do 2 apply Add_is_Some; exact Hgauge).
  destruct Hres as (-> & Hst3 & Hself3). simpl.
  rewrite Hst3, Hself3, Hst. simpl.
  split; [reflexivity|]. split; [eauto 10|]. do 2 (split; [reflexivity|]).
  unfold counter.
  rewrite lookup_insert_eq, !lookup_insert_ne by discriminate.
  rewrite lookup_Add_ne by discriminate.
  unfold expvar_Add at 1 2. rewrite !lookup_insert_eq.
  rewrite lookup_Add_ne by discriminate. auto.
Qed.

(** One cycle, as the bytes counters see it: it returns; the cumulative
    counter grows by the bytes of the transmission that succeeded, if one
    did, and the gauge is set to them. *)
Lemma upload_accounting (ctx : context) (w : State SC DP) r w' :
  is_Some (stats w !! lastUploadBytes) ->
  in_int64 (counter totalUploadBytes (stats w)) ->
  upload env gzip sha256 ctx w = (r, w') ->
  (exists err, r = Ok err) /\
  is_Some (stats w' !! lastUploadBytes) /\
  in_int64 (counter totalUploadBytes (stats w')) /\
  exists new,
    transmissions w' = (transmissions w ++ new)%list /\
    counter totalUploadBytes (stats w') =
      wrap64 (counter totalUploadBytes (stats w) + total_sent new) /\
    counter lastUploadBytes (stats w') =
      List.last (sent new) (counter lastUploadBytes (stats w)).
Proof.
  intros Hgauge Hrange Hrun.
  assert (Hquiet : forall (m : gmap string Z) (log failed : list (Z * option error)),
             is_Some (m !! lastUploadBytes) ->
             counter totalUploadBytes m = counter totalUploadBytes (stats w) ->
             counter lastUploadBytes m = counter lastUploadBytes (stats w) ->
             sent failed = [] ->
             log = (transmissions w ++ failed)%list ->
             is_Some (m !! lastUploadBytes) /\
             in_int64 (counter totalUploadBytes m) /\
             exists new,
               log = (transmissions w ++ new)%list /\
               counter totalUploadBytes m =
                 wrap64 (counter totalUploadBytes (stats w) + total_sent new) /\
               counter lastUploadBytes m =
                 List.last (sent new) (counter lastUploadBytes (stats w))).
  { intros m log failed Hm Htot Hlast Hsent ->.
    split; [exact Hm|]. split; [rewrite Htot; exact Hrange|].
    exists failed. split; [reflexivity|]. unfold total_sent. rewrite Hsent. simpl.
    rewrite Z.add_0_r, wrap64_id; auto. }
  destruct (upload_outcomes _ _ _ _ Hrun)
    as [(e & _ & -> & _ & Hst & _ & Htr)
       |(path & w1 & w2 & sum & Ht & _ & Hst & Htr & Hself & Hcase)].
  { split; [eauto|]. apply (Hquiet _ _ []); rewrite ?Hst, ?app_nil_r; auto. }
  destruct Hcase as [(e & _ & -> & ->)|[(_ & _ & -> & ->)|(w3 & Hs & Hhit & Htx & ->)]];
    simpl.
  - split; [eauto|]. apply (Hquiet _ _ []); rewrite ?Hst, ?app_nil_r; auto.
  - split; [eauto|]. apply (Hquiet _ _ []); rewrite ?Hst, ?app_nil_r; auto.
    + apply Add_is_Some, Hgauge.
    + apply counter_Add_ne; discriminate.
    + apply counter_Add_ne; discriminate.
  - destruct (transmit_spec _ _ _ _ _ _ Htx)
      as (_ & [(e & _ & -> & _ & Hst3 & Htr3)
              |(data & c & err & cr & _ & _ & _ & Htr3 & Hres)]).
    { split; [eauto|].
      apply (Hquiet _ _ []); rewrite ?Hst3, ?Htr3, ?Hst, ?app_nil_r; auto. }
    rewrite Htr3, Htr. destruct err as [e|].
    + destruct Hres as (-> & _ & ->). rewrite Hst. split; [eauto|].
      apply (Hquiet _ _ [(count cr, Some e)]); auto.
      * apply Add_is_Some, Hgauge.
      * apply counter_Add_ne; discriminate.
      * apply counter_Add_ne; discriminate.
    + simpl in Hres. rewrite Get_Set_Some in Hres
        by (rewrite Hst; do 2 apply Add_is_Some; exact Hgauge).
      destruct Hres as (-> & -> & _). rewrite Hst.
      assert (Htot : counter totalUploadBytes
                (<[lastUploadBytes:=count cr]>
                   (expvar_Add totalUploadBytes (count cr)
                      (expvar_Add numUploadsOK 1 (stats w)))) =
              wrap64 (counter totalUploadBytes (stats w) + count cr)).
      { unfold counter. rewrite lookup_insert_ne by discriminate.
        unfold expvar_Add at 1. rewrite lookup_insert_eq.
        rewrite lookup_Add_ne by discriminate. reflexivity. }
      split; [eauto|]. split; [rewrite lookup_insert_eq; eauto|].
      split; [rewrite Htot; apply wrap64_range|].
      exists [(count cr, None)]. split; [reflexivity|].
      split.
      * rewrite Htot. unfold total_sent; simpl. f_equal. lia.
      * unfold counter. rewrite lookup_insert_eq. reflexivity.
Qed.

(** A run of cycles, as the bytes counters see it. *)
Lemma cycles_accounting (ctx : context) (n : nat) : forall (w : State SC DP) r w',
  is_Some (stats w !! lastUploadBytes) ->
  in_int64 (counter totalUploadBytes (stats w)) ->
  cycles env gzip sha256 ctx n w = (r, w') ->
  r = Ok tt /\
  exists new,
    transmissions w' = (transmissions w ++ new)%list /\
    counter totalUploadBytes (stats w') =
      wrap64 (counter totalUploadBytes (stats w) + total_sent new) /\
    counter lastUploadBytes (stats w') =
      List.last (sent new) (counter lastUploadBytes (stats w)).
Proof.
  induction n as [|n IH]; intros w r w' Hgauge Hrange Hrun; simpl in Hrun.
  - unfold ret in Hrun. simplify_eq. split; [reflexivity|].
    exists []. rewrite app_nil_r. unfold total_sent; simpl.
    rewrite Z.add_0_r, wrap64_id; auto.
  - unfold bind in Hrun.
    destruct (upload env gzip sha256 ctx w) as [r1 w1] eqn:Hup.
    destruct (upload_accounting _ _ _ _ Hgauge Hrange Hup)
      as ([err ->] & Hgauge1 & Hrange1 & new1 & Htr1 & Htot1 & Hlast1).
    destruct (IH _ _ _ Hgauge1 Hrange1 Hrun) as (-> & new2 & Htr2 & Htot2 & Hlast2).
    split; [reflexivity|]. exists (new1 ++ new2)%list.
    rewrite Htr2, Htr1, Htot2, Htot1, Hlast2, Hlast1.
    rewrite app_assoc, total_sent_app, sent_app, last_app_default, wrap64_add_l.
    repeat split; auto. f_equal. lia.
Qed.

Lemma os_Open_err (path : string) (w : State SC DP) fd e w3 :
  os_Open env path w = (Ok (fd, Some e), w3) ->
  fault env (steps w) = Some e \/ files w !! path = None.
Proof.
  run. intros Hrun.
  destruct (fault env (steps w)); simpl in *; [simplify_eq; auto|].
  destruct (files w !! path); simpl in *; simplify_eq. auto.
Qed.

(** C3. A cycle whose call to [Upload] returned nil sets [lastSum] to the
    digest computed in this cycle, adds exactly 1 to the success counter,
    adds the byte count [n] of its counting reader to the cumulative
    counter, sets the gauge to [n], and records [lastUploadTime] (the
    clock read after the call) and [lastUploadDuration] (the clock read
    once more, less the reading taken before the call). Hence over any
    run of cycles the cumulative counter grows by the sum of the byte
    counts of the transmissions that succeeded, as an [int64] and exactly
    when within its range, and the gauge ends as the last of them. The
    gauge must exist in the map, as it does from [init] on. *)
Theorem successful_upload_accounting :
  (forall (ctx : context) (w w1 w2 : State SC DP) (path : string)
          (sum : SHA256Sum) r w' n,
     tempFilename env w = (Ok (path, None), w1) ->
     stage_and_digest env gzip sha256 path w1 = (Ok (sum, None), w2) ->
     upload env gzip sha256 ctx w = (r, w') ->
     transmissions w' = (transmissions w ++ [(n, None)])%list ->
     is_Some (stats w !! lastUploadBytes) ->
     r = Ok None /\
     (exists data c cr,
        files w2 !! path = Some data /\
        run_client (Upload (storageClient (self w2)) ctx)
          (mkCountingReader (mkFileReader data) 0) = (c, None, cr) /\
        n = count cr) /\
     lastSum (self w') = sum /\
     stats w' =
       <[lastUploadBytes := n]>
         (expvar_Add totalUploadBytes n (expvar_Add numUploadsOK 1 (stats w))) /\
     counter numUploadsOK (stats w') =
       wrap64 (counter numUploadsOK (stats w) + 1) /\
     counter totalUploadBytes (stats w') =
       wrap64 (counter totalUploadBytes (stats w) + n) /\
     counter lastUploadBytes (stats w') = n /\
     lastUploadTime (self w') = clock env (steps w2 + 2) /\
     lastUploadDuration (self w') =
       clock env (steps w2 + 3) - clock env (steps w2 + 1))
  /\
  (forall (ctx : context) (n : nat) (w : State SC DP) r w',
     is_Some (stats w !! lastUploadBytes) ->
     in_int64 (counter totalUploadBytes (stats w)) ->
     cycles env gzip sha256 ctx n w = (r, w') ->
     r = Ok tt /\
     exists new,
       transmissions w' = (transmissions w ++ new)%list /\
       counter totalUploadBytes (stats w') =
         wrap64 (counter totalUploadBytes (stats w) + total_sent new) /\
       (in_int64 (counter totalUploadBytes (stats w) + total_sent new) ->
        counter totalUploadBytes (stats w') =
          counter totalUploadBytes (stats w) + total_sent new) /\
       counter lastUploadBytes (stats w') =
         List.last (sent new) (counter lastUploadBytes (stats w))).
Proof.
  split.
  - intros. eapply upload_success; eauto.
  - intros ctx n w r w' Hgauge Hrange Hrun.
    destruct (cycles_accounting _ _ _ _ _ Hgauge Hrange Hrun)
      as (-> & new & Htr & Htot & Hlast).
    split; [reflexivity|]. exists new. repeat split; auto.
    intros Hin. rewrite Htot. apply wrap64_id, Hin.
Qed.

(** C4, as amended. A cycle adds exactly 1 in all to the success, failure
    and skipped counters if it reaches the dedup decision and either is
    skipped there or gets its staged file open for the transmission; it
    leaves the whole map of counters as it was if it fails earlier (no
    temporary file, or an error of the provider, the compression or the
    digest), and also if the staged file fails to open. *)
Theorem cycle_counted_at_most_once (ctx : context) (w : State SC DP) r w' :
  upload env gzip sha256 ctx w = (r, w') ->
  (forall p e w1,
     tempFilename env w = (Ok (p, Some e), w1) ->
     stats w' = stats w /\ increments (stats w) (stats w') = 0) /\
  (forall path w1 sum e w2,
     tempFilename env w = (Ok (path, None), w1) ->
     stage_and_digest env gzip sha256 path w1 = (Ok (sum, Some e), w2) ->
     stats w' = stats w /\ increments (stats w) (stats w') = 0) /\
  (forall path w1 sum w2,
     tempFilename env w = (Ok (path, None), w1) ->
     stage_and_digest env gzip sha256 path w1 = (Ok (sum, None), w2) ->
     (negb (disableSumCheck (self w)) && Equals sum (lastSum (self w)) = true ->
      increments (stats w) (stats w') = 1) /\
     (forall fd w3,
        negb (disableSumCheck (self w)) && Equals sum (lastSum (self w)) = false ->
        os_Open env path w2 = (Ok (fd, None), w3) ->
        increments (stats w) (stats w') = 1) /\
     (forall fd e w3,
        negb (disableSumCheck (self w)) && Equals sum (lastSum (self w)) = false ->
        os_Open env path w2 = (Ok (fd, Some e), w3) ->
        stats w' = stats w /\ increments (stats w) (stats w') = 0)).
Proof.
  intros Hrun.
  assert (Hzero : stats w' = stats w ->
                  stats w' = stats w /\ increments (stats w) (stats w') = 0).
  { intros ->. split; [reflexivity|apply increments_same]. }
  destruct (upload_outcomes _ _ _ _ Hrun)
    as [(e0 & Ht0 & -> & _ & Hst & _ & _)
       |(path0 & w10 & w20 & sum0 & Ht0 & _ & Hst & Htr & Hself & Hcase)].
  { split; [auto|]. split; intros; congruence. }
  split; [intros; congruence|].
  split.
  { intros path w1 sum e w2 Ht Hs. apply Hzero.
    rewrite Ht in Ht0. injection Ht0 as <- <-.
    destruct Hcase as [(e' & _ & _ & ->)|[(Hs' & _)|(w3 & Hs' & _)]];
      [simpl; auto|congruence|congruence]. }
  intros path w1 sum w2 Ht Hs.
  rewrite Ht in Ht0. injection Ht0 as <- <-.
  destruct Hcase as [(e' & Hs' & _)|[(Hs' & Hhit & _ & ->)|(w3 & Hs' & Hhit & Htx & ->)]];
    [congruence| |];
    rewrite Hs in Hs'; injection Hs' as <- <-.
  - split; [|split; intros; congruence].
    intros _. simpl. rewrite Hst.
    apply (increments_one _ _ numUploadsSkipped); [repeat constructor| |].
    + apply counter_Add_eq.
    + intros key' _ Hne. apply counter_Add_ne. congruence.
  - split; [intros; congruence|]. simpl.
    destruct (transmit_spec _ _ _ _ _ _ Htx)
      as (_ & [(e & Hfail & _ & _ & Hst3 & _)
              |(data & c & err & cr & F & Hd & _ & _ & Hres)]).
    + split.
      * intros fd w3' _ Hopen. destruct (os_Open_ok _ _ _ _ Hopen) as (F & Hsome).
        destruct Hfail as [Hf|Hn]; [congruence|].
        rewrite Hn in Hsome. destruct Hsome; discriminate.
      * intros fd e' w3' _ _. apply Hzero. simpl. congruence.
    + split.
      2:{ intros fd e' w3' _ Hopen. destruct (os_Open_err _ _ _ _ _ Hopen); congruence. }
      intros fd w3' _ _. destruct err as [e|].
      * destruct Hres as (_ & _ & ->). rewrite Hst.
        apply (increments_one _ _ numUploadsFail); [repeat constructor| |].
        -- apply counter_Add_eq.
        -- intros key' _ Hne. apply counter_Add_ne. congruence.
      * simpl in Hres. rewrite Hst in Hres.
        assert (Hok : forall m : gmap string Z,
                   m = expvar_Add totalUploadBytes (count cr)
                         (expvar_Add numUploadsOK 1 (stats w)) \/
                   m = <[lastUploadBytes:=count cr]>
                         (expvar_Add totalUploadBytes (count cr)
                            (expvar_Add numUploadsOK 1 (stats w))) ->
                   increments (stats w) m = 1).
        { intros m Hm. apply (increments_one _ _ numUploadsOK); [repeat constructor| |].
          - destruct Hm as [->| ->]; unfold counter;
              rewrite ?lookup_insert_ne by discriminate;
              rewrite lookup_Add_ne by discriminate;
              unfold expvar_Add; rewrite lookup_insert_eq; reflexivity.
          - intros key' Hin Hne. rewrite !elem_of_cons in Hin.
            destruct Hin as [->|[->|[->|Hin]]];
              [congruence| | |inversion Hin];
              destruct Hm as [->| ->]; unfold counter;
              rewrite ?lookup_insert_ne by discriminate;
              rewrite !lookup_Add_ne by discriminate; reflexivity. }
        destruct (expvar_Get_Set lastUploadBytes (count cr) _) as [m'|] eqn:Hset.
        -- destruct Hres as (_ & -> & _). apply Get_Set_inv in Hset as [-> _].
           apply Hok. auto.
        -- destruct Hres as (_ & -> & _). apply Hok. auto.
Qed.

(** C7, as amended. Once the staging file of a cycle has been created
    (its name was free and it is on disk, empty), its removal is the last
    call of the cycle however the cycle is left: by an error of the
    provider, the compression, the digest or the opening, by the skip, by
    the failed or the successful transmission, or by a panic. The cycle
    returns what the code under the deferred call returned; the file is
    gone from the disk afterwards provided that this call of [os.Remove]
    does not fail, and if it fails the disk stays as that code left it.
    No other file is touched by the removal. *)
Theorem staged_file_removed (ctx : context) (w w1 : State SC DP)
    (path : string) r w' :
  tempFilename env w = (Ok (path, None), w1) ->
  upload env gzip sha256 ctx w = (r, w') ->
  files w !! path = None /\ files w1 !! path = Some [] /\
  exists wb,
    upload_staged env gzip sha256 ctx path w1 = (r, wb) /\
    w' = after_Remove env path wb /\
    steps w' = S (steps wb) /\
    (forall p, p <> path -> files w' !! p = files wb !! p) /\
    (fault env (steps wb) = None -> files w' !! path = None) /\
    (fault env (steps wb) <> None -> files w' = files wb).
Proof.
  intros Ht Hrun.
  destruct (tempFilename_cases w) as [[e He]|(_ & Hfree & Ht')]; [congruence|].
  rewrite upload_unfold, Ht in Hrun.
  rewrite Ht in Ht'. injection Ht' as -> ->.
  split; [exact Hfree|]. split; [apply lookup_insert_eq|].
  destruct (upload_staged env gzip sha256 ctx _ _) as [rb wb] eqn:Hb.
  injection Hrun as <- <-.
  exists wb. split; [reflexivity|]. split; [reflexivity|].
  split; [reflexivity|]. apply after_Remove_files.
Qed.

(** C10, as amended. A cycle lowers none of the success, failure, skipped
    and cumulative-bytes counters, provided no addition overflows: the
    first three are below the largest [int64], and the cumulative counter
    is not negative and, with the size of the file this cycle stages
    added, still within [int64]. *)
Theorem counters_never_decrease (ctx : context) (w : State SC DP) r w' :
  counter numUploadsOK (stats w) < max_int64 ->
  counter numUploadsFail (stats w) < max_int64 ->
  counter numUploadsSkipped (stats w) < max_int64 ->
  0 <= counter totalUploadBytes (stats w) ->
  (forall path w1 rs w2 data,
     tempFilename env w = (Ok (path, None), w1) ->
     stage_and_digest env gzip sha256 path w1 = (rs, w2) ->
     files w2 !! path = Some data ->
     counter totalUploadBytes (stats w) + Z.of_nat (length data) <= max_int64) ->
  upload env gzip sha256 ctx w = (r, w') ->
  counter numUploadsOK (stats w) <= counter numUploadsOK (stats w') /\
  counter numUploadsFail (stats w) <= counter numUploadsFail (stats w') /\
  counter numUploadsSkipped (stats w) <= counter numUploadsSkipped (stats w') /\
  counter totalUploadBytes (stats w) <= counter totalUploadBytes (stats w').
Proof.
  intros Hok Hfail Hskip Htot Hsize Hrun.
  assert (Hsame : forall m : gmap string Z, m = stats w ->
            counter numUploadsOK (stats w) <= counter numUploadsOK m /\
            counter numUploadsFail (stats w) <= counter numUploadsFail m /\
            counter numUploadsSkipped (stats w) <= counter numUploadsSkipped m /\
            counter totalUploadBytes (stats w) <= counter totalUploadBytes m).
  { intros m ->. lia. }
  destruct (upload_outcomes _ _ _ _ Hrun)
    as [(e0 & Ht0 & -> & _ & Hst & _ & _)
       |(path & w1 & w2 & sum & Ht & _ & Hst & Htr & Hself & Hcase)].
  { apply Hsame, Hst. }
  destruct Hcase as [(e & _ & _ & ->)|[(_ & _ & _ & ->)|(w3 & Hs & Hhit & Htx & ->)]];
    simpl.
  - apply Hsame, Hst.
  - rewrite Hst. rewrite counter_Add_eq, !counter_Add_ne by discriminate.
    pose proof (wrap64_succ_ge _ Hskip). lia.
  - destruct (transmit_spec _ _ _ _ _ _ Htx)
      as (_ & [(e & _ & _ & _ & Hst3 & _)
              |(data & c & err & cr & _ & Hd & Hcall & _ & Hres)]).
    { apply Hsame. congruence. }
    destruct err as [e|].
    + destruct Hres as (_ & _ & ->). rewrite Hst.
      rewrite counter_Add_eq, !counter_Add_ne by discriminate.
      pose proof (wrap64_succ_ge _ Hfail). lia.
    + specialize (Hsize _ _ _ _ _ Ht Hs Hd).
      assert (Hlen : Z.of_nat (length data) <= max_int64) by lia.
      pose proof (counted_bytes_bound _ _ _ _ Hcall Hlen) as Hn.
      assert (Hgrow : forall m : gmap string Z,
                m = expvar_Add totalUploadBytes (count cr)
                      (expvar_Add numUploadsOK 1 (stats w)) \/
                m = <[lastUploadBytes:=count cr]>
                      (expvar_Add totalUploadBytes (count cr)
                         (expvar_Add numUploadsOK 1 (stats w))) ->
                counter numUploadsOK m = wrap64 (counter numUploadsOK (stats w) + 1) /\
                counter numUploadsFail m = counter numUploadsFail (stats w) /\
                counter numUploadsSkipped m = counter numUploadsSkipped (stats w) /\
                counter totalUploadBytes m =
                  wrap64 (counter totalUploadBytes (stats w) + count cr)).
      { intros m [->| ->]; unfold counter;
          rewrite ?lookup_insert_ne by discriminate;
          rewrite !lookup_Add_ne by discriminate;
          unfold expvar_Add; rewrite ?lookup_insert_ne by discriminate;
          rewrite !lookup_insert_eq; rewrite ?lookup_insert_ne by discriminate;
          auto. }
      simpl in Hres. rewrite Hst in Hres.
      assert (Hm : exists m, stats w3 = m /\
                 (m = expvar_Add totalUploadBytes (count cr)
                        (expvar_Add numUploadsOK 1 (stats w)) \/
                  m = <[lastUploadBytes:=count cr]>
                        (expvar_Add totalUploadBytes (count cr)
                           (expvar_Add numUploadsOK 1 (stats w))))).
      { destruct (expvar_Get_Set lastUploadBytes (count cr) _) as [m'|] eqn:Hset.
        - destruct Hres as (_ & -> & _). apply Get_Set_inv in Hset as [-> _]. eauto.
        - destruct Hres as (_ & -> & _). eauto. }
      destruct Hm as (m & -> & Hm).
      destruct (Hgrow m Hm) as (-> & -> & -> & ->).
      pose proof (wrap64_succ_ge _ Hok).
      rewrite (wrap64_id (counter totalUploadBytes (stats w) + count cr));
        [lia|].
      unfold in_int64, min_int64, max_int64 in *. lia.
Qed.

(** C6. The compression step. With compression off it returns nil and
    changes nothing at all. With compression on and a file at the path, it
    returns nil only if every one of its steps went well (the temporary
    file, the opening of the source, the creation of the output, the copy,
    the closing of the compressor, the rename), and then the path holds
    the compressed data and nothing else on disk has changed; if any step
    fails it returns an error and the file at the path is there with its
    content as before. The rest of the disk is as it was too, but for the
    temporary file of the step, which stays behind if its removal, the
    last call of the step, fails. *)
Theorem compression_step_safe (path : string) (w : State SC DP) :
  (compress (self w) = false ->
   compressIfNeeded env gzip path w = (Ok None, w)) /\
  (forall data,
     compress (self w) = true ->
     files w !! path = Some data ->
     exists err w',
       compressIfNeeded env gzip path w = (Ok err, w') /\
       ((compression_undisturbed env w /\ err = None /\
         files w' = <[path := gzip data]> (files w))
        \/
        (~ compression_undisturbed env w /\ is_Some err /\
         files w' !! path = Some data /\
         (forall p, p <> temp_name env (steps w) ->
                    files w' !! p = files w !! p) /\
         (fault env (steps w' - 1) = None -> files w' = files w)))).
Proof.
  split.
  - intros Hc. unfold compressIfNeeded, bind, get, ret. rewrite Hc. reflexivity.
  - intros data Hc Hdata.
    destruct (compressIfNeeded_enabled path w data Hc Hdata)
      as (err & w' & Hrun & _ & _ & _ & [(Hgood & Herr & _ & Hfiles)|Hbad]).
    + exists err, w'. auto.
    + exists err, w'. auto.
Qed.

(** C5, as amended. At a tick at which the gate answers no, no cycle runs:
    the counters, the disk and the record of transmissions stay as they
    were, and [lastSum] is cleared. If at the next tick the gate answers
    yes and the cycle gets as far as the transmit step (it stages and
    digests its file and opens it), then it calls [Upload] exactly once,
    whatever [lastSum] was before the gate closed, so also when the staged
    bytes are those uploaded last. A digest has 32 bytes. *)
Theorem disabled_tick_forces_upload (ctx : context) (gate : nat -> bool)
    (w : State SC DP) r1 w1 :
  (forall data, length (sha256 data) = 32%nat) ->
  gate (steps w) = false ->
  Start_tick env gzip sha256 ctx gate w = (r1, w1) ->
  r1 = Ok tt /\ lastSum (self w1) = [] /\
  stats w1 = stats w /\ files w1 = files w /\
  transmissions w1 = transmissions w /\
  forall ctx' path w2 sum w3 fd w4 r w5,
    gate (steps w1) = true ->
    tempFilename env (with_steps S w1) = (Ok (path, None), w2) ->
    stage_and_digest env gzip sha256 path w2 = (Ok (sum, None), w3) ->
    os_Open env path w3 = (Ok (fd, None), w4) ->
    Start_tick env gzip sha256 ctx' gate w1 = (r, w5) ->
    exists n err, transmissions w5 = (transmissions w1 ++ [(n, err)])%list.
Proof.
  intros Hsize Hoff Htick.
  unfold Start_tick, bind, oracle in Htick. simpl in Htick.
  rewrite Hoff in Htick. simpl in Htick. unfold modify in Htick.
  injection Htick as <- <-. simpl.
  do 5 (split; [reflexivity|]).
  intros ctx' path w2 sum w3 fd w4 r w5 Hon Ht Hs Hopen Htick.
  unfold Start_tick, bind, oracle in Htick. simpl in Htick.
  rewrite Hon in Htick. simpl in Htick.
  destruct (upload env gzip sha256 ctx' _) as [ru wu] eqn:Hup.
  assert (Hw5 : transmissions w5 = transmissions wu).
  { destruct ru; unfold ret in Htick; simplify_eq; reflexivity. }
  rewrite Hw5. clear Htick Hw5.
  rewrite upload_unfold, Ht, upload_staged_unfold, Hs in Hup.
  destruct (stage_and_digest_frame _ _ _ _ Hs) as (_ & Hst3 & Htr3 & Hself3).
  destruct (stage_and_digest_ok _ _ _ _ Hs) as (data & Hdata & ->).
  destruct (tempFilename_cases
              (with_steps S (with_self (set_lastSum []) (with_steps S w))))
    as [[e' He']|(_ & _ & Ht')]; [congruence|].
  rewrite Ht in Ht'. injection Ht' as -> ->. simpl in *.
  replace (lastSum (self w3)) with (@nil byte) in Hup
    by (rewrite Hself3; reflexivity).
  assert (Hne : Equals (sha256 data) [] = false).
  { unfold Equals. apply bool_decide_eq_false. intros Heq.
    specialize (Hsize data). rewrite Heq in Hsize. discriminate. }
  rewrite Hne, andb_false_r in Hup.
  destruct (transmit env ctx' _ (sha256 data) w3) as [r3 w6] eqn:Htx.
  injection Hup as <- <-. simpl.
  destruct (os_Open_ok _ _ _ _ Hopen) as (F & Hsome).
  destruct (transmit_spec _ _ _ _ _ _ Htx)
    as (_ & [(e' & [Hf|Hn] & _)
            |(data' & c' & err' & cr' & _ & _ & _ & Hlog & _)]).
  { congruence. }
  { rewrite Hn in Hsome. destruct Hsome; discriminate. }
  exists (count cr'), err'. rewrite Hlog, Htr3. reflexivity.
Qed.

End Cycle.

(** ** Further properties of the service *)

Section Further.

Context {SC DP : Type} `{StorageClient SC} `{DataProvider DP}.
Variable env : Env.
Variable gzip : list byte -> list byte.
Variable sha256 : list byte -> list byte.

(** Unfolds the monad and the calls into the outside world. *)
Ltac run :=
  unfold tempFilename, os_CreateTemp, os_Open, os_Create, os_Rename,
    os_Remove, File_Close, File_reader, time_Now, time_Since, io_Copy,
    gzip_Close, gzip_NewWriter, FileSHA256, stats_Add, stats_Get_Set,
    bind, ret, get, modify, defer, panic, oracle in *;
  simpl in *.

(** A cycle removes no entry of the counter map, and it calls [Upload] at
    most once. *)
Lemma upload_keeps_keys (ctx : context) (w : State SC DP) r w' :
  upload env gzip sha256 ctx w = (r, w') ->
  (forall key, is_Some (stats w !! key) -> is_Some (stats w' !! key)) /\
  exists new, transmissions w' = (transmissions w ++ new)%list /\
              (length new <= 1)%nat.
Proof.
  intros Hrun.
  destruct (upload_outcomes _ _ _ _ _ _ _ Hrun)
    as [(e & _ & _ & _ & Hst & _ & Htr)
       |(path & w1 & w2 & sum & Ht & _ & Hst & Htr & Hself & Hcase)].
  { rewrite Hst, Htr. split; [auto|]. exists []. rewrite app_nil_r. auto. }
  destruct Hcase as [(e & _ & _ & ->)|[(_ & _ & _ & ->)|(w3 & Hs & Hhit & Htx & ->)]];
    simpl.
  - rewrite Hst, Htr. split; [auto|]. exists []. rewrite app_nil_r. auto.
  - rewrite Hst, Htr. split; [intros key; apply Add_is_Some|].
    exists []. rewrite app_nil_r. auto.
  - destruct (transmit_spec _ _ _ _ _ _ _ Htx)
      as (_ & [(e & _ & _ & _ & Hst3 & Htr3)
              |(data & c & err & cr & _ & _ & _ & Htr3 & Hres)]).
    { rewrite Hst3, Htr3, Hst, Htr. split; [auto|].
      exists []. rewrite app_nil_r. auto. }
    rewrite Htr3, Htr. split; [|exists [(count cr, err)]; auto].
    intros key Hkey. destruct err as [e|].
    + destruct Hres as (_ & _ & ->). rewrite Hst. apply Add_is_Some, Hkey.
    + simpl in Hres. rewrite Hst in Hres.
      destruct (expvar_Get_Set lastUploadBytes (count cr) _) as [m'|] eqn:Hset.
      * destruct Hres as (_ & -> & _). apply Get_Set_inv in Hset as [-> _].
        rewrite lookup_insert. case_decide; [eauto|].
        do 2 apply Add_is_Some. exact Hkey.
      * destruct Hres as (_ & -> & _). do 2 apply Add_is_Some. exact Hkey.
Qed.

(** With the gauge in the map a cycle does not panic. *)
Lemma upload_returns (ctx : context) (w : State SC DP) r w' :
  is_Some (stats w !! lastUploadBytes) ->
  upload env gzip sha256 ctx w = (r, w') ->
  exists err, r = Ok err.
Proof.
  intros Hgauge Hrun.
  destruct (upload_outcomes _ _ _ _ _ _ _ Hrun)
    as [(e & _ & -> & _)
       |(path & w1 & w2 & sum & Ht & _ & Hst & Htr & Hself & Hcase)];
    [eauto|].
  destruct Hcase as [(e & _ & -> & _)|[(_ & _ & -> & _)|(w3 & Hs & Hhit & Htx & ->)]];
    [eauto|eauto|].
  destruct (transmit_spec _ _ _ _ _ _ _ Htx)
    as (_ & [(e & _ & -> & _)|(data & c & err & cr & _ & _ & _ & _ & Hres)]);
    [eauto|].
  destruct err as [e|]; [destruct Hres as (-> & _); eauto|].
  simpl in Hres. rewrite Get_Set_Some in Hres
    by (rewrite Hst; do 2 apply Add_is_Some; exact Hgauge).
  destruct Hres as (-> & _). eauto.
Qed.

(** [Start_loop] with the gauge in the map. *)
Lemma Start_loop_returns (ctx : context) (gate : nat -> bool)
    (signals : list signal) : forall (w : State SC DP) r w',
  is_Some (stats w !! lastUploadBytes) ->
  Start_loop env gzip sha256 ctx gate signals w = (r, w') ->
  r = Ok tt /\
  (forall key, is_Some (stats w !! key) -> is_Some (stats w' !! key)) /\
  exists new, transmissions w' = (transmissions w ++ new)%list /\
              (length new <= ticks signals)%nat.
Proof.
  induction signals as [|[|] rest IH]; intros w r w' Hgauge Hrun; simpl in *.
  1,2: unfold ret in Hrun; simplify_eq; split; [reflexivity|]; split; [auto|];
       exists []; rewrite app_nil_r; auto.
  unfold bind at 1 in Hrun.
  destruct (Start_tick env gzip sha256 ctx gate w) as [rt wt] eqn:Htick.
  assert (Ht : rt = Ok tt /\
               (forall key, is_Some (stats w !! key) -> is_Some (stats wt !! key)) /\
               exists new, transmissions wt = (transmissions w ++ new)%list /\
                           (length new <= 1)%nat).
  { unfold Start_tick, bind, oracle in Htick. simpl in Htick.
    destruct (gate (steps w)); simpl in Htick.
    - destruct (upload env gzip sha256 ctx (with_steps S w)) as [ru wu] eqn:Hup.
      destruct (upload_returns ctx (with_steps S w) _ _ Hgauge Hup) as [err ->].
      destruct (upload_keeps_keys _ _ _ _ Hup) as (Hkeys & Hnew).
      unfold ret in Htick. simplify_eq. auto.
    - unfold modify in Htick. simplify_eq. simpl.
      split; [reflexivity|]. split; [auto|]. exists []. rewrite app_nil_r. auto. }
  destruct Ht as (-> & Hkeys & new1 & Htr1 & Hlen1).
  destruct (IH _ _ _ (Hkeys _ Hgauge) Hrun) as (-> & Hkeys2 & new2 & Htr2 & Hlen2).
  split; [reflexivity|]. split; [auto|].
  exists (new1 ++ new2)%list. rewrite Htr2, Htr1, app_assoc, length_app.
  split; [reflexivity|lia].
Qed.

(** [Start] as an equation: the ticker is made, which panics unless the
    interval is positive, and then the loop runs. *)
Lemma Start_unfold (ctx : context) (gate : option (nat -> bool))
    (signals : list signal) (w : State SC DP) :
  Start env gzip sha256 ctx gate signals w =
    if (interval (self w) <=? 0)%Z
    then (Panic "non-positive interval for NewTicker", w)
    else Start_loop env gzip sha256 ctx
           (match gate with Some f => f | None => fun _ => true end) signals w.
Proof.
  unfold Start, bind, get, time_NewTicker, defer, Ticker_Stop, panic, ret. simpl.
  destruct (interval (self w) <=? 0)%Z; [reflexivity|].
  destruct (Start_loop env gzip sha256 ctx _ signals w). reflexivity.
Qed.

(** X1. [Start] panics only when it makes its ticker. With an interval
    that is not positive it panics there, before the first tick, and the
    state is as it was. With a positive interval, and the gauge
    [last_upload_bytes] in the counter map as [init] leaves it, it does
    not panic, whatever signals arrive and whatever the cycles meet; it
    removes no entry of the map; and it calls [Upload] at most once for
    each tick it gets to see. *)
Theorem Start_panics_only_at_NewTicker (ctx : context)
    (gate : option (nat -> bool)) (signals : list signal) (w : State SC DP) r w' :
  is_Some (stats w !! lastUploadBytes) ->
  Start env gzip sha256 ctx gate signals w = (r, w') ->
  (interval (self w) <= 0 ->
   r = Panic "non-positive interval for NewTicker" /\ w' = w) /\
  (0 < interval (self w) ->
   r = Ok tt /\
   (forall key, is_Some (stats w !! key) -> is_Some (stats w' !! key)) /\
   exists new, transmissions w' = (transmissions w ++ new)%list /\
               (length new <= ticks signals)%nat).
Proof.
  intros Hgauge Hrun. rewrite Start_unfold in Hrun.
  destruct (Z.leb_spec (interval (self w)) 0) as [Hle|Hlt].
  - injection Hrun as <- <-. split; [auto|]. intros Hpos. lia.
  - split; [intros Hle; lia|]. intros _.
    exact (Start_loop_returns _ _ _ _ _ _ Hgauge Hrun).
Qed.

(** X2. The edge of a missing gauge: if [last_upload_bytes] is not in the
    counter map and the call to [Upload] returns nil, the cycle panics at
    the assertion on [stats.Get]. By then [lastSum] is the new digest and
    the success and cumulative counters have been added to; the times of
    the upload are not recorded and the gauge is still missing. The
    deferred [os.Remove] runs all the same, as the third call after the
    digest (after [os.Open] and [time.Now]): unless it fails, the staged
    file is gone. *)
Theorem upload_panics_without_gauge (ctx : context) (w w1 w2 : State SC DP)
    (path : string) (sum : SHA256Sum) r w' n :
  stats w !! lastUploadBytes = None ->
  tempFilename env w = (Ok (path, None), w1) ->
  stage_and_digest env gzip sha256 path w1 = (Ok (sum, None), w2) ->
  upload env gzip sha256 ctx w = (r, w') ->
  transmissions w' = (transmissions w ++ [(n, None)])%list ->
  (exists msg, r = Panic msg) /\
  lastSum (self w') = sum /\
  stats w' = expvar_Add totalUploadBytes n (expvar_Add numUploadsOK 1 (stats w)) /\
  stats w' !! lastUploadBytes = None /\
  lastUploadTime (self w') = lastUploadTime (self w) /\
  lastUploadDuration (self w') = lastUploadDuration (self w) /\
  steps w' = (steps w2 + 3)%nat /\
  (fault env (steps w2 + 2) = None -> files w' !! path = None).
Proof.
  intros Hgauge Ht Hs Hrun Hlog.
  destruct (upload_transmitted _ _ _ _ _ _ _ _ _ Hrun Hlog)
    as (path0 & w10 & w20 & sum0 & w3 & Ht0 & Hs0 & Hst & Htr & Hself & Hhit & Htx & ->).
  rewrite Ht in Ht0. injection Ht0 as <- <-.
  rewrite Hs in Hs0. injection Hs0 as <- <-.
  simpl in Hlog. rewrite <- Htr in Hlog.
  destruct (transmit_recorded _ _ _ _ _ _ _ _ _ Htx Hlog)
    as (data & c & cr & F & Hd & Hcall & -> & Hres).
  assert (Hsteps : stats w !! lastUploadBytes = None ->
                   stats w2 = stats w -> steps w3 = (steps w2 + 2)%nat).
  { revert Htx F Hd Hcall. clear. unfold transmit, storageClient_Upload. run.
    intros Htx F Hd Hcall Hgauge Hst. rewrite F in Htx. simpl in Htx.
    rewrite ?Hd in Htx. simpl in Htx. rewrite ?Hd in Htx. simpl in Htx.
    rewrite Hcall in Htx. simpl in Htx.
    unfold expvar_Get_Set in Htx.
    rewrite !lookup_Add_ne, Hst, Hgauge in Htx by discriminate.
    simpl in Htx. injection Htx as _ <-. simpl. lia. }
  specialize (Hsteps Hgauge Hst).
  assert (Hgone : steps (after_Remove env path w3) = (steps w2 + 3)%nat /\
            (fault env (steps w2 + 2) = None ->
             files (after_Remove env path w3) !! path = None)).
  { split; [simpl; lia|]. rewrite <- Hsteps. apply after_Remove_files. }
  simpl in Hres. rewrite Hst in Hres.
  assert (Hnone : expvar_Get_Set lastUploadBytes (count cr)
                    (expvar_Add totalUploadBytes (count cr)
                       (expvar_Add numUploadsOK 1 (stats w))) = None).
  { unfold expvar_Get_Set. rewrite !lookup_Add_ne by discriminate.
    rewrite Hgauge. reflexivity. }
  rewrite Hnone in Hres. destruct Hres as (Hr & Hst3 & Hself3).
  simpl. rewrite Hst3, Hself3, Hself. simpl.
  split; [exact Hr|]. do 2 (split; [reflexivity|]).
  split; [rewrite !lookup_Add_ne by discriminate; exact Hgauge|].
  do 2 (split; [reflexivity|]). exact Hgone.
Qed.

(** X3. [Start] returns at the cancellation: what it does and the state it
    leaves do not depend on the signals that follow the first [ctx.Done]. *)
Theorem Start_stops_at_Done (ctx : context) (gate : option (nat -> bool))
    (before after : list signal) (w : State SC DP) :
  Start env gzip sha256 ctx gate (before ++ ctx_Done :: after) w =
  Start env gzip sha256 ctx gate before w.
Proof.
  rewrite !Start_unfold.
  destruct (interval (self w) <=? 0)%Z; [reflexivity|].
  generalize (match gate with Some f => f | None => fun _ : nat => true end).
  clear gate. intros gate. revert w.
  induction before as [|[|] rest IH]; intros w; simpl; try reflexivity.
  unfold bind.
  destruct (Start_tick env gzip sha256 ctx gate w) as [[[]|msg] wt];
    [apply IH|reflexivity].
Qed.

(** X4. While the gate answers no, [Start], made with a positive interval,
    returns without having run a cycle: over any signals the counters, the
    disk and the record of transmissions stay as they were, one index of
    the oracle is used per tick, and from the first tick on [lastSum] is
    nil; nothing else of the receiver changes. *)
Theorem Start_with_closed_gate (ctx : context) (gate : nat -> bool)
    (signals : list signal) (w : State SC DP) r w' :
  0 < interval (self w) ->
  (forall i, gate i = false) ->
  Start env gzip sha256 ctx (Some gate) signals w = (r, w') ->
  r = Ok tt /\
  stats w' = stats w /\ files w' = files w /\
  transmissions w' = transmissions w /\
  steps w' = (steps w + ticks signals)%nat /\
  self w' = match ticks signals with
            | O => self w
            | S _ => set_lastSum [] (self w)
            end.
Proof.
  intros Hpos Hclosed. rewrite Start_unfold.
  destruct (Z.leb_spec (interval (self w)) 0) as [Hle|_]; [lia|]. clear Hpos.
  revert w r w'.
  induction signals as [|[|] rest IH]; intros w r w' Hrun; simpl in *.
  1,2: unfold ret in Hrun; simplify_eq; rewrite Nat.add_0_r; auto 10.
  unfold bind at 1, Start_tick, bind, oracle in Hrun. simpl in Hrun.
  rewrite Hclosed in Hrun. simpl in Hrun. unfold modify in Hrun.
  destruct (IH _ _ _ Hrun) as (-> & Hst & Hfs & Htr & Hsteps & Hself).
  simpl in *. rewrite Hst, Hfs, Htr, Hsteps, Hself.
  split; [reflexivity|]. do 3 (split; [reflexivity|]). split; [lia|].
  destruct (ticks rest); reflexivity.
Qed.

(** One cycle against the record of transmissions: the success and the
    failure counter go up by the number of calls to [Upload] that returned
    nil, respectively an error; and unless a call returned nil, the
    baseline, the times and the bytes counters are as before. *)
Lemma upload_ledger (ctx : context) (w : State SC DP) r w' :
  is_Some (stats w !! lastUploadBytes) ->
  in_int64 (counter numUploadsOK (stats w)) ->
  in_int64 (counter numUploadsFail (stats w)) ->
  upload env gzip sha256 ctx w = (r, w') ->
  in_int64 (counter numUploadsOK (stats w')) /\
  in_int64 (counter numUploadsFail (stats w')) /\
  exists new,
    transmissions w' = (transmissions w ++ new)%list /\
    counter numUploadsOK (stats w') =
      wrap64 (counter numUploadsOK (stats w) + Z.of_nat (length (sent new))) /\
    counter numUploadsFail (stats w') =
      wrap64 (counter numUploadsFail (stats w) + Z.of_nat (length (failed new))) /\
    (sent new = [] ->
     lastSum (self w') = lastSum (self w) /\
     lastUploadTime (self w') = lastUploadTime (self w) /\
     lastUploadDuration (self w') = lastUploadDuration (self w) /\
     counter totalUploadBytes (stats w') = counter totalUploadBytes (stats w) /\
     counter lastUploadBytes (stats w') = counter lastUploadBytes (stats w)).
Proof.
  intros Hgauge Hok Hfail Hrun.
  assert (Hquiet : forall (m : gmap string Z) (u : Uploader SC DP) (d : Z),
             counter numUploadsOK m = counter numUploadsOK (stats w) ->
             counter numUploadsFail m =
               wrap64 (counter numUploadsFail (stats w) + d) ->
             counter totalUploadBytes m = counter totalUploadBytes (stats w) ->
             counter lastUploadBytes m = counter lastUploadBytes (stats w) ->
             lastSum u = lastSum (self w) ->
             lastUploadTime u = lastUploadTime (self w) ->
             lastUploadDuration u = lastUploadDuration (self w) ->
             in_int64 (counter numUploadsOK m) /\
             in_int64 (counter numUploadsFail m) /\
             counter numUploadsOK m =
               wrap64 (counter numUploadsOK (stats w) + Z.of_nat 0) /\
             counter numUploadsFail m =
               wrap64 (counter numUploadsFail (stats w) + d) /\
             lastSum u = lastSum (self w) /\
             lastUploadTime u = lastUploadTime (self w) /\
             lastUploadDuration u = lastUploadDuration (self w) /\
             counter totalUploadBytes m = counter totalUploadBytes (stats w) /\
             counter lastUploadBytes m = counter lastUploadBytes (stats w)).
  { intros m u d H1 H2 H3 H4 H5 H6 H7.
    rewrite H1, H2. split; [exact Hok|]. split; [apply wrap64_range|].
    simpl. rewrite Z.add_0_r, wrap64_id by exact Hok. auto 10. }
  assert (Hzero : counter numUploadsFail (stats w) =
                  wrap64 (counter numUploadsFail (stats w) + 0)).
  { rewrite Z.add_0_r, wrap64_id by exact Hfail. reflexivity. }
  destruct (upload_outcomes _ _ _ _ _ _ _ Hrun)
    as [(e & _ & _ & Hself & Hst & _ & Htr)
       |(path & w1 & w2 & sum & Ht & _ & Hst & Htr & Hself & Hcase)].
  { destruct (Hquiet (stats w') (self w') 0)
      as (I1 & I2 & E1 & E2 & E3 & E4 & E5 & E6 & E7);
      [congruence ..|].
    split; [exact I1|]. split; [exact I2|].
    exists []. rewrite app_nil_r. auto 10. }
  assert (HL2 : lastSum (self w2) = lastSum (self w))
    by (rewrite Hself; reflexivity).
  assert (HT2 : lastUploadTime (self w2) = lastUploadTime (self w))
    by (rewrite Hself; reflexivity).
  assert (HD2 : lastUploadDuration (self w2) = lastUploadDuration (self w))
    by (rewrite Hself; reflexivity).
  clear Hself.
  destruct Hcase as [(e & _ & _ & ->)|[(_ & _ & _ & ->)|(w3 & Hs & Hhit & Htx & ->)]];
    simpl.
  - destruct (Hquiet (stats w2) (self w2) 0)
      as (I1 & I2 & E1 & E2 & E3 & E4 & E5 & E6 & E7);
      [congruence ..|].
    split; [exact I1|]. split; [exact I2|].
    exists []. rewrite Htr, app_nil_r. auto 10.
  - destruct (Hquiet (expvar_Add numUploadsSkipped 1 (stats w2)) (self w2) 0)
      as (I1 & I2 & E1 & E2 & E3 & E4 & E5 & E6 & E7);
      [rewrite ?counter_Add_ne by discriminate; congruence ..|].
    split; [exact I1|]. split; [exact I2|].
    exists []. rewrite Htr, app_nil_r. auto 10.
  - destruct (transmit_spec _ _ _ _ _ _ _ Htx)
      as (_ & [(e & _ & _ & Hself3 & Hst3 & Htr3)
              |(data & c & err & cr & _ & _ & _ & Htr3 & Hres)]).
    { destruct (Hquiet (stats w3) (self w3) 0)
        as (I1 & I2 & E1 & E2 & E3 & E4 & E5 & E6 & E7);
        [congruence ..|].
      split; [exact I1|]. split; [exact I2|].
      exists []. rewrite Htr3, Htr, app_nil_r. auto 10. }
    rewrite Htr3, Htr. destruct err as [e|].
    + destruct Hres as (_ & Hself3 & Hst3).
      destruct (Hquiet (stats w3) (self w3) 1)
        as (I1 & I2 & E1 & E2 & E3 & E4 & E5 & E6 & E7);
        [rewrite Hst3, ?counter_Add_eq, ?counter_Add_ne by discriminate;
         congruence ..
        |rewrite Hself3; exact HL2
        |rewrite Hself3; exact HT2
        |rewrite Hself3; exact HD2|].
      split; [exact I1|]. split; [exact I2|].
      exists [(count cr, Some e)]. auto 10.
    + simpl in Hres. rewrite Get_Set_Some in Hres
        by (rewrite Hst; do 2 apply Add_is_Some; exact Hgauge).
      destruct Hres as (_ & -> & _). rewrite Hst.
      assert (E1 : counter numUploadsOK
                (<[lastUploadBytes:=count cr]>
                   (expvar_Add totalUploadBytes (count cr)
                      (expvar_Add numUploadsOK 1 (stats w)))) =
              wrap64 (counter numUploadsOK (stats w) + 1)).
      { unfold counter. rewrite lookup_insert_ne by discriminate.
        rewrite lookup_Add_ne by discriminate.
        unfold expvar_Add. rewrite lookup_insert_eq. reflexivity. }
      assert (E2 : counter numUploadsFail
                (<[lastUploadBytes:=count cr]>
                   (expvar_Add totalUploadBytes (count cr)
                      (expvar_Add numUploadsOK 1 (stats w)))) =
              counter numUploadsFail (stats w)).
      { unfold counter. rewrite lookup_insert_ne by discriminate.
        rewrite !lookup_Add_ne by discriminate. reflexivity. }
      rewrite E1, E2. split; [apply wrap64_range|]. split; [exact Hfail|].
      exists [(count cr, None)]. split; [reflexivity|]. simpl.
      split; [reflexivity|]. split; [exact Hzero|]. discriminate.
Qed.

Lemma failed_app (l1 l2 : list (Z * option error)) :
  failed (l1 ++ l2) = (failed l1 ++ failed l2)%list.
Proof. unfold failed. apply omap_app. Qed.

(** The run of [Start] against the record of transmissions. *)
Lemma Start_ledger (ctx : context) (gate : nat -> bool) (signals : list signal) :
  forall (w : State SC DP) r w',
  is_Some (stats w !! lastUploadBytes) ->
  in_int64 (counter numUploadsOK (stats w)) ->
  in_int64 (counter numUploadsFail (stats w)) ->
  Start_loop env gzip sha256 ctx gate signals w = (r, w') ->
  exists new,
    transmissions w' = (transmissions w ++ new)%list /\
    counter numUploadsOK (stats w') =
      wrap64 (counter numUploadsOK (stats w) + Z.of_nat (length (sent new))) /\
    counter numUploadsFail (stats w') =
      wrap64 (counter numUploadsFail (stats w) + Z.of_nat (length (failed new))) /\
    (sent new = [] ->
     (lastSum (self w') = lastSum (self w) \/ lastSum (self w') = []) /\
     lastUploadTime (self w') = lastUploadTime (self w) /\
     lastUploadDuration (self w') = lastUploadDuration (self w) /\
     counter totalUploadBytes (stats w') = counter totalUploadBytes (stats w) /\
     counter lastUploadBytes (stats w') = counter lastUploadBytes (stats w)).
Proof.
  induction signals as [|[|] rest IH]; intros w r w' Hgauge Hok Hfail Hrun;
    simpl in Hrun.
  1,2: unfold ret in Hrun; simplify_eq; exists []; rewrite app_nil_r; simpl;
       rewrite !Z.add_0_r, !wrap64_id by assumption; auto 10.
  unfold bind at 1 in Hrun.
  destruct (Start_tick env gzip sha256 ctx gate w) as [rt wt] eqn:Htick.
  assert (Ht : rt = Ok tt /\
               is_Some (stats wt !! lastUploadBytes) /\
               in_int64 (counter numUploadsOK (stats wt)) /\
               in_int64 (counter numUploadsFail (stats wt)) /\
               exists new,
                 transmissions wt = (transmissions w ++ new)%list /\
                 counter numUploadsOK (stats wt) =
                   wrap64 (counter numUploadsOK (stats w)
                           + Z.of_nat (length (sent new))) /\
                 counter numUploadsFail (stats wt) =
                   wrap64 (counter numUploadsFail (stats w)
                           + Z.of_nat (length (failed new))) /\
                 (sent new = [] ->
                  (lastSum (self wt) = lastSum (self w) \/ lastSum (self wt) = []) /\
                  lastUploadTime (self wt) = lastUploadTime (self w) /\
                  lastUploadDuration (self wt) = lastUploadDuration (self w) /\
                  counter totalUploadBytes (stats wt) =
                    counter totalUploadBytes (stats w) /\
                  counter lastUploadBytes (stats wt) =
                    counter lastUploadBytes (stats w))).
  { unfold Start_tick, bind, oracle in Htick. simpl in Htick.
    destruct (gate (steps w)); simpl in Htick.
    - destruct (upload env gzip sha256 ctx (with_steps S w)) as [ru wu] eqn:Hup.
      destruct (upload_returns ctx (with_steps S w) _ _ Hgauge Hup) as [err ->].
      destruct (upload_keeps_keys _ _ _ _ Hup) as (Hkeys & _).
      destruct (upload_ledger ctx (with_steps S w) _ _ Hgauge Hok Hfail Hup)
        as (I1 & I2 & new & Htr & E1 & E2 & Hq).
      unfold ret in Htick. simplify_eq. simpl in *.
      split; [reflexivity|]. split; [apply Hkeys, Hgauge|].
      split; [exact I1|]. split; [exact I2|].
      exists new. split; [exact Htr|]. split; [exact E1|]. split; [exact E2|].
      intros Hnone. destruct (Hq Hnone) as (L & T & D & B & G). auto 10.
    - unfold modify in Htick. simplify_eq. simpl.
      split; [reflexivity|]. split; [exact Hgauge|].
      split; [exact Hok|]. split; [exact Hfail|].
      exists []. rewrite app_nil_r. simpl.
      rewrite !Z.add_0_r, !wrap64_id by assumption. auto 10. }
  destruct Ht as (-> & Hgauge1 & Hok1 & Hfail1 & new1 & Htr1 & E1 & E2 & Hq1).
  destruct (IH _ _ _ Hgauge1 Hok1 Hfail1 Hrun) as (new2 & Htr2 & F1 & F2 & Hq2).
  exists (new1 ++ new2)%list.
  rewrite Htr2, Htr1, F1, F2, E1, E2, app_assoc, sent_app, failed_app,
    !length_app, !wrap64_add_l.
  split; [reflexivity|]. split; [f_equal; lia|]. split; [f_equal; lia|].
  intros Hnone. apply app_eq_nil in Hnone as [Hn1 Hn2].
  destruct (Hq1 Hn1) as (L1 & T1 & D1 & B1 & G1).
  destruct (Hq2 Hn2) as (L2 & T2 & D2 & B2 & G2).
  split; [|split; [congruence|split; [congruence|split; congruence]]].
  destruct L2 as [L2|L2]; [rewrite L2; exact L1|right; exact L2].
Qed.

(** X5. Over any run of [Start], from counters within [int64] and with
    the gauge in the map, the success counter grows by the number of calls
    to [Upload] that returned nil and the failure counter by the number of
    calls that returned an error, in [int64] arithmetic: the two counters
    count the outcomes of the transmissions, and nothing else. *)
Theorem Start_counters_match_record (ctx : context) (gate : option (nat -> bool))
    (signals : list signal) (w : State SC DP) r w' :
  is_Some (stats w !! lastUploadBytes) ->
  in_int64 (counter numUploadsOK (stats w)) ->
  in_int64 (counter numUploadsFail (stats w)) ->
  Start env gzip sha256 ctx gate signals w = (r, w') ->
  exists new,
    transmissions w' = (transmissions w ++ new)%list /\
    counter numUploadsOK (stats w') =
      wrap64 (counter numUploadsOK (stats w) + Z.of_nat (length (sent new))) /\
    counter numUploadsFail (stats w') =
      wrap64 (counter numUploadsFail (stats w) + Z.of_nat (length (failed new))).
Proof.
  intros Hgauge Hok Hfail Hrun. rewrite Start_unfold in Hrun.
  destruct (interval (self w) <=? 0)%Z.
  { injection Hrun as <- <-. exists []. rewrite app_nil_r. simpl.
    rewrite !Z.add_0_r, !wrap64_id by assumption. auto. }
  destruct (Start_ledger _ _ _ _ _ _ Hgauge Hok Hfail Hrun)
    as (new & Htr & E1 & E2 & _).
  exists new. auto.
Qed.

(** X6. The baseline moves only with a success: over a run of [Start] in
    which no call to [Upload] returned nil, [lastSum] ends as it began or
    nil (cleared at a closed gate), never as a new digest, and
    [lastUploadTime], [lastUploadDuration], the cumulative-bytes counter
    and the gauge are as they began. *)
Theorem Start_without_success (ctx : context) (gate : option (nat -> bool))
    (signals : list signal) (w : State SC DP) r w' new :
  is_Some (stats w !! lastUploadBytes) ->
  in_int64 (counter numUploadsOK (stats w)) ->
  in_int64 (counter numUploadsFail (stats w)) ->
  Start env gzip sha256 ctx gate signals w = (r, w') ->
  transmissions w' = (transmissions w ++ new)%list ->
  sent new = [] ->
  (lastSum (self w') = lastSum (self w) \/ lastSum (self w') = []) /\
  lastUploadTime (self w') = lastUploadTime (self w) /\
  lastUploadDuration (self w') = lastUploadDuration (self w) /\
  counter numUploadsOK (stats w') = counter numUploadsOK (stats w) /\
  counter totalUploadBytes (stats w') = counter totalUploadBytes (stats w) /\
  counter lastUploadBytes (stats w') = counter lastUploadBytes (stats w).
Proof.
  intros Hgauge Hok Hfail Hrun Hlog Hnone. rewrite Start_unfold in Hrun.
  destruct (interval (self w) <=? 0)%Z.
  { injection Hrun as <- <-. auto 10. }
  destruct (Start_ledger _ _ _ _ _ _ Hgauge Hok Hfail Hrun)
    as (new' & Htr & E1 & _ & Hq).
  rewrite Htr in Hlog. apply app_inv_head in Hlog. subst new'.
  destruct (Hq Hnone) as (L & T & D & B & G).
  rewrite Hnone in E1. simpl in E1.
  rewrite Z.add_0_r, wrap64_id in E1 by exact Hok. auto 10.
Qed.

(** The dedup check did not hit and the staged file opens. *)
Lemma upload_miss (ctx : context) (w w1 w2 : State SC DP)
    (path : string) (sum : SHA256Sum) fd w3 :
  tempFilename env w = (Ok (path, None), w1) ->
  stage_and_digest env gzip sha256 path w1 = (Ok (sum, None), w2) ->
  negb (disableSumCheck (self w)) && Equals sum (lastSum (self w)) = false ->
  os_Open env path w2 = (Ok (fd, None), w3) ->
  exists r w' n err,
    upload env gzip sha256 ctx w = (r, w') /\
    transmissions w' = (transmissions w ++ [(n, err)])%list /\
    counter numUploadsSkipped (stats w') = counter numUploadsSkipped (stats w).
Proof.
  intros Ht Hs Hhit Hopen.
  destruct (stage_and_digest_frame _ _ _ _ _ _ _ Hs) as (_ & Hst & Htr & Hself).
  destruct (tempFilename_cases env w) as [[e He]|(_ & _ & Ht')]; [congruence|].
  rewrite Ht in Ht'. injection Ht' as -> ->. simpl in *.
  rewrite upload_unfold, Ht, upload_staged_unfold, Hs.
  replace (disableSumCheck (self w2)) with (disableSumCheck (self w))
    by (rewrite Hself; reflexivity).
  replace (lastSum (self w2)) with (lastSum (self w))
    by (rewrite Hself; reflexivity).
  rewrite Hhit.
  destruct (transmit env ctx _ sum w2) as [r w4] eqn:Htx.
  pose proof (transmit_keeps_skipped _ _ _ _ _ _ _ Htx) as Hskip.
  destruct (os_Open_ok _ _ _ _ _ Hopen) as (F & Hsome).
  destruct (transmit_spec _ _ _ _ _ _ _ Htx)
    as (_ & [(e' & [Hf|Hn] & _)
            |(data' & c' & err' & cr' & _ & _ & _ & Hlog & _)]).
  { congruence. }
  { rewrite Hn in Hsome. destruct Hsome; discriminate. }
  exists r, (after_Remove env (temp_name env (steps w)) w4), (count cr'), err'.
  split; [reflexivity|]. simpl. rewrite Hlog, Htr, Hskip, Hst. auto.
Qed.

(** X7. No cycle without a change goes unsent: a cycle that reaches the
    dedup decision, with dedup checking off or with a digest other than
    [lastSum], and gets its staged file open, calls [Upload] exactly once
    and leaves the skipped counter alone. *)
Theorem dedup_miss_uploads (ctx : context) (w w1 w2 : State SC DP)
    (path : string) (sum : SHA256Sum) fd w3 :
  tempFilename env w = (Ok (path, None), w1) ->
  stage_and_digest env gzip sha256 path w1 = (Ok (sum, None), w2) ->
  disableSumCheck (self w) = true \/ Equals sum (lastSum (self w)) = false ->
  os_Open env path w2 = (Ok (fd, None), w3) ->
  exists r w' n err,
    upload env gzip sha256 ctx w = (r, w') /\
    transmissions w' = (transmissions w ++ [(n, err)])%list /\
    counter numUploadsSkipped (stats w') = counter numUploadsSkipped (stats w).
Proof.
  intros Ht Hs Hmiss Hopen. eapply upload_miss; eauto.
  destruct Hmiss as [-> | ->]; [reflexivity|apply andb_false_r].
Qed.

(** X8. Uploading and then staging the same bytes: after a cycle whose
    call to [Upload] returned nil, with dedup checking on, a cycle that
    stages the same bytes is skipped; it returns nil, makes no call to
    [Upload], adds 1 to the skipped counter and keeps the baseline. *)
Theorem same_bytes_skipped_after_success (ctx ctx' : context)
    (w w1 w2 : State SC DP) (path : string) (sum : SHA256Sum) r w' n
    (path' : string) (w1' : State SC DP) (sum' : SHA256Sum) (w2' : State SC DP) :
  disableSumCheck (self w) = false ->
  is_Some (stats w !! lastUploadBytes) ->
  tempFilename env w = (Ok (path, None), w1) ->
  stage_and_digest env gzip sha256 path w1 = (Ok (sum, None), w2) ->
  upload env gzip sha256 ctx w = (r, w') ->
  transmissions w' = (transmissions w ++ [(n, None)])%list ->
  tempFilename env w' = (Ok (path', None), w1') ->
  stage_and_digest env gzip sha256 path' w1' = (Ok (sum', None), w2') ->
  files w2' !! path' = files w2 !! path ->
  exists w'',
    upload env gzip sha256 ctx' w' = (Ok None, w'') /\
    transmissions w'' = transmissions w' /\
    stats w'' = expvar_Add numUploadsSkipped 1 (stats w') /\
    lastSum (self w'') = sum.
Proof.
  intros Hd Hgauge Ht Hs Hrun Hlog Ht' Hs' Hsame.
  destruct (upload_success env gzip sha256 ctx w w1 w2 path sum r w' n
              Ht Hs Hrun Hlog Hgauge)
    as (_ & _ & Hsum & _).
  assert (Hd' : disableSumCheck (self w') = false).
  { destruct (upload_transmitted _ _ _ _ _ _ _ _ _ Hrun Hlog)
      as (p0 & w10 & w20 & s0 & w3 & _ & _ & _ & Htr & Hself & _ & Htx & ->).
    simpl in Hlog. rewrite <- Htr in Hlog.
    destruct (transmit_recorded _ _ _ _ _ _ _ _ _ Htx Hlog)
      as (data & c & cr & _ & _ & _ & -> & Hres).
    simpl in Hres.
    destruct (expvar_Get_Set lastUploadBytes (count cr) _);
      destruct Hres as (_ & _ & Hself3); simpl; rewrite Hself3, Hself; exact Hd. }
  destruct (stage_and_digest_ok _ _ _ _ _ _ _ Hs) as (d1 & Hd1 & E1).
  destruct (stage_and_digest_ok _ _ _ _ _ _ _ Hs') as (d2 & Hd2 & E2).
  assert (sum' = sum) as -> by congruence.
  assert (He : Equals sum (lastSum (self w')) = true).
  { rewrite Hsum. unfold Equals. apply bool_decide_eq_true. reflexivity. }
  destruct (upload_hit env gzip sha256 ctx' _ _ _ _ _ Ht' Hs' Hd' He)
    as (Hup & Hst & Htr & Hself).
  eexists. split; [exact Hup|]. simpl. rewrite Hst, Htr, Hself. auto.
Qed.

(** X9. A service fresh from [NewUploader] has no baseline: given that a
    digest has 32 bytes, its first cycle is never skipped, and if it
    reaches the transmit step (it stages and digests its file and opens
    it) it calls [Upload] exactly once. *)
Theorem first_cycle_not_skipped (ctx : context) (sc : SC) (dp : DP)
    (interval : Z) (compress : bool) (w : State SC DP) r w' :
  (forall data, length (sha256 data) = 32%nat) ->
  self w = NewUploader sc dp interval compress ->
  upload env gzip sha256 ctx w = (r, w') ->
  counter numUploadsSkipped (stats w') = counter numUploadsSkipped (stats w) /\
  forall path w1 sum w2 fd w3,
    tempFilename env w = (Ok (path, None), w1) ->
    stage_and_digest env gzip sha256 path w1 = (Ok (sum, None), w2) ->
    os_Open env path w2 = (Ok (fd, None), w3) ->
    exists n err, transmissions w' = (transmissions w ++ [(n, err)])%list.
Proof.
  intros Hsize Hnew Hrun.
  assert (Hmiss : forall path (w1 : State SC DP) sum w2,
             stage_and_digest env gzip sha256 path w1 = (Ok (sum, None), w2) ->
             Equals sum (lastSum (self w)) = false).
  { intros path w1 sum w2 Hs.
    destruct (stage_and_digest_ok _ _ _ _ _ _ _ Hs) as (data & _ & ->).
    rewrite Hnew. simpl. unfold Equals. apply bool_decide_eq_false.
    intros Heq. specialize (Hsize data). rewrite Heq in Hsize. discriminate. }
  split.
  - destruct (upload_outcomes _ _ _ _ _ _ _ Hrun)
      as [(e & _ & _ & _ & -> & _)
         |(path & w1 & w2 & sum & Ht & _ & Hst & Htr & Hself & Hcase)];
      [reflexivity|].
    destruct Hcase as [(e & _ & _ & ->)|[(Hs & Hhit & _)|(w3 & Hs & _ & Htx & ->)]];
      simpl.
    + congruence.
    + rewrite (Hmiss _ _ _ _ Hs), andb_false_r in Hhit. discriminate.
    + rewrite (transmit_keeps_skipped _ _ _ _ _ _ _ Htx). congruence.
  - intros path w1 sum w2 fd w3 Ht Hs Hopen.
    assert (Hhit : negb (disableSumCheck (self w))
                   && Equals sum (lastSum (self w)) = false)
      by (rewrite (Hmiss _ _ _ _ Hs); apply andb_false_r).
    destruct (upload_miss ctx _ _ _ _ _ _ _ Ht Hs Hhit Hopen)
      as (r0 & w0 & n & err & Hup & Hlog & _).
    rewrite Hrun in Hup. injection Hup as <- <-. eauto.
Qed.

(** An undisturbed compression, with the oracle indices it uses: six for
    its calls and one for the removal of its temporary file. *)
Lemma compressIfNeeded_undisturbed (path : string) (w : State SC DP)
    (data : list byte) :
  compress (self w) = true ->
  files w !! path = Some data ->
  compression_undisturbed env w ->
  exists w',
    compressIfNeeded env gzip path w = (Ok None, w') /\
    self w' = self w /\ stats w' = stats w /\
    transmissions w' = transmissions w /\
    steps w' = (steps w + 7)%nat /\
    files w' = <[path := gzip data]> (files w).
Proof.
  intros Hc Hdata Hund.
  destruct (compressIfNeeded_enabled env gzip path w data Hc Hdata)
    as (err & w' & Hrun & Hself & Hst & Htr
        & [(_ & -> & Hsteps & Hfiles)|(Hbad & _)]); [|contradiction].
  exists w'. auto 10.
Qed.

(** X10. The digest is taken after the compression. When the provider has
    put [data] at the staged path: without compression, and with no fault
    at the one read, the digest is that of [data] and the disk is as the
    provider left it; with compression, an undisturbed one (no fault at
    its six calls), and no fault at the read for the digest, which comes
    after the removal of the temporary file, the staged file holds the
    compressed data and the digest is that of the compressed data. *)
Theorem digest_taken_after_compression (path : string) (w : State SC DP)
    (d : DP) (fs : gmap string (list byte)) (data : list byte) :
  Provide (dataProvider (self w)) path (files w) = (d, fs, None) ->
  fs !! path = Some data ->
  (compress (self w) = false ->
   fault env (steps w) = None ->
   exists w',
     stage_and_digest env gzip sha256 path w = (Ok (sha256 data, None), w') /\
     files w' = fs) /\
  (compress (self w) = true ->
   fs !! temp_name env (steps w) = None ->
   (forall k, (k < 6)%nat -> fault env (steps w + k) = None) ->
   fault env (steps w + 7) = None ->
   exists w',
     stage_and_digest env gzip sha256 path w
       = (Ok (sha256 (gzip data), None), w') /\
     files w' = <[path := gzip data]> fs).
Proof.
  intros Hp Hdata. split.
  - intros Hc F0. unfold stage_and_digest, dataProvider_Provide.
    unfold bind at 1. rewrite Hp. simpl.
    unfold bind at 1, compressIfNeeded, bind, get, ret. simpl. rewrite Hc. simpl.
    run. rewrite F0. simpl. rewrite Hdata. simpl. eauto.
  - intros Hc Hfresh Hall Hread. unfold stage_and_digest, dataProvider_Provide.
    unfold bind at 1. rewrite Hp. simpl. unfold bind at 1.
    destruct (compressIfNeeded_undisturbed path
                (with_files (fun _ => fs) (with_self (set_dataProvider d) w)) data)
      as (wc & Hrun & _ & _ & _ & Hsteps & Hfiles).
    { exact Hc. }
    { exact Hdata. }
    { split; [exact Hfresh|]. exact Hall. }
    rewrite Hrun. simpl in *. run.
    rewrite Hsteps, Hread. simpl.
    rewrite Hfiles, lookup_insert_eq. simpl. eauto.
Qed.

(** [compressFromTo] on distinct paths, case by case along its four calls
    ([os.Open], [os.Create], [io.Copy], [gw.Close]). *)
Lemma compressFromTo_cases (from to : string) (w : State SC DP) :
  from <> to ->
  exists err w',
    compressFromTo env gzip from to w = (Ok err, w') /\
    self w' = self w /\ stats w' = stats w /\
    transmissions w' = transmissions w /\
    (forall p, p <> to -> files w' !! p = files w !! p) /\
    ((* the source does not open *)
     ((fault env (steps w) <> None \/ files w !! from = None) /\
      is_Some err /\ files w' = files w)
     \/
     (* the output is not created *)
     (fault env (steps w) = None /\ is_Some (files w !! from) /\
      fault env (steps w + 1) <> None /\
      is_Some err /\ files w' = files w)
     \/
     (* the copy or the closing fails *)
     (fault env (steps w) = None /\ is_Some (files w !! from) /\
      fault env (steps w + 1) = None /\
      (fault env (steps w + 2) <> None \/ fault env (steps w + 3) <> None) /\
      is_Some err /\
      (files w' !! to = Some (junk env (steps w + 2)) \/
       files w' !! to = Some (junk env (steps w + 3))))
     \/
     (* all went well *)
     (exists data,
        files w !! from = Some data /\
        (forall k, (k < 4)%nat -> fault env (steps w + k) = None) /\
        err = None /\ files w' !! to = Some (gzip data))).
Proof.
  intros Hne. unfold compressFromTo. run.
  replace (steps w + 1)%nat with (S (steps w)) by lia.
  replace (steps w + 2)%nat with (S (S (steps w))) by lia.
  replace (steps w + 3)%nat with (S (S (S (steps w)))) by lia.
  destruct (fault env (steps w)) as [e0|] eqn:F0; simpl.
  { do 2 eexists. split; [reflexivity|]. do 4 (split; [auto|]).
    left. split; [left; discriminate|]. eauto. }
  destruct (files w !! from) as [data|] eqn:Hdata; simpl.
  2:{ do 2 eexists. split; [reflexivity|]. do 4 (split; [auto|]).
      left. split; [right; reflexivity|]. eauto. }
  destruct (fault env (S (steps w))) as [e1|] eqn:F1; simpl.
  { do 2 eexists. split; [reflexivity|]. do 4 (split; [auto|]).
    right. left. repeat split; eauto; discriminate. }
  destruct (fault env (S (S (steps w)))) as [e2|] eqn:F2; simpl.
  { do 2 eexists. split; [reflexivity|]. simpl. do 3 (split; [reflexivity|]).
    split; [intros p Hp; rewrite !lookup_insert_ne by congruence; reflexivity|].
    right. right. left. split; [reflexivity|]. split; [eauto|].
    split; [reflexivity|]. split; [left; discriminate|]. split; [eauto|].
    left. apply lookup_insert_eq. }
  destruct (fault env (S (S (S (steps w))))) as [e3|] eqn:F3; simpl.
  { do 2 eexists. split; [reflexivity|]. simpl. do 3 (split; [reflexivity|]).
    split; [intros p Hp; rewrite !lookup_insert_ne by congruence; reflexivity|].
    right. right. left. split; [reflexivity|]. split; [eauto|].
    split; [reflexivity|]. split; [right; discriminate|]. split; [eauto|].
    right. apply lookup_insert_eq. }
  do 2 eexists. split; [reflexivity|]. simpl. do 3 (split; [reflexivity|]).
  split; [intros p Hp; rewrite !lookup_insert_ne by congruence; reflexivity|].
  right. right. right. exists data. split; [reflexivity|].
  split.
  - intros k Hk. destruct k as [|[|[|[|k]]]]; try lia;
      rewrite ?Nat.add_0_r;
      repeat (rewrite Nat.add_succ_r; rewrite ?Nat.add_0_r); assumption.
  - split; [reflexivity|].
    rewrite lookup_insert_eq. do 2 f_equal.
    rewrite !lookup_insert_ne, Hdata by congruence. reflexivity.
Qed.

(** X11. [compressFromTo] on distinct paths never panics, touches nothing
    but the output path, so leaves the source as it is, and returns nil
    exactly when the source exists and none of its four calls fails; the
    output then holds the compressed content of the source. *)
Theorem compressFromTo_writes_only_output (from to : string) (w : State SC DP)
    r w' :
  from <> to ->
  compressFromTo env gzip from to w = (r, w') ->
  (exists err, r = Ok err) /\
  files w' !! from = files w !! from /\
  (forall p, p <> to -> files w' !! p = files w !! p) /\
  (r = Ok None <->
   is_Some (files w !! from) /\
   forall k, (k < 4)%nat -> fault env (steps w + k) = None) /\
  (r = Ok None ->
   exists data, files w !! from = Some data /\
                files w' !! to = Some (gzip data)).
Proof.
  intros Hne Hrun.
  destruct (compressFromTo_cases from to w Hne)
    as (err & w0 & Hrun0 & _ & _ & _ & Hframe & Hcase).
  rewrite Hrun in Hrun0. injection Hrun0 as -> ->.
  split; [eauto|]. split; [apply Hframe, Hne|]. split; [exact Hframe|].
  destruct Hcase
    as [([Hf|Hn] & [e ->] & _)
       |[(F0 & Hsome & F1 & [e ->] & _)
        |[(F0 & Hsome & F1 & Hf & [e ->] & _)
         |(data & Hdata & Hall & -> & Hto)]]].
  - split; [split; [discriminate|]|discriminate].
    intros [_ Hall]. destruct Hf. rewrite <- (Hall 0%nat ltac:(lia)).
    f_equal. lia.
  - split; [split; [discriminate|]|discriminate].
    intros [[x Hx] _]. congruence.
  - split; [split; [discriminate|]|discriminate].
    intros [_ Hall]. destruct F1. apply Hall. lia.
  - split; [split; [discriminate|]|discriminate].
    intros [_ Hall]. destruct Hf as [Hf|Hf]; destruct Hf; apply Hall; lia.
  - split; [split; [eauto|reflexivity]|eauto].
Qed.

(** X12. The failures of [compressFromTo], on distinct paths. If the
    source does not open (it is missing, or the call fails) or the output
    cannot be created, an error is returned and the disk is as it was: no
    output file appears. If the copy or the closing of the compressor
    fails, an error is returned and the output file stays behind with
    whatever had been written: the function does not remove it. *)
Theorem compressFromTo_failures (from to : string) (w : State SC DP) r w' :
  from <> to ->
  compressFromTo env gzip from to w = (r, w') ->
  (files w !! from = None \/ fault env (steps w) <> None
   \/ fault env (steps w + 1) <> None ->
   (exists e, r = Ok (Some e)) /\ files w' = files w) /\
  (is_Some (files w !! from) ->
   fault env (steps w) = None ->
   fault env (steps w + 1) = None ->
   fault env (steps w + 2) <> None \/ fault env (steps w + 3) <> None ->
   (exists e, r = Ok (Some e)) /\ is_Some (files w' !! to)).
Proof.
  intros Hne Hrun.
  destruct (compressFromTo_cases from to w Hne)
    as (err & w0 & Hrun0 & _ & _ & _ & Hframe & Hcase).
  rewrite Hrun in Hrun0. injection Hrun0 as -> ->.
  destruct Hcase
    as [(Hopen & [e ->] & Hfs)
       |[(F0 & Hsome & F1 & [e ->] & Hfs)
        |[(F0 & Hsome & F1 & Hf & [e ->] & Hto)
         |(data & Hdata & Hall & -> & Hto)]]].
  - split; [eauto|]. intros [x Hx] F0 _ _. destruct Hopen; congruence.
  - split; [eauto|]. intros _ _ F1' _. congruence.
  - split; [|intros _ _ _ _; split; [eauto|destruct Hto as [->| ->]; eauto]].
    intros [Hn|[Hf0|Hf1]]; [destruct Hsome; congruence|congruence|congruence].
  - split.
    + intros [Hn|[Hf0|Hf1]]; [congruence| |].
      * destruct Hf0. rewrite <- (Hall 0%nat ltac:(lia)). f_equal. lia.
      * destruct Hf1. apply Hall. lia.
    + intros _ _ _ [Hf|Hf]; destruct Hf; apply Hall; lia.
Qed.

(** What a callee gets out of a file: the chunks in order make up the part
    of the file that is no longer unread, and their lengths are the [n]
    returned. *)
Lemma fileReader_reads_exact {A} (p : client_prog A) : forall f : fileReader,
  (concat (map (fun out => fst (fst out)) (client_reads p f))
     ++ unread (snd (run_client p f)))%list = unread f /\
  sum_counts (client_reads p f) =
    Z.of_nat (length (concat (map (fun out => fst (fst out)) (client_reads p f)))).
Proof.
  induction p as [a|len k IH]; intros f; simpl.
  - unfold sum_counts; simpl. auto.
  - change (Read f len) with (fileReader_Read f len). unfold fileReader_Read.
    destruct len as [|len].
    + destruct (IH ([], 0, None) f) as [IH1 IH2].
      unfold sum_counts in *; simpl in *. auto.
    + destruct (unread f) as [|b bs] eqn:Hf.
      * destruct (IH ([], 0, Some EOF) f) as [IH1 IH2]. rewrite Hf in IH1.
        unfold sum_counts in *; simpl in *. auto.
      * destruct (IH (take (S len) (b :: bs),
                      Z.of_nat (length (take (S len) (b :: bs))), None)
                     (mkFileReader (drop (S len) (b :: bs)))) as [IH1 IH2].
        unfold sum_counts in *. simpl in *. split.
        -- rewrite <- app_assoc, IH1. f_equal. apply take_drop.
        -- rewrite IH2, length_app. simpl. lia.
Qed.

(** X13. The counting reader over an open file, as [upload] makes it: when
    the callee is done, after whatever [Read] calls it chose to make, the
    bytes it was handed, in order, followed by the bytes still unread are
    the content of the file, and for a file within the [int64] range the
    count is the number of bytes handed out. *)
Theorem counted_bytes_are_bytes_read {A} (p : client_prog A) (data : list byte)
    a cr :
  run_client p (mkCountingReader (mkFileReader data) 0) = (a, cr) ->
  (concat (map (fun out => fst (fst out)) (client_reads p (mkFileReader data)))
     ++ unread (reader cr))%list = data /\
  (Z.of_nat (length data) <= max_int64 ->
   count cr = Z.of_nat (length data) - Z.of_nat (length (unread (reader cr)))).
Proof.
  intros Hrun.
  destruct (run_client_counting p (mkCountingReader (mkFileReader data) 0))
    as (_ & Hr & Hc).
  { simpl. unfold in_int64, min_int64, max_int64. lia. }
  rewrite Hrun in Hr, Hc. simpl in Hr, Hc.
  destruct (fileReader_reads_exact p (mkFileReader data)) as [Hcat Hsum].
  simpl in Hcat. rewrite <- Hr in Hcat. split; [exact Hcat|].
  intros Hlen.
  pose proof (fileReader_reads_bound p (mkFileReader data)) as Hb. simpl in Hb.
  rewrite Hc, wrap64_id by (unfold in_int64, min_int64, max_int64 in *; lia).
  apply (f_equal length) in Hcat. rewrite length_app in Hcat.
  rewrite Hsum. lia.
Qed.

(** X14. What the result of a cycle tells its caller. An error means that
    nothing was uploaded and nothing skipped: [lastSum], the times and the
    success, skipped and bytes counters are as before, and no call to
    [Upload] returned nil. Nil means that the cycle was skipped (the
    skipped counter was added to and [Upload] not called) or that its one
    call to [Upload] returned nil. *)
Theorem upload_result_meaning (ctx : context) (w : State SC DP) r w' :
  upload env gzip sha256 ctx w = (r, w') ->
  (forall e, r = Ok (Some e) ->
     lastSum (self w') = lastSum (self w) /\
     lastUploadTime (self w') = lastUploadTime (self w) /\
     lastUploadDuration (self w') = lastUploadDuration (self w) /\
     counter numUploadsOK (stats w') = counter numUploadsOK (stats w) /\
     counter numUploadsSkipped (stats w') = counter numUploadsSkipped (stats w) /\
     counter totalUploadBytes (stats w') = counter totalUploadBytes (stats w) /\
     counter lastUploadBytes (stats w') = counter lastUploadBytes (stats w) /\
     exists new, transmissions w' = (transmissions w ++ new)%list /\ sent new = []) /\
  (r = Ok None ->
     (stats w' = expvar_Add numUploadsSkipped 1 (stats w) /\
      transmissions w' = transmissions w) \/
     (exists n, transmissions w' = (transmissions w ++ [(n, None)])%list)).
Proof.
  intros Hrun.
  destruct (upload_outcomes _ _ _ _ _ _ _ Hrun)
    as [(e0 & _ & -> & Hself & Hst & _ & Htr)
       |(path & w1 & w2 & sum & Ht & _ & Hst & Htr & Hself & Hcase)].
  { split; [|discriminate]. intros e _. rewrite Hself, Hst, Htr.
    repeat split; auto. exists []. rewrite app_nil_r. auto. }
  assert (HL2 : lastSum (self w2) = lastSum (self w))
    by (rewrite Hself; reflexivity).
  assert (HT2 : lastUploadTime (self w2) = lastUploadTime (self w))
    by (rewrite Hself; reflexivity).
  assert (HD2 : lastUploadDuration (self w2) = lastUploadDuration (self w))
    by (rewrite Hself; reflexivity).
  clear Hself.
  destruct Hcase as [(e0 & _ & -> & ->)|[(_ & _ & -> & ->)|(w3 & Hs & Hhit & Htx & ->)]];
    simpl.
  - split; [|discriminate]. intros e _. rewrite Hst, Htr.
    repeat split; auto. exists []. rewrite app_nil_r. auto.
  - split; [discriminate|]. intros _. left. rewrite Hst, Htr. auto.
  - destruct (transmit_spec _ _ _ _ _ _ _ Htx)
      as (_ & [(e0 & _ & -> & Hself3 & Hst3 & Htr3)
              |(data & c & err & cr & _ & _ & _ & Htr3 & Hres)]).
    { split; [|discriminate]. intros e _. rewrite Hself3, Hst3, Htr3, Hst, Htr.
      repeat split; auto. exists []. rewrite app_nil_r. auto. }
    rewrite Htr3, Htr. destruct err as [e0|].
    + destruct Hres as (-> & Hself3 & Hst3). split; [|discriminate].
      intros e _. rewrite Hself3, Hst3, Hst. simpl.
      rewrite !counter_Add_ne by discriminate.
      repeat split; auto. exists [(count cr, Some e0)]. auto.
    + simpl in Hres.
      destruct (expvar_Get_Set lastUploadBytes (count cr) _);
        destruct Hres as (Hr & _).
      * rewrite Hr. split; [discriminate|]. intros _. right. eauto.
      * destruct Hr as [msg ->]. split; discriminate.
Qed.

(** X15. Counting starts over at a reset: whatever the counter map held,
    after [ResetStats] it holds the five counters at zero and nothing
    else, and a run of [Start] from there, which returns if the interval
    is positive, leaves the success and the failure counter at the number
    of calls to [Upload] that returned nil, respectively an error (as
    [int64]). *)
Theorem ResetStats_then_Start (ctx : context) (gate : option (nat -> bool))
    (signals : list signal) (w : State SC DP) r0 w0 r w' :
  ResetStats w = (r0, w0) ->
  Start env gzip sha256 ctx gate signals w0 = (r, w') ->
  r0 = Ok tt /\
  (forall key,
     stats w0 !! key =
       if bool_decide (key ∈ [numUploadsOK; numUploadsFail; numUploadsSkipped;
                              totalUploadBytes; lastUploadBytes])
       then Some 0 else None) /\
  self w0 = self w /\ files w0 = files w /\
  transmissions w0 = transmissions w /\
  (0 < interval (self w) -> r = Ok tt) /\
  exists new,
    transmissions w' = (transmissions w ++ new)%list /\
    counter numUploadsOK (stats w') = wrap64 (Z.of_nat (length (sent new))) /\
    counter numUploadsFail (stats w') = wrap64 (Z.of_nat (length (failed new))).
Proof.
  unfold ResetStats, modify. intros Hreset Hrun. injection Hreset as <- <-.
  simpl. split; [reflexivity|]. split.
  { intros key. case_bool_decide as Hin.
    - apply ResetStats_map_keys, Hin.
    - unfold ResetStats_map, expvar_Add, expvar_Init.
      rewrite !lookup_insert_ne, lookup_empty; [reflexivity|..];
        intros <-; apply Hin; repeat constructor. }
  do 3 (split; [reflexivity|]).
  set (w0 := with_stats (fun _ => ResetStats_map) w) in *.
  assert (Hgauge : is_Some (stats w0 !! lastUploadBytes)).
  { simpl. rewrite ResetStats_map_keys by repeat constructor. eauto. }
  assert (Hzero : in_int64 0) by (unfold in_int64, min_int64, max_int64; lia).
  assert (Hok : counter numUploadsOK (stats w0) = 0).
  { simpl. unfold counter. rewrite ResetStats_map_keys by repeat constructor.
    reflexivity. }
  assert (Hfail : counter numUploadsFail (stats w0) = 0).
  { simpl. unfold counter. rewrite ResetStats_map_keys by repeat constructor.
    reflexivity. }
  rewrite Start_unfold in Hrun.
  destruct (Z.leb_spec (interval (self w0)) 0) as [Hle|Hlt].
  { injection Hrun as <- <-. split; [simpl in Hle; lia|].
    exists []. rewrite app_nil_r, Hok, Hfail. auto. }
  destruct (Start_loop_returns _ _ _ _ _ _ Hgauge Hrun) as (-> & _).
  assert (Hok' : in_int64 (counter numUploadsOK (stats w0)))
    by (rewrite Hok; exact Hzero).
  assert (Hfail' : in_int64 (counter numUploadsFail (stats w0)))
    by (rewrite Hfail; exact Hzero).
  destruct (Start_ledger _ _ _ _ _ _ Hgauge Hok' Hfail' Hrun)
    as (new & Htr & E1 & E2 & _).
  split; [reflexivity|]. exists new. rewrite E1, E2, Hok, Hfail. auto.
Qed.

(** X16. [tempFilename]: a call that fails returns the empty name and
    leaves the disk as it was; a call that succeeds returns a name that was
    free, now that of an empty file, and touches no other file; so two
    calls in a row that succeed return two different names. *)
Theorem tempFilename_fresh (w : State SC DP) r w' :
  tempFilename env w = (r, w') ->
  (forall name e, r = Ok (name, Some e) -> name = "" /\ files w' = files w) /\
  (forall name, r = Ok (name, None) ->
     files w !! name = None /\ files w' !! name = Some [] /\
     (forall p, p <> name -> files w' !! p = files w !! p) /\
     forall name' w'',
       tempFilename env w' = (Ok (name', None), w'') -> name' <> name).
Proof.
  intros Hrun.
  destruct (tempFilename_cases env w) as [[e He]|(_ & Hfree & Ht)];
    rewrite Hrun in *.
  - injection He as -> ->. split; [|discriminate].
    intros name e' Heq. injection Heq as <- _. auto.
  - injection Ht as -> ->. split; [discriminate|].
    intros name Heq. injection Heq as <-. simpl.
    split; [exact Hfree|]. split; [apply lookup_insert_eq|].
    split; [intros p Hp; apply lookup_insert_ne; congruence|].
    intros name' w'' Ht' ->.
    destruct (tempFilename_cases env
                (with_files <[temp_name env (steps w):=[]]> (with_steps S w)))
      as [[e He]|(_ & Hfree' & Ht'')]; [congruence|].
    rewrite Ht' in Ht''. injection Ht'' as Hname _.
    simpl in Hfree'. rewrite <- Hname, lookup_insert_eq in Hfree'. discriminate.
Qed.

End Further.

(** ** Instances on the fakes

    Each theorem above that has hypotheses is applied to a concrete run,
    and each claim that the code does not bear out is refuted on one. *)

(** The stand-in for the hash function yields 32 bytes, as a real one. *)
Lemma fake_sha256_size (data : list byte) : length (Fake.sha256 data) = 32%nat.
Proof.
  unfold Fake.sha256. rewrite length_take, length_app, length_replicate. lia.
Qed.

(** C1 on a run: [v1] has been uploaded and is staged again. *)
Lemma dedup_hit_skips_upload_witness :
  exists w',
    upload Fake.calm Fake.gzip Fake.sha256 ctx_live Fake.uploaded = (Ok None, w') /\
    stats w' = expvar_Add numUploadsSkipped 1 (stats Fake.uploaded) /\
    counter numUploadsSkipped (stats w') =
      wrap64 (counter numUploadsSkipped (stats Fake.uploaded) + 1) /\
    transmissions w' = transmissions Fake.uploaded.
Proof.
  set (w1 := snd (tempFilename Fake.calm Fake.uploaded)).
  set (w2 := snd (stage_and_digest Fake.calm Fake.gzip Fake.sha256 (Fake.name 7) w1)).
  refine (dedup_hit_skips_upload Fake.calm Fake.gzip Fake.sha256 ctx_live
            Fake.uploaded w1 w2 (Fake.name 7) (Fake.sha256 Fake.v1) _ _ _ _);
    vm_compute; reflexivity.
Defined.

(** C9 on the same run: the skip leaves the baseline and the other
    counters as the first upload set them. *)
Lemma skipped_cycle_frame_witness :
  exists w',
    upload Fake.calm Fake.gzip Fake.sha256 ctx_live Fake.uploaded = (Ok None, w') /\
    lastSum (self w') = Fake.sha256 Fake.v1 /\
    counter numUploadsOK (stats w') = 1 /\
    counter numUploadsFail (stats w') = 0 /\
    counter totalUploadBytes (stats w') = 2 /\
    counter lastUploadBytes (stats w') = 2.
Proof.
  edestruct (skipped_cycle_frame Fake.calm Fake.gzip Fake.sha256 ctx_live
               Fake.uploaded)
    as (w' & Hup & Hsum & _ & _ & _ & _ & Hok & Hfail & Htot & Hgauge);
    [vm_compute; reflexivity ..|].
  exists w'. split; [exact Hup|].
  split; [rewrite Hsum; vm_compute; reflexivity|].
  split; [rewrite Hok; vm_compute; reflexivity|].
  split; [rewrite Hfail; vm_compute; reflexivity|].
  split; [rewrite Htot; vm_compute; reflexivity|].
  rewrite Hgauge; vm_compute; reflexivity.
Defined.

(** C2, as amended, on a run: the client fails, and the next cycle,
    staging [v1] again, is not skipped and calls it again. *)
Lemma failed_transmission_keeps_baseline_witness :
  counter numUploadsFail
    (stats (Fake.after_cycle (Fake.fresh true false [Some Fake.v1; Some Fake.v1])))
  = wrap64 (counter numUploadsFail
              (stats (Fake.fresh true false [Some Fake.v1; Some Fake.v1])) + 1) /\
  lastSum (self (Fake.after_cycle (Fake.fresh true false [Some Fake.v1; Some Fake.v1])))
  = lastSum (self (Fake.fresh true false [Some Fake.v1; Some Fake.v1])) /\
  exists r'' w'',
    upload Fake.calm Fake.gzip Fake.sha256 ctx_live
      (Fake.after_cycle (Fake.fresh true false [Some Fake.v1; Some Fake.v1]))
      = (r'', w'') /\
    counter numUploadsSkipped (stats w'') =
      counter numUploadsSkipped
        (stats (Fake.after_cycle (Fake.fresh true false [Some Fake.v1; Some Fake.v1]))) /\
    exists n' err',
      transmissions w'' =
        (transmissions
           (Fake.after_cycle (Fake.fresh true false [Some Fake.v1; Some Fake.v1]))
         ++ [(n', err')])%list.
Proof.
  set (W := Fake.fresh true false [Some Fake.v1; Some Fake.v1]).
  set (W' := Fake.after_cycle W).
  set (w1 := snd (tempFilename Fake.calm W)).
  set (w2 := snd (stage_and_digest Fake.calm Fake.gzip Fake.sha256 (Fake.name 0) w1)).
  set (w1' := snd (tempFilename Fake.calm W')).
  set (w2' := snd (stage_and_digest Fake.calm Fake.gzip Fake.sha256 (Fake.name 5) w1')).
  assert (Hlog : transmissions W' = (transmissions W ++ [(2, Some "upload failed")])%list)
    by (vm_compute; reflexivity).
  destruct (failed_transmission_keeps_baseline Fake.calm Fake.gzip Fake.sha256
              ctx_live W (fst (upload Fake.calm Fake.gzip Fake.sha256 ctx_live W))
              W' 2 "upload failed" (surjective_pairing _) Hlog)
    as (_ & _ & Hfail & Hsum & _ & _ & Hnext).
  split; [exact Hfail|]. split; [exact Hsum|].
  destruct (Hnext ctx_live (Fake.name 0) w1 (Fake.sha256 Fake.v1) w2
              (Fake.name 5) w1' (Fake.sha256 Fake.v1) w2')
    as (r'' & w'' & Hup & Hskip & Hopen & _); [vm_compute; reflexivity ..|].
  exists r'', w''. split; [exact Hup|]. split; [exact Hskip|].
  apply (Hopen (mkFile (Fake.name 5)) (snd (os_Open Fake.calm (Fake.name 5) w2'))).
  vm_compute. reflexivity.
Defined.

(** C2 as first stated fails: the client fails, and at the next cycle,
    which stages [v1] again and computes its digest, the staged file does
    not open (the fault is at the eighth call, the [os.Open] of the second
    cycle); that cycle returns the error and [Upload] is not called: no
    transmission is attempted. *)
Lemma failed_transmission_no_retry_counterexample :
  exists r w' path w1 sum w2 path' w1' w2' w'',
    upload (Fake.faulty 7) Fake.gzip Fake.sha256 ctx_live
      (Fake.fresh true false [Some Fake.v1; Some Fake.v1]) = (r, w') /\
    transmissions w' =
      (transmissions (Fake.fresh true false [Some Fake.v1; Some Fake.v1])
       ++ [(2, Some "upload failed")])%list /\
    tempFilename (Fake.faulty 7) (Fake.fresh true false [Some Fake.v1; Some Fake.v1])
      = (Ok (path, None), w1) /\
    stage_and_digest (Fake.faulty 7) Fake.gzip Fake.sha256 path w1
      = (Ok (sum, None), w2) /\
    tempFilename (Fake.faulty 7) w' = (Ok (path', None), w1') /\
    stage_and_digest (Fake.faulty 7) Fake.gzip Fake.sha256 path' w1'
      = (Ok (sum, None), w2') /\
    files w2' !! path' = files w2 !! path /\
    upload (Fake.faulty 7) Fake.gzip Fake.sha256 ctx_live w'
      = (Ok (Some "i/o error"), w'') /\
    transmissions w'' = transmissions w' /\
    counter numUploadsSkipped (stats w'') = counter numUploadsSkipped (stats w').
Proof.
  set (W := Fake.fresh true false [Some Fake.v1; Some Fake.v1]).
  set (W' := snd (upload (Fake.faulty 7) Fake.gzip Fake.sha256 ctx_live W)).
  set (w1 := snd (tempFilename (Fake.faulty 7) W)).
  set (w1' := snd (tempFilename (Fake.faulty 7) W')).
  exists (fst (upload (Fake.faulty 7) Fake.gzip Fake.sha256 ctx_live W)), W',
    (Fake.name 0), w1, (Fake.sha256 Fake.v1),
    (snd (stage_and_digest (Fake.faulty 7) Fake.gzip Fake.sha256 (Fake.name 0) w1)),
    (Fake.name 5), w1',
    (snd (stage_and_digest (Fake.faulty 7) Fake.gzip Fake.sha256 (Fake.name 5) w1')),
    (snd (upload (Fake.faulty 7) Fake.gzip Fake.sha256 ctx_live W')).
  split; [apply surjective_pairing|].
  split; [vm_compute; reflexivity|].
  split; [vm_compute; reflexivity|].
  split; [vm_compute; reflexivity|].
  split; [vm_compute; reflexivity|].
  split; [vm_compute; reflexivity|].
  split; [vm_compute; reflexivity|].
  split; [vm_compute; reflexivity|].
  split; [vm_compute; reflexivity|].
  vm_compute; reflexivity.
Qed.

(** C3 on two runs: one upload of the two bytes of [v1]; and three cycles
    staging [v1], [v1], [v2], of which the second is skipped. *)
Lemma successful_upload_accounting_witness :
  (exists r w',
     upload Fake.calm Fake.gzip Fake.sha256 ctx_live
       (Fake.fresh false false [Some Fake.v1; Some Fake.v1]) = (r, w') /\
     r = Ok None /\ lastSum (self w') = Fake.sha256 Fake.v1 /\
     counter numUploadsOK (stats w') = 1 /\
     counter totalUploadBytes (stats w') = 2 /\
     counter lastUploadBytes (stats w') = 2 /\
     lastUploadTime (self w') = 4000 /\
     lastUploadDuration (self w') = 2000) /\
  (exists w',
     cycles Fake.calm Fake.gzip Fake.sha256 ctx_live 3
       (Fake.fresh false false [Some Fake.v1; Some Fake.v1; Some Fake.v2])
       = (Ok tt, w') /\
     transmissions w' = [(2, None); (2, None)] /\
     counter totalUploadBytes (stats w') = 2 + 2 /\
     counter lastUploadBytes (stats w') = 2).
Proof.
  split.
  - set (W := Fake.fresh false false [Some Fake.v1; Some Fake.v1]).
    set (w1 := snd (tempFilename Fake.calm W)).
    set (w2 := snd (stage_and_digest Fake.calm Fake.gzip Fake.sha256 (Fake.name 0) w1)).
    destruct (proj1 (successful_upload_accounting Fake.calm Fake.gzip Fake.sha256)
                ctx_live W w1 w2 (Fake.name 0) (Fake.sha256 Fake.v1)
                (fst (upload Fake.calm Fake.gzip Fake.sha256 ctx_live W))
                (snd (upload Fake.calm Fake.gzip Fake.sha256 ctx_live W)) 2
                ltac:(vm_compute; reflexivity) ltac:(vm_compute; reflexivity)
                (surjective_pairing _) ltac:(vm_compute; reflexivity)
                ltac:(exists 0; vm_compute; reflexivity))
      as (Hr & _ & Hsum & _ & Hok & Htot & Hgauge & Htime & Hdur).
    do 2 eexists. split; [apply surjective_pairing|].
    split; [exact Hr|]. split; [exact Hsum|].
    split; [rewrite Hok; vm_compute; reflexivity|].
    split; [rewrite Htot; vm_compute; reflexivity|].
    split; [exact Hgauge|].
    split; [rewrite Htime; vm_compute; reflexivity|].
    rewrite Hdur; vm_compute; reflexivity.
  - set (W := Fake.fresh false false [Some Fake.v1; Some Fake.v1; Some Fake.v2]).
    destruct (proj2 (successful_upload_accounting Fake.calm Fake.gzip Fake.sha256)
                ctx_live 3%nat W
                (fst (cycles Fake.calm Fake.gzip Fake.sha256 ctx_live 3 W))
                (snd (cycles Fake.calm Fake.gzip Fake.sha256 ctx_live 3 W))
                ltac:(exists 0; vm_compute; reflexivity)
                ltac:(split; vm_compute; congruence)
                (surjective_pairing _))
      as (Hr & new & Hlog & _ & Hexact & Hlast).
    assert (Hnew : new = [(2, None); (2, None)]).
    { vm_compute in Hlog. symmetry. exact Hlog. }
    subst new.
    exists (snd (cycles Fake.calm Fake.gzip Fake.sha256 ctx_live 3 W)).
    split; [vm_compute; reflexivity|].
    split; [vm_compute; reflexivity|].
    split; [|exact Hlast].
    rewrite Hexact; [vm_compute; reflexivity|split; vm_compute; congruence].
Defined.

(** C7, as amended, on a run with compression in which no call fails: the
    staged file is gone. *)
Lemma staged_file_removed_witness :
  files (snd (upload Fake.calm Fake.gzip Fake.sha256 ctx_live
                (Fake.fresh false true [Some Fake.v1]))) !! Fake.name 0 = None.
Proof.
  destruct (staged_file_removed Fake.calm Fake.gzip Fake.sha256 ctx_live
              (Fake.fresh false true [Some Fake.v1])
              (snd (tempFilename Fake.calm (Fake.fresh false true [Some Fake.v1])))
              (Fake.name 0) _ _
              ltac:(vm_compute; reflexivity) (surjective_pairing _))
    as (_ & _ & wb & _ & _ & _ & _ & Hgone & _).
  apply Hgone. reflexivity.
Defined.

(** C7 as first stated fails: when the deferred [os.Remove] fails (it is
    the seventh call of a cycle that uploads), the cycle returns nil and
    leaves its staged file on disk, with the bytes of the provider. *)
Lemma staged_file_left_counterexample :
  exists w1 w',
    tempFilename (Fake.faulty 6) (Fake.fresh false false [Some Fake.v1])
      = (Ok (Fake.name 0, None), w1) /\
    upload (Fake.faulty 6) Fake.gzip Fake.sha256 ctx_live
      (Fake.fresh false false [Some Fake.v1]) = (Ok None, w') /\
    files w' !! Fake.name 0 = Some Fake.v1 /\
    files w' !! Fake.name 0 <> None.
Proof.
  do 2 eexists.
  split; [vm_compute; reflexivity|].
  split; [vm_compute; reflexivity|].
  split; [vm_compute; reflexivity|].
  vm_compute. discriminate.
Qed.

(** C8 on a file of two bytes read with buffers of 1, 5 and 5 bytes. *)
Lemma countingReader_transparent_witness :
  count (snd (read_seq (mkCountingReader (mkFileReader Fake.v1) 0) [1; 5; 5]%nat)) =
    sum_counts (fst (read_seq (mkFileReader Fake.v1) [1; 5; 5]%nat)).
Proof.
  apply (proj2 (proj2 (proj2
           (countingReader_transparent (mkFileReader Fake.v1) [1; 5; 5]%nat)))).
  split; vm_compute; congruence.
Defined.

(** C6 on two runs: an undisturbed compression, and one whose copy fails
    (the fourth call of the step). *)
Lemma compression_step_safe_witness :
  (exists w',
     compressIfNeeded Fake.calm Fake.gzip "snapshot" Fake.compressing = (Ok None, w') /\
     files w' = <["snapshot" := Fake.gzip Fake.v1]> (files Fake.compressing)) /\
  (exists e w',
     compressIfNeeded (Fake.faulty 3) Fake.gzip "snapshot" Fake.compressing
       = (Ok (Some e), w') /\
     files w' !! "snapshot" = Some Fake.v1).
Proof.
  split.
  - destruct (proj2 (compression_step_safe Fake.calm Fake.gzip "snapshot"
                       Fake.compressing) Fake.v1 eq_refl eq_refl)
      as (err & w' & Hrun & [(_ & -> & Hfiles)|(Hbad & _)]).
    + exists w'. split; [exact Hrun|exact Hfiles].
    + exfalso. apply Hbad. split; [vm_compute; reflexivity|reflexivity].
  - destruct (proj2 (compression_step_safe (Fake.faulty 3) Fake.gzip "snapshot"
                       Fake.compressing) Fake.v1 eq_refl eq_refl)
      as (err & w' & Hrun & [(Hgood & _)|(_ & [e ->] & Hkept & _)]).
    + exfalso. destruct Hgood as [_ Hall].
      specialize (Hall 3%nat ltac:(lia)). vm_compute in Hall. discriminate.
    + exists e, w'. split; [exact Hrun|exact Hkept].
Defined.

(** C4, as amended, on two runs: a skipped cycle counts once, a cycle
    whose provider fails counts nothing. *)
Lemma cycle_counted_at_most_once_witness :
  (exists r w',
     upload Fake.calm Fake.gzip Fake.sha256 ctx_live Fake.uploaded = (r, w') /\
     increments (stats Fake.uploaded) (stats w') = 1) /\
  (exists r w',
     upload Fake.calm Fake.gzip Fake.sha256 ctx_live
       (Fake.fresh false false [None]) = (r, w') /\
     increments (stats (Fake.fresh false false [None])) (stats w') = 0).
Proof.
  split.
  - set (w1 := snd (tempFilename Fake.calm Fake.uploaded)).
    set (w2 := snd (stage_and_digest Fake.calm Fake.gzip Fake.sha256 (Fake.name 7) w1)).
    do 2 eexists. split; [apply surjective_pairing|].
    refine (proj1 (proj2 (proj2 (cycle_counted_at_most_once Fake.calm Fake.gzip
                                   Fake.sha256 ctx_live Fake.uploaded _ _
                                   (surjective_pairing _)))
                     (Fake.name 7) w1 (Fake.sha256 Fake.v1) w2 _ _) _);
      vm_compute; reflexivity.
  - set (W := Fake.fresh false false [None]).
    set (w1 := snd (tempFilename Fake.calm W)).
    set (w2 := snd (stage_and_digest Fake.calm Fake.gzip Fake.sha256 (Fake.name 0) w1)).
    do 2 eexists. split; [apply surjective_pairing|].
    refine (proj2 (proj1 (proj2 (cycle_counted_at_most_once Fake.calm Fake.gzip
                                   Fake.sha256 ctx_live W _ _
                                   (surjective_pairing _)))
                     (Fake.name 0) w1 [] "provider failed" w2 _ _));
      vm_compute; reflexivity.
Defined.

(** C4 as first stated fails: with a fault at the third call of the cycle
    ([os.CreateTemp], the read for the digest, then [os.Open]), the digest
    has been computed, the dedup check does not hit, the staged file does
    not open, and the cycle returns without touching a counter. *)
Lemma cycle_counted_once_counterexample :
  exists path w1 sum w2 w',
    tempFilename (Fake.faulty 2) (Fake.fresh false false [Some Fake.v1])
      = (Ok (path, None), w1) /\
    stage_and_digest (Fake.faulty 2) Fake.gzip Fake.sha256 path w1
      = (Ok (sum, None), w2) /\
    upload (Fake.faulty 2) Fake.gzip Fake.sha256 ctx_live
      (Fake.fresh false false [Some Fake.v1]) = (Ok (Some "i/o error"), w') /\
    stats w' = stats (Fake.fresh false false [Some Fake.v1]) /\
    increments (stats (Fake.fresh false false [Some Fake.v1])) (stats w') = 0 /\
    increments (stats (Fake.fresh false false [Some Fake.v1])) (stats w') <> 1.
Proof.
  set (W := Fake.fresh false false [Some Fake.v1]).
  set (w1 := snd (tempFilename (Fake.faulty 2) W)).
  exists (Fake.name 0), w1, (Fake.sha256 Fake.v1),
    (snd (stage_and_digest (Fake.faulty 2) Fake.gzip Fake.sha256 (Fake.name 0) w1)),
    (snd (upload (Fake.faulty 2) Fake.gzip Fake.sha256 ctx_live W)).
  split; [vm_compute; reflexivity|].
  split; [vm_compute; reflexivity|].
  split; [vm_compute; reflexivity|].
  split; [vm_compute; reflexivity|].
  split; [vm_compute; reflexivity|].
  vm_compute. discriminate.
Qed.

(** C5, as amended, on a run: [v1] was uploaded, the gate closes for one
    tick, and at the next tick [v1] is uploaded again. *)
Lemma disabled_tick_forces_upload_witness :
  exists w1 w5 n err,
    Start_tick Fake.calm Fake.gzip Fake.sha256 ctx_live
      (Fake.closed_at (steps Fake.uploaded)) Fake.uploaded = (Ok tt, w1) /\
    lastSum (self w1) = [] /\
    Start_tick Fake.calm Fake.gzip Fake.sha256 ctx_live
      (Fake.closed_at (steps Fake.uploaded)) w1 = (Ok tt, w5) /\
    transmissions w5 = (transmissions w1 ++ [(n, err)])%list.
Proof.
  set (g := Fake.closed_at (steps Fake.uploaded)).
  set (wa := snd (Start_tick Fake.calm Fake.gzip Fake.sha256 ctx_live g Fake.uploaded)).
  set (w2 := snd (tempFilename Fake.calm (with_steps S wa))).
  set (w3 := snd (stage_and_digest Fake.calm Fake.gzip Fake.sha256 (Fake.name 9) w2)).
  set (w4 := snd (os_Open Fake.calm (Fake.name 9) w3)).
  set (w5 := snd (Start_tick Fake.calm Fake.gzip Fake.sha256 ctx_live g wa)).
  destruct (disabled_tick_forces_upload Fake.calm Fake.gzip Fake.sha256 ctx_live
              g Fake.uploaded
              (fst (Start_tick Fake.calm Fake.gzip Fake.sha256 ctx_live g Fake.uploaded))
              wa fake_sha256_size ltac:(vm_compute; reflexivity)
              (surjective_pairing _))
    as (_ & Hsum & _ & _ & _ & Hnext).
  destruct (Hnext ctx_live (Fake.name 9) w2 (Fake.sha256 Fake.v1) w3
              (mkFile (Fake.name 9)) w4
              (fst (Start_tick Fake.calm Fake.gzip Fake.sha256 ctx_live g wa)) w5
              ltac:(vm_compute; reflexivity) ltac:(vm_compute; reflexivity)
              ltac:(vm_compute; reflexivity) ltac:(vm_compute; reflexivity)
              (surjective_pairing _))
    as (n & err & Hlog).
  exists wa, w5, n, err.
  split; [vm_compute; reflexivity|]. split; [exact Hsum|].
  split; [vm_compute; reflexivity|exact Hlog].
Defined.

(** C5 as first stated fails: [v1] was uploaded, the gate closes for one
    tick and opens again, but at that tick the provider fails, and no call
    to [Upload] is made. *)
Lemma enabled_tick_without_upload_counterexample :
  exists w1 w2,
    Fake.closed_at (steps Fake.uploaded_then_broken)
      (steps Fake.uploaded_then_broken) = false /\
    Start_tick Fake.calm Fake.gzip Fake.sha256 ctx_live
      (Fake.closed_at (steps Fake.uploaded_then_broken))
      Fake.uploaded_then_broken = (Ok tt, w1) /\
    Fake.closed_at (steps Fake.uploaded_then_broken) (steps w1) = true /\
    Start_tick Fake.calm Fake.gzip Fake.sha256 ctx_live
      (Fake.closed_at (steps Fake.uploaded_then_broken)) w1 = (Ok tt, w2) /\
    transmissions w2 = transmissions w1.
Proof.
  set (g := Fake.closed_at (steps Fake.uploaded_then_broken)).
  set (w1 := snd (Start_tick Fake.calm Fake.gzip Fake.sha256 ctx_live g
                    Fake.uploaded_then_broken)).
  exists w1, (snd (Start_tick Fake.calm Fake.gzip Fake.sha256 ctx_live g w1)).
  split; [vm_compute; reflexivity|].
  split; [vm_compute; reflexivity|].
  split; [vm_compute; reflexivity|].
  split; [vm_compute; reflexivity|].
  vm_compute; reflexivity.
Qed.

(** C10, as amended, on a run from fresh counters. *)
Lemma counters_never_decrease_witness :
  exists r w',
    upload Fake.calm Fake.gzip Fake.sha256 ctx_live
      (Fake.fresh false false [Some Fake.v1]) = (r, w') /\
    counter numUploadsOK (stats (Fake.fresh false false [Some Fake.v1]))
      <= counter numUploadsOK (stats w') /\
    counter totalUploadBytes (stats (Fake.fresh false false [Some Fake.v1]))
      <= counter totalUploadBytes (stats w').
Proof.
  set (W := Fake.fresh false false [Some Fake.v1]).
  assert (Hsize : forall path w1 rs w2 data,
            tempFilename Fake.calm W = (Ok (path, None), w1) ->
            stage_and_digest Fake.calm Fake.gzip Fake.sha256 path w1 = (rs, w2) ->
            files w2 !! path = Some data ->
            counter totalUploadBytes (stats W) + Z.of_nat (length data) <= max_int64).
  { intros path w1 rs w2 data Ht Hs Hd.
    vm_compute in Ht. injection Ht as <- <-.
    vm_compute in Hs. injection Hs as <- <-.
    vm_compute in Hd. injection Hd as <-.
    vm_compute. congruence. }
  destruct (counters_never_decrease Fake.calm Fake.gzip Fake.sha256 ctx_live W
              (fst (upload Fake.calm Fake.gzip Fake.sha256 ctx_live W))
              (snd (upload Fake.calm Fake.gzip Fake.sha256 ctx_live W))
              ltac:(vm_compute; reflexivity) ltac:(vm_compute; reflexivity)
              ltac:(vm_compute; reflexivity) ltac:(vm_compute; congruence)
              Hsize (surjective_pairing _))
    as (Hok & _ & _ & Htot).
  do 2 eexists. split; [apply surjective_pairing|].
  split; [exact Hok|exact Htot].
Defined.

(** C10 as first stated fails: with the skipped counter at the largest
    [int64], a skipped cycle wraps it around to the smallest. *)
Lemma counter_wraps_counterexample :
  exists w',
    upload Fake.calm Fake.gzip Fake.sha256 ctx_live Fake.saturated = (Ok None, w') /\
    counter numUploadsSkipped (stats Fake.saturated) = max_int64 /\
    counter numUploadsSkipped (stats w') = min_int64 /\
    counter numUploadsSkipped (stats w') < counter numUploadsSkipped (stats Fake.saturated).
Proof.
  exists (snd (upload Fake.calm Fake.gzip Fake.sha256 ctx_live Fake.saturated)).
  split; [vm_compute; reflexivity|].
  split; [vm_compute; reflexivity|].
  split; [vm_compute; reflexivity|].
  vm_compute; reflexivity.
Qed.

(** ** Instances of the further properties *)

(** X1 on two runs: three ticks and a cancellation from fresh counters,
    and a service made with an interval of zero. *)
Lemma Start_panics_only_at_NewTicker_witness :
  fst (Start Fake.calm Fake.gzip Fake.sha256 ctx_live None
         [ticker_C; ticker_C; ticker_C; ctx_Done; ticker_C]
         (Fake.fresh false false [Some Fake.v1; Some Fake.v1; Some Fake.v2]))
  = Ok tt /\
  fst (Start Fake.calm Fake.gzip Fake.sha256 ctx_live None [ticker_C] Fake.unticked)
  = Panic "non-positive interval for NewTicker".
Proof.
  split.
  - refine (proj1 (proj2 (Start_panics_only_at_NewTicker Fake.calm Fake.gzip
                     Fake.sha256 ctx_live None
                     [ticker_C; ticker_C; ticker_C; ctx_Done; ticker_C]
                     (Fake.fresh false false [Some Fake.v1; Some Fake.v1; Some Fake.v2])
                     _ _ _ (surjective_pairing _)) _)).
    + exists 0. vm_compute. reflexivity.
    + vm_compute. reflexivity.
  - refine (proj1 (proj1 (Start_panics_only_at_NewTicker Fake.calm Fake.gzip
                     Fake.sha256 ctx_live None [ticker_C] Fake.unticked
                     _ _ _ (surjective_pairing _)) _)).
    + exists 0. vm_compute. reflexivity.
    + vm_compute. congruence.
Defined.

(** X7 on the first cycle of a fresh service. *)
Lemma dedup_miss_uploads_witness :
  exists r w' n err,
    upload Fake.calm Fake.gzip Fake.sha256 ctx_live
      (Fake.fresh false false [Some Fake.v1]) = (r, w') /\
    transmissions w' =
      (transmissions (Fake.fresh false false [Some Fake.v1]) ++ [(n, err)])%list /\
    counter numUploadsSkipped (stats w') =
      counter numUploadsSkipped (stats (Fake.fresh false false [Some Fake.v1])).
Proof.
  set (W := Fake.fresh false false [Some Fake.v1]).
  set (w1 := snd (tempFilename Fake.calm W)).
  set (w2 := snd (stage_and_digest Fake.calm Fake.gzip Fake.sha256 (Fake.name 0) w1)).
  refine (dedup_miss_uploads Fake.calm Fake.gzip Fake.sha256 ctx_live W w1 w2
            (Fake.name 0) (Fake.sha256 Fake.v1) (mkFile (Fake.name 0))
            (snd (os_Open Fake.calm (Fake.name 0) w2)) _ _ (or_intror _) _);
    vm_compute; reflexivity.
Defined.

(** X2 on a service whose counter map is empty. *)
Lemma upload_panics_without_gauge_witness :
  (exists msg,
     fst (upload Fake.calm Fake.gzip Fake.sha256 ctx_live
            (with_stats (fun _ => expvar_Init)
               (Fake.fresh false false [Some Fake.v1]))) = Panic msg) /\
  lastSum (self (snd (upload Fake.calm Fake.gzip Fake.sha256 ctx_live
                        (with_stats (fun _ => expvar_Init)
                           (Fake.fresh false false [Some Fake.v1])))))
    = Fake.sha256 Fake.v1.
Proof.
  set (W := with_stats (fun _ => expvar_Init) (Fake.fresh false false [Some Fake.v1])).
  set (w1 := snd (tempFilename Fake.calm W)).
  set (w2 := snd (stage_and_digest Fake.calm Fake.gzip Fake.sha256 (Fake.name 0) w1)).
  assert (Hgauge : stats W !! lastUploadBytes = None) by reflexivity.
  assert (Ht : tempFilename Fake.calm W = (Ok (Fake.name 0, None), w1))
    by (vm_compute; reflexivity).
  assert (Hs : stage_and_digest Fake.calm Fake.gzip Fake.sha256 (Fake.name 0) w1
               = (Ok (Fake.sha256 Fake.v1, None), w2))
    by (vm_compute; reflexivity).
  assert (Hlog : transmissions (snd (upload Fake.calm Fake.gzip Fake.sha256 ctx_live W))
                 = (transmissions W ++ [(2, None)])%list)
    by (vm_compute; reflexivity).
  destruct (upload_panics_without_gauge Fake.calm Fake.gzip Fake.sha256 ctx_live
              W w1 w2 (Fake.name 0) (Fake.sha256 Fake.v1) _ _ 2
              Hgauge Ht Hs (surjective_pairing _) Hlog)
    as (Hpanic & Hsum & _).
  split; [exact Hpanic|exact Hsum].
Defined.

(** X4 on two ticks after an upload. *)
Lemma Start_with_closed_gate_witness :
  transmissions (snd (Start Fake.calm Fake.gzip Fake.sha256 ctx_live
                        (Some (fun _ => false)) [ticker_C; ticker_C] Fake.uploaded))
    = transmissions Fake.uploaded /\
  self (snd (Start Fake.calm Fake.gzip Fake.sha256 ctx_live
               (Some (fun _ => false)) [ticker_C; ticker_C] Fake.uploaded))
    = set_lastSum [] (self Fake.uploaded).
Proof.
  destruct (Start_with_closed_gate Fake.calm Fake.gzip Fake.sha256 ctx_live
              (fun _ => false) [ticker_C; ticker_C] Fake.uploaded _ _
              ltac:(vm_compute; reflexivity)
              (fun _ => eq_refl) (surjective_pairing _))
    as (_ & _ & _ & Htr & _ & Hself).
  split; [exact Htr|exact Hself].
Defined.

(** X5 on three ticks against a client that always fails. *)
Lemma Start_counters_match_record_witness :
  exists new,
    transmissions (snd (Start Fake.calm Fake.gzip Fake.sha256 ctx_live None
                          [ticker_C; ticker_C; ticker_C]
                          (Fake.fresh true false
                             [Some Fake.v1; Some Fake.v1; Some Fake.v1])))
      = (transmissions (Fake.fresh true false
                          [Some Fake.v1; Some Fake.v1; Some Fake.v1]) ++ new)%list /\
    counter numUploadsOK
      (stats (snd (Start Fake.calm Fake.gzip Fake.sha256 ctx_live None
                     [ticker_C; ticker_C; ticker_C]
                     (Fake.fresh true false
                        [Some Fake.v1; Some Fake.v1; Some Fake.v1]))))
      = wrap64 (counter numUploadsOK
                  (stats (Fake.fresh true false
                            [Some Fake.v1; Some Fake.v1; Some Fake.v1]))
                + Z.of_nat (length (sent new))) /\
    counter numUploadsFail
      (stats (snd (Start Fake.calm Fake.gzip Fake.sha256 ctx_live None
                     [ticker_C; ticker_C; ticker_C]
                     (Fake.fresh true false
                        [Some Fake.v1; Some Fake.v1; Some Fake.v1]))))
      = wrap64 (counter numUploadsFail
                  (stats (Fake.fresh true false
                            [Some Fake.v1; Some Fake.v1; Some Fake.v1]))
                + Z.of_nat (length (failed new))).
Proof.
  refine (Start_counters_match_record Fake.calm Fake.gzip Fake.sha256 ctx_live
            None [ticker_C; ticker_C; ticker_C]
            (Fake.fresh true false [Some Fake.v1; Some Fake.v1; Some Fake.v1])
            _ _ _ _ _ (surjective_pairing _)).
  - exists 0. vm_compute. reflexivity.
  - split; vm_compute; congruence.
  - split; vm_compute; congruence.
Defined.

(** X6 on the same run: the baseline stays nil. *)
Lemma Start_without_success_witness :
  lastSum (self (snd (Start Fake.calm Fake.gzip Fake.sha256 ctx_live None
                        [ticker_C; ticker_C; ticker_C]
                        (Fake.fresh true false
                           [Some Fake.v1; Some Fake.v1; Some Fake.v1]))))
    = lastSum (self (Fake.fresh true false
                       [Some Fake.v1; Some Fake.v1; Some Fake.v1])) \/
  lastSum (self (snd (Start Fake.calm Fake.gzip Fake.sha256 ctx_live None
                        [ticker_C; ticker_C; ticker_C]
                        (Fake.fresh true false
                           [Some Fake.v1; Some Fake.v1; Some Fake.v1]))))
    = [].
Proof.
  refine (proj1 (Start_without_success Fake.calm Fake.gzip Fake.sha256 ctx_live
                   None [ticker_C; ticker_C; ticker_C]
                   (Fake.fresh true false [Some Fake.v1; Some Fake.v1; Some Fake.v1])
                   _ _
                   (transmissions
                      (snd (Start Fake.calm Fake.gzip Fake.sha256 ctx_live None
                              [ticker_C; ticker_C; ticker_C]
                              (Fake.fresh true false
                                 [Some Fake.v1; Some Fake.v1; Some Fake.v1]))))
                   _ _ _ (surjective_pairing _) _ _)).
  - exists 0. vm_compute. reflexivity.
  - split; vm_compute; congruence.
  - split; vm_compute; congruence.
  - reflexivity.
  - vm_compute. reflexivity.
Defined.

(** X8 on two cycles that stage [v1]. *)
Lemma same_bytes_skipped_after_success_witness :
  exists w'',
    upload Fake.calm Fake.gzip Fake.sha256 ctx_live Fake.uploaded = (Ok None, w'') /\
    transmissions w'' = transmissions Fake.uploaded /\
    stats w'' = expvar_Add numUploadsSkipped 1 (stats Fake.uploaded) /\
    lastSum (self w'') = Fake.sha256 Fake.v1.
Proof.
  set (W := Fake.fresh false false [Some Fake.v1; Some Fake.v1]).
  set (w1 := snd (tempFilename Fake.calm W)).
  set (w2 := snd (stage_and_digest Fake.calm Fake.gzip Fake.sha256 (Fake.name 0) w1)).
  set (w1' := snd (tempFilename Fake.calm Fake.uploaded)).
  set (w2' := snd (stage_and_digest Fake.calm Fake.gzip Fake.sha256 (Fake.name 7) w1')).
  refine (same_bytes_skipped_after_success Fake.calm Fake.gzip Fake.sha256
            ctx_live ctx_live W w1 w2 (Fake.name 0) (Fake.sha256 Fake.v1)
            (fst (upload Fake.calm Fake.gzip Fake.sha256 ctx_live W))
            Fake.uploaded 2 (Fake.name 7) w1' (Fake.sha256 Fake.v1) w2'
            _ _ _ _ _ _ _ _ _).
  - reflexivity.
  - exists 0. vm_compute. reflexivity.
  - vm_compute. reflexivity.
  - vm_compute. reflexivity.
  - apply surjective_pairing.
  - vm_compute. reflexivity.
  - vm_compute. reflexivity.
  - vm_compute. reflexivity.
  - vm_compute. reflexivity.
Defined.

(** X9 on the first cycle of a service fresh from [NewUploader]. *)
Lemma first_cycle_not_skipped_witness :
  counter numUploadsSkipped
    (stats (snd (upload Fake.calm Fake.gzip Fake.sha256 ctx_live
                   (Fake.fresh false false [Some Fake.v1]))))
  = counter numUploadsSkipped (stats (Fake.fresh false false [Some Fake.v1])).
Proof.
  refine (proj1 (first_cycle_not_skipped Fake.calm Fake.gzip Fake.sha256 ctx_live
                   (Fake.mkClient false []) (Fake.mkProvider [Some Fake.v1])
                   100 false (Fake.fresh false false [Some Fake.v1]) _ _
                   fake_sha256_size eq_refl (surjective_pairing _))).
Defined.

(** X10 on a provider that writes [v1], without and with compression. *)
Lemma digest_taken_after_compression_witness :
  (exists w',
     stage_and_digest Fake.calm Fake.gzip Fake.sha256 "staged"
       (Fake.fresh false false [Some Fake.v1])
       = (Ok (Fake.sha256 Fake.v1, None), w') /\
     files w' = <["staged" := Fake.v1]> ∅) /\
  (exists w',
     stage_and_digest Fake.calm Fake.gzip Fake.sha256 "staged"
       (Fake.fresh false true [Some Fake.v1])
       = (Ok (Fake.sha256 (Fake.gzip Fake.v1), None), w') /\
     files w' = <["staged" := Fake.gzip Fake.v1]> (<["staged" := Fake.v1]> ∅)).
Proof.
  split.
  - refine (proj1 (digest_taken_after_compression Fake.calm Fake.gzip Fake.sha256
                     "staged" (Fake.fresh false false [Some Fake.v1])
                     (Fake.mkProvider []) (<["staged" := Fake.v1]> ∅) Fake.v1
                     eq_refl _) eq_refl eq_refl).
    vm_compute. reflexivity.
  - refine (proj2 (digest_taken_after_compression Fake.calm Fake.gzip Fake.sha256
                     "staged" (Fake.fresh false true [Some Fake.v1])
                     (Fake.mkProvider []) (<["staged" := Fake.v1]> ∅) Fake.v1
                     eq_refl _) eq_refl _ (fun _ _ => eq_refl) eq_refl);
      vm_compute; reflexivity.
Defined.

(** X11 on the snapshot of [Fake.compressing], compressed to "out". *)
Lemma compressFromTo_writes_only_output_witness :
  files (snd (compressFromTo Fake.calm Fake.gzip "snapshot" "out" Fake.compressing))
    !! "snapshot" = files Fake.compressing !! "snapshot" /\
  exists data,
    files Fake.compressing !! "snapshot" = Some data /\
    files (snd (compressFromTo Fake.calm Fake.gzip "snapshot" "out" Fake.compressing))
      !! "out" = Some (Fake.gzip data).
Proof.
  destruct (compressFromTo_writes_only_output Fake.calm Fake.gzip
              "snapshot" "out" Fake.compressing _ _
              ltac:(discriminate) (surjective_pairing _))
    as (_ & Hfrom & _ & _ & Hnil).
  split; [exact Hfrom|]. apply Hnil. vm_compute. reflexivity.
Defined.

(** X12 on two runs: a source that is missing, and a copy that fails. *)
Lemma compressFromTo_failures_witness :
  files (snd (compressFromTo Fake.calm Fake.gzip "nothing" "out" Fake.compressing))
    = files Fake.compressing /\
  is_Some (files (snd (compressFromTo (Fake.faulty 2) Fake.gzip "snapshot" "out"
                         Fake.compressing)) !! "out").
Proof.
  split.
  - refine (proj2 (proj1 (compressFromTo_failures Fake.calm Fake.gzip
                            "nothing" "out" Fake.compressing _ _
                            _ (surjective_pairing _)) (or_introl _)));
      [discriminate|vm_compute; reflexivity].
  - refine (proj2 (proj2 (compressFromTo_failures (Fake.faulty 2) Fake.gzip
                            "snapshot" "out" Fake.compressing _ _
                            _ (surjective_pairing _)) _ _ _ (or_introl _))).
    + discriminate.
    + exists Fake.v1. vm_compute. reflexivity.
    + reflexivity.
    + reflexivity.
    + vm_compute. discriminate.
Defined.

(** X13 on the fake client reading a file of two bytes. *)
Lemma counted_bytes_are_bytes_read_witness :
  count (snd (run_client (Upload (Fake.mkClient false []) ctx_live)
                (mkCountingReader (mkFileReader Fake.v1) 0)))
  = Z.of_nat (length Fake.v1)
    - Z.of_nat (length (unread (reader
        (snd (run_client (Upload (Fake.mkClient false []) ctx_live)
                (mkCountingReader (mkFileReader Fake.v1) 0)))))).
Proof.
  refine (proj2 (counted_bytes_are_bytes_read
                   (Upload (Fake.mkClient false []) ctx_live) Fake.v1 _ _
                   (surjective_pairing _)) _).
  vm_compute. congruence.
Defined.

(** X14 on a cycle whose upload fails. *)
Lemma upload_result_meaning_witness :
  lastSum (self (snd (upload Fake.calm Fake.gzip Fake.sha256 ctx_live
                        (Fake.fresh true false [Some Fake.v1]))))
  = lastSum (self (Fake.fresh true false [Some Fake.v1])).
Proof.
  refine (proj1 (proj1 (upload_result_meaning Fake.calm Fake.gzip Fake.sha256
                          ctx_live (Fake.fresh true false [Some Fake.v1]) _ _
                          (surjective_pairing _)) "upload failed" _)).
  vm_compute. reflexivity.
Defined.

(** X15 on a reset of the saturated counters, followed by two ticks. *)
Lemma ResetStats_then_Start_witness :
  exists new,
    transmissions
      (snd (Start Fake.calm Fake.gzip Fake.sha256 ctx_live None
              [ticker_C; ticker_C] (snd (ResetStats Fake.saturated))))
      = (transmissions Fake.saturated ++ new)%list /\
    counter numUploadsOK
      (stats (snd (Start Fake.calm Fake.gzip Fake.sha256 ctx_live None
                     [ticker_C; ticker_C] (snd (ResetStats Fake.saturated)))))
      = wrap64 (Z.of_nat (length (sent new))) /\
    counter numUploadsFail
      (stats (snd (Start Fake.calm Fake.gzip Fake.sha256 ctx_live None
                     [ticker_C; ticker_C] (snd (ResetStats Fake.saturated)))))
      = wrap64 (Z.of_nat (length (failed new))).
Proof.
  destruct (ResetStats_then_Start Fake.calm Fake.gzip Fake.sha256 ctx_live None
              [ticker_C; ticker_C] Fake.saturated _ _ _ _
              (surjective_pairing _) (surjective_pairing _))
    as (_ & _ & _ & _ & _ & _ & Hnew).
  exact Hnew.
Defined.

(** X16 on an empty disk. *)
Lemma tempFilename_fresh_witness :
  files (snd (tempFilename Fake.calm (Fake.fresh false false []))) !! Fake.name 0
  = Some [].
Proof.
  refine (proj1 (proj2 (proj2 (tempFilename_fresh Fake.calm
                                 (Fake.fresh false false []) _ _
                                 (surjective_pairing _)) (Fake.name 0) _))).
  vm_compute. reflexivity.
Defined.
